(** * Bridge transaction orchestrator: a shallow embedding and its properties

    The development follows the Python sources of the bot:

    - [bridge_logic/bridge_aggregator.py]  ([BridgeAggregator])
    - [bridge_logic/jumper_bridge.py]      ([JumperBridgeService])
    - [bridge_logic/stargate_bridge.py]    ([StargateBridgeService])
    - [bridge_logic/relay_bridge.py]       ([RelayBridgeService])
    - [wallet_management/balance_checker.py], [wallet_manager.py] and
      [wallet_service.py], for the balances and the stored wallets

    Python values are embedded as an inductive type, dictionaries as
    association lists in insertion order, and effectful code in a state monad
    that threads the trace of external calls, the random generator and the
    transaction history, with outcomes for early [return] and for raised
    exceptions.

    Modelling conventions:
    - Python [float]s are IEEE 754 binary64 numbers, with the operations of
      [SpecFloat]: round to nearest, ties to even, infinities and NaN.
    - All exceptions are identified: every handler of the sources is
      [except Exception].
    - Strings are byte strings; [int()] is modelled on ASCII input. *)

From Stdlib Require Import ZArith QArith Lia List Bool String Ascii.
From Stdlib Require Import SpecFloat.
From Stdlib Require Import Orders Mergesort Sorted Permutation.
Import ListNotations.

Local Open Scope string_scope.
Local Open Scope Z_scope.

(* ================================================================== *)
(** * Floats *)
(* ================================================================== *)

(** A Python [float] is a binary64 number: 53 bits of precision, and 1024 as
    the exponent of the infinities. *)
Definition float : Type := spec_float.

Definition float_prec : Z := 53.
Definition float_emax : Z := 1024.

(** The float nearest to an integer, ties to even; an integer too large
    gives an infinity. *)
Definition float_of_Z (z : Z) : float :=
  binary_normalize float_prec float_emax z 0 false.

(** [float(z)] as the arithmetic operators convert an [int] operand;
    [None] is the [OverflowError] raised for an integer too large. *)
Definition py_float_of_int (z : Z) : option float :=
  match float_of_Z z with
  | S754_infinity _ => None
  | x => Some x
  end.

(** [x * y] and [x + y] on floats. *)
Definition fmul (x y : float) : float := SFmul float_prec float_emax x y.
Definition fadd (x y : float) : float := SFadd float_prec float_emax x y.

(** [x / y] on floats, for a divisor that is not zero. *)
Definition fdiv (x y : float) : float := SFdiv float_prec float_emax x y.

(** [x <= y] and [x < y] on floats: false when an operand is NaN. *)
Definition fleb (x y : float) : bool := SFleb x y.
Definition fltb (x y : float) : bool := SFltb x y.

(** The literal [0.97]: the float nearest to 97/100. *)
Definition float_0_97 : float := fdiv (float_of_Z 97) (float_of_Z 100).

(** [int(x)] on a float: truncation towards zero; [None] is the
    [OverflowError] or [ValueError] raised for an infinity or NaN. *)
Definition float_trunc (x : float) : option Z :=
  match x with
  | S754_zero _ => Some 0
  | S754_finite s m e =>
      let n := if 0 <=? e then Zpos m * 2 ^ e else Zpos m / 2 ^ (- e) in
      Some (if s then - n else n)
  | S754_infinity _ => None
  | S754_nan => None
  end.

(* ================================================================== *)
(** * Python values *)
(* ================================================================== *)

(** Dictionaries keep their insertion order ([list(d.keys())] is observable
    through [random.choice]), hence association lists. *)
Definition dict (V : Type) : Type := list (string * V).

#[warnings="-register-all"] Inductive pyval : Type :=
| PNone
| PBool (b : bool)
| PInt (z : Z)
| PFloat (x : float)
| PStr (s : string)
| PBytes (s : string)
| PList (l : list pyval)
| PDict (d : list (string * pyval)).

Module Dict.

Fixpoint get {V : Type} (d : dict V) (k : string) : option V :=
  match d with
  | [] => None
  | (k', v) :: d' => if String.eqb k' k then Some v else get d' k
  end.

(** [k in d] *)
Definition mem {V : Type} (d : dict V) (k : string) : bool :=
  match get d k with Some _ => true | None => false end.

(** [d[k] = v]: an existing key keeps its position. *)
Fixpoint set {V : Type} (d : dict V) (k : string) (v : V) : dict V :=
  match d with
  | [] => [(k, v)]
  | (k', v') :: d' =>
      if String.eqb k' k then (k', v) :: d' else (k', v') :: set d' k v
  end.

(** [list(d.keys())] *)
Definition keys {V : Type} (d : dict V) : list string := map fst d.

(** [not d] *)
Definition is_empty {V : Type} (d : dict V) : bool :=
  match d with [] => true | _ :: _ => false end.

End Dict.

(** [not l] on a list *)
Definition list_is_empty {A : Type} (l : list A) : bool :=
  match l with [] => true | _ :: _ => false end.

(** Python truth value testing. *)
Definition truthy (v : pyval) : bool :=
  match v with
  | PNone => false
  | PBool b => b
  | PInt z => negb (z =? 0)
  | PFloat x => match x with S754_zero _ => false | _ => true end
  | PStr s => negb (String.eqb s "")
  | PBytes s => negb (String.eqb s "")
  | PList l => negb (list_is_empty l)
  | PDict d => negb (Dict.is_empty d)
  end.

(** [p in s] on strings: substring test. *)
Fixpoint is_substring (p s : string) : bool :=
  String.prefix p s ||
  match s with
  | EmptyString => false
  | String _ s' => is_substring p s'
  end.

(** [k in v] for a string [k]; [None] is a raised [TypeError]. *)
Definition py_contains (k : string) (v : pyval) : option bool :=
  match v with
  | PDict d => Some (Dict.mem d k)
  | PStr s => Some (is_substring k s)
  | PList l =>
      Some (existsb (fun e => match e with
                              | PStr s => String.eqb s k
                              | _ => false
                              end) l)
  | _ => None
  end.

(** [v[k]] for a string [k]; [None] is a raised [KeyError] or [TypeError]. *)
Definition py_getitem (v : pyval) (k : string) : option pyval :=
  match v with
  | PDict d => Dict.get d k
  | _ => None
  end.

(** [v.get(k, default)]; [None] is a raised [AttributeError]. *)
Definition py_get (v : pyval) (k : string) (default : pyval) : option pyval :=
  match v with
  | PDict d => Some (match Dict.get d k with Some x => x | None => default end)
  | _ => None
  end.

(** [isinstance(v, str)] *)
Definition isinstance_str (v : pyval) : bool :=
  match v with PStr _ => true | _ => false end.

(* ------------------------------------------------------------------ *)
(** ** [int(s)] and [int(s, 16)] on strings *)
(* ------------------------------------------------------------------ *)

(** The white space that [int()] skips around the digits of an ASCII
    string: the characters 9 to 13 and the space. *)
Definition is_py_space (c : ascii) : bool :=
  let n := nat_of_ascii c in
  ((9 <=? n) && (n <=? 13) || (n =? 32))%nat.

Fixpoint lstrip (cs : list ascii) : list ascii :=
  match cs with
  | c :: cs' => if is_py_space c then lstrip cs' else cs
  | [] => []
  end.

Definition strip (cs : list ascii) : list ascii :=
  rev (lstrip (rev (lstrip cs))).

(** Value of a digit character in bases up to 36. *)
Definition digit_value (c : ascii) : option Z :=
  let n := Z.of_nat (nat_of_ascii c) in
  if (48 <=? n) && (n <=? 57) then Some (n - 48)
  else if (97 <=? n) && (n <=? 122) then Some (n - 87)
  else if (65 <=? n) && (n <=? 90) then Some (n - 55)
  else None.

(** Digits, with single underscores allowed between two digits. *)
Fixpoint parse_digits (base acc : Z) (after_digit : bool) (cs : list ascii)
  : option Z :=
  match cs with
  | [] => if after_digit then Some acc else None
  | c :: cs' =>
      if Ascii.eqb c "_"%char then
        if after_digit then parse_digits base acc false cs' else None
      else
        match digit_value c with
        | Some d =>
            if d <? base then parse_digits base (acc * base + d) true cs'
            else None
        | None => None
        end
  end.

(** The base prefix of [int(s, 16)]: [0x] or [0X], then at most one
    underscore. *)
Definition drop_hex_prefix (cs : list ascii) : list ascii :=
  match cs with
  | c :: x :: r =>
      if Ascii.eqb c "0"%char &&
         (Ascii.eqb x "x"%char || Ascii.eqb x "X"%char)
      then
        match r with
        | u :: r' => if Ascii.eqb u "_"%char then r' else r
        | [] => r
        end
      else cs
  | _ => cs
  end.

(** The optional sign. *)
Definition split_sign (cs : list ascii) : bool * list ascii :=
  match cs with
  | c :: r =>
      if Ascii.eqb c "+"%char then (false, r)
      else if Ascii.eqb c "-"%char then (true, r)
      else (false, cs)
  | [] => (false, cs)
  end.

(** [int(s, base)] for [base] 10 or 16; [None] is a raised [ValueError].
    The cap that recent interpreters put on the number of decimal digits is
    not modelled. *)
Definition py_int_of_string (base : Z) (s : string) : option Z :=
  let cs := strip (list_ascii_of_string s) in
  let negative := fst (split_sign cs) in
  let cs := snd (split_sign cs) in
  let cs := if base =? 16 then drop_hex_prefix cs else cs in
  match parse_digits base 0 false cs with
  | Some n => Some (if negative then - n else n)
  | None => None
  end.

(** [int(v)]; [None] is a raised [TypeError], [ValueError] or
    [OverflowError]. *)
Definition py_int (v : pyval) : option Z :=
  match v with
  | PInt z => Some z
  | PBool b => Some (if b then 1 else 0)
  | PFloat x => float_trunc x
  | PStr s => py_int_of_string 10 s
  | PBytes s => py_int_of_string 10 s
  | _ => None
  end.

(** [int(v, 16)]: an explicit base requires a string. *)
Definition py_int16 (v : pyval) : option Z :=
  match v with
  | PStr s => py_int_of_string 16 s
  | PBytes s => py_int_of_string 16 s
  | _ => None
  end.

(** [a, b = v]: unpacking into exactly two targets. *)
Definition py_unpack2 (v : pyval) : option (pyval * pyval) :=
  match v with
  | PList [a; b] => Some (a, b)
  | PStr (String a (String b EmptyString)) =>
      Some (PStr (String a EmptyString), PStr (String b EmptyString))
  | PBytes (String a (String b EmptyString)) =>
      Some (PInt (Z.of_nat (nat_of_ascii a)), PInt (Z.of_nat (nat_of_ascii b)))
  | PDict [(a, _); (b, _)] => Some (PStr a, PStr b)
  | _ => None
  end.

(** The float operand that arithmetic with a float makes of a value
    ([bool] is a subtype of [int]); [None] is the [TypeError] raised for a
    value that is not a number, or the [OverflowError] raised for an integer
    too large. *)
Definition as_number (v : pyval) : option float :=
  match v with
  | PInt z => py_float_of_int z
  | PBool b => Some (float_of_Z (if b then 1 else 0))
  | PFloat x => Some x
  | _ => None
  end.

(** [v * f] for a float literal [f]. *)
Definition py_mul_float (v : pyval) (f : float) : option pyval :=
  match as_number v with
  | Some x => Some (PFloat (fmul x f))
  | None => None
  end.

(** Integer view of a value. *)
Definition as_int (v : pyval) : option Z :=
  match v with
  | PInt z => Some z
  | PBool b => Some (if b then 1 else 0)
  | _ => None
  end.

(** [a + b]; unsupported operand types raise [TypeError]. *)
Definition py_add (a b : pyval) : option pyval :=
  match as_int a, as_int b with
  | Some x, Some y => Some (PInt (x + y))
  | _, _ =>
      match as_number a, as_number b with
      | Some x, Some y => Some (PFloat (fadd x y))
      | _, _ =>
          match a, b with
          | PStr x, PStr y => Some (PStr (x ++ y))
          | PBytes x, PBytes y => Some (PBytes (x ++ y))
          | PList x, PList y => Some (PList (x ++ y))
          | _, _ => None
          end
      end
  end.

(** [v is None] *)
Definition is_None (v : pyval) : bool :=
  match v with PNone => true | _ => false end.

(* ================================================================== *)
(** * Naive datetimes *)
(* ================================================================== *)

(** A naive [datetime]: the proleptic day number of its date, from 1 for
    0001-01-01 to [max_ordinal] for 9999-12-31, and its clock time. *)
Record datetime : Type := mk_datetime {
  ordinal : Z;
  hour : Z;
  minute : Z;
  second : Z;
  microsecond : Z
}.

Definition lex (c1 c2 : comparison) : comparison :=
  match c1 with Eq => c2 | _ => c1 end.

(** Comparison of naive datetimes is lexicographic on the fields. *)
Definition dt_compare (a b : datetime) : comparison :=
  lex (ordinal a ?= ordinal b)
 (lex (hour a ?= hour b)
 (lex (minute a ?= minute b)
 (lex (second a ?= second b)
      (microsecond a ?= microsecond b)))).

(** [a < b] *)
Definition dt_ltb (a b : datetime) : bool :=
  match dt_compare a b with Lt => true | _ => false end.

(** [a <= b] *)
Definition dt_leb (a b : datetime) : bool :=
  match dt_compare a b with Gt => false | _ => true end.

(** [d.replace(hour=h, minute=m, second=s, microsecond=us)]; [None] is the
    [ValueError] raised for a field out of range. *)
Definition dt_replace (d : datetime) (h m s us : Z) : option datetime :=
  if (0 <=? h) && (h <? 24) && (0 <=? m) && (m <? 60) &&
     (0 <=? s) && (s <? 60) && (0 <=? us) && (us <? 1000000)
  then Some (mk_datetime (ordinal d) h m s us)
  else None.

(** The day number of 9999-12-31, the last date of a [datetime]. *)
Definition max_ordinal : Z := 3652059.

(** [d + timedelta(days=n)]; [None] is the [OverflowError] raised for a
    date out of range. *)
Definition dt_add_days (d : datetime) (n : Z) : option datetime :=
  let o := ordinal d + n in
  if (1 <=? o) && (o <=? max_ordinal)
  then Some (mk_datetime o (hour d) (minute d) (second d) (microsecond d))
  else None.

(** [list.sort()] on datetimes: a stable sort, here by insertion. *)
Fixpoint dt_insert (x : datetime) (l : list datetime) : list datetime :=
  match l with
  | [] => [x]
  | y :: l' => if dt_leb x y then x :: l else y :: dt_insert x l'
  end.

Definition dt_sort (l : list datetime) : list datetime :=
  fold_right dt_insert [] l.

(* ================================================================== *)
(** * External calls, traces and the execution monad *)
(* ================================================================== *)

(** Calls that leave the orchestrator and answer with a Python value:
    HTTP requests (request, [raise_for_status] and [json()] together), the
    wallet service, and the web3 helpers of the Stargate adapter. *)
Inductive call : Type :=
| RequestsGet (url : string) (headers params : dict pyval)
| RequestsPost (url : string) (headers json : dict pyval)
| ApproveTokenForBridge (wallet_address : string)
    (chain_id token_address spender_address amount : pyval)
| WaitForTransaction (chain_id tx_hash : pyval) (timeout : Z)
| SendTransaction (wallet_address : string)
    (chain_id to_address value data : pyval)
| Web3ToWei (chain : string) (amount : string) (unit : string)
| Web3ToBytes (hexstr : string)
| Web3ToChecksumAddress (address : pyval)
| QuoteLayerZeroFee (chain : string)
    (dst_chain_id src_pool_id dst_pool_id refund_address : pyval)
| EncodeABI (chain : string) (fn_name : string) (args : list pyval)
| DatetimeNowIsoformat.

Inductive reply : Type :=
| Raises
| Returns (v : pyval).

Inductive level : Type := INFO | WARNING | ERROR.

Inductive event : Type :=
| ECall (c : call) (r : reply)
| EBalances (wallet_address : string) (r : option (dict (dict float)))
| ENow (d : datetime)
| ELog (l : level) (msg : string).

(** The environment answers every call, knowing everything that happened
    before it.  [balances] is [WalletService.update_balances], typed as
    annotated ([None]: it raises); [isoformat] is [datetime.isoformat] and
    [float_str] is [str()] on floats. *)
Record environment : Type := {
  respond : list event -> call -> reply;
  balances : list event -> string -> option (dict (dict float));
  clock : list event -> datetime;
  isoformat : datetime -> string;
  float_str : float -> string
}.

Record state : Type := {
  env : environment;
  trace : list event;
  rng : nat -> nat;
  transaction_history : list pyval
}.

Definition with_trace (t : list event) (s : state) : state :=
  {| env := env s; trace := t; rng := rng s;
     transaction_history := transaction_history s |}.

Definition with_rng (g : nat -> nat) (s : state) : state :=
  {| env := env s; trace := trace s; rng := g;
     transaction_history := transaction_history s |}.

Definition with_history (h : list pyval) (s : state) : state :=
  {| env := env s; trace := trace s; rng := rng s;
     transaction_history := h |}.

(** A statement either yields a value, executes [return r], or raises. *)
Inductive outcome (R A : Type) : Type :=
| Val (a : A)
| Ret (r : R)
| Exc.

Arguments Val {R A} a.
Arguments Ret {R A} r.
Arguments Exc {R A}.

Definition M (R A : Type) : Type := state -> outcome R A * state.

Definition ret {R A : Type} (a : A) : M R A := fun s => (Val a, s).

Definition bind {R A B : Type} (m : M R A) (f : A -> M R B) : M R B :=
  fun s =>
    match m s with
    | (Val a, s') => f a s'
    | (Ret r, s') => (Ret r, s')
    | (Exc, s') => (Exc, s')
    end.

Declare Scope py_scope.
Delimit Scope py_scope with py.
Notation "x <- m ;; k" := (bind m (fun x => k))
  (at level 61, m at next level, right associativity) : py_scope.
Notation "m ;; k" := (bind m (fun _ => k))
  (at level 61, right associativity) : py_scope.
Local Open Scope py_scope.

(** [return r] *)
Definition return_ {R A : Type} (r : R) : M R A := fun s => (Ret r, s).

(** [raise] *)
Definition raise {R A : Type} : M R A := fun s => (Exc, s).

(** A function body: [return] ends it; an exception propagates. *)
Definition def_ {R R' : Type} (body : M R R) : M R' R :=
  fun s =>
    match body s with
    | (Val a, s') => (Val a, s')
    | (Ret r, s') => (Val r, s')
    | (Exc, s') => (Exc, s')
    end.

(** [try: body  except Exception: handler] *)
Definition try_except {R A : Type} (body handler : M R A) : M R A :=
  fun s =>
    match body s with
    | (Exc, s') => handler s'
    | res => res
    end.

(** [if c: m] *)
Definition when {R : Type} (c : bool) (m : M R unit) : M R unit :=
  if c then m else ret tt.

(** A pure operation that may raise. *)
Definition lift {R A : Type} (o : option A) : M R A :=
  match o with Some a => ret a | None => raise end.

Definition emit {R : Type} (e : event) : M R unit :=
  fun s => (Val tt, with_trace (trace s ++ [e]) s).

(** [logger.info/warning/error(msg)]; the text of a caught exception, where
    a message interpolates one, is left out. *)
Definition log {R : Type} (l : level) (msg : string) : M R unit :=
  emit (ELog l msg).

Definition external {R : Type} (c : call) : M R pyval :=
  fun s =>
    let r := respond (env s) (trace s) c in
    let s' := with_trace (trace s ++ [ECall c r]) s in
    match r with
    | Raises => (Exc, s')
    | Returns v => (Val v, s')
    end.

(** [wallet_service.update_balances(wallet_address)] *)
Definition update_balances {R : Type} (wallet_address : string)
  : M R (dict (dict float)) :=
  fun s =>
    let r := balances (env s) (trace s) wallet_address in
    let s' := with_trace (trace s ++ [EBalances wallet_address r]) s in
    match r with
    | None => (Exc, s')
    | Some b => (Val b, s')
    end.

(** [datetime.now()] *)
Definition datetime_now {R : Type} : M R datetime :=
  fun s =>
    let d := clock (env s) (trace s) in
    (Val d, with_trace (trace s ++ [ENow d]) s).

(** The generator of module [random], as a stream of raw draws:
    [_randbelow(n)] reduces the next draw modulo [n]. *)
Definition randbelow {R : Type} (n : nat) : M R nat :=
  fun s => (Val (rng s 0%nat mod n)%nat, with_rng (fun i => rng s (S i)) s).

(** [random.choice(seq)]; an empty sequence raises [IndexError]. *)
Definition random_choice {R A : Type} (seq : list A) : M R A :=
  match seq with
  | [] => raise
  | x :: _ => i <- randbelow (List.length seq) ;; ret (nth i seq x)
  end.

(** [random.randint(a, b)]; an empty range raises [ValueError]. *)
Definition random_randint {R : Type} (a b : Z) : M R Z :=
  if b <? a then raise
  else i <- randbelow (Z.to_nat (b - a + 1)) ;; ret (a + Z.of_nat i).

(* ================================================================== *)
(** * [stargate_bridge.py]: route tables *)
(* ================================================================== *)

Record stargate_chain : Type := {
  sg_id : Z;
  sg_router : string
}.

Definition STARGATE_CHAINS : dict stargate_chain :=
  [ ("ethereum",  {| sg_id := 1;  sg_router := "0x8731d54E9D02c286767d56ac03e8037C07e01e98" |});
    ("bsc",       {| sg_id := 2;  sg_router := "0x4a364f8c717cAAD9A442737Eb7b8A55cc6cf18D8" |});
    ("avalanche", {| sg_id := 6;  sg_router := "0x45A01E4e04F14f7A4a6702c74187c5F6222033cd" |});
    ("polygon",   {| sg_id := 9;  sg_router := "0x45A01E4e04F14f7A4a6702c74187c5F6222033cd" |});
    ("arbitrum",  {| sg_id := 10; sg_router := "0x53Bf833A5d6c4ddA888F69c22C88C9f356a41614" |});
    ("optimism",  {| sg_id := 11; sg_router := "0xB0D502E938ed5f4df2E681fE6E419ff29631d62b" |});
    ("base",      {| sg_id := 30; sg_router := "0x45f5b7eDBCB52D6BF06C80395498097B6A8e9251" |}) ].

Definition STARGATE_POOLS : dict (dict Z) :=
  [ ("USDC", [ ("ethereum", 1); ("bsc", 1); ("avalanche", 1); ("polygon", 1);
               ("arbitrum", 1); ("optimism", 1); ("base", 1) ]);
    ("USDT", [ ("ethereum", 2); ("bsc", 2); ("avalanche", 2); ("polygon", 2);
               ("arbitrum", 2); ("optimism", 2); ("base", 2) ]);
    ("ETH",  [ ("ethereum", 13); ("bsc", 0); ("avalanche", 0); ("polygon", 0);
               ("arbitrum", 13); ("optimism", 13); ("base", 13) ]) ].

(** [transaction_manager.py]: the chains for which an RPC endpoint is
    configured. *)
Definition RPC_URLS : dict string :=
  [ ("ethereum", "https://eth-mainnet.g.alchemy.com/v2/demo");
    ("polygon", "https://polygon-mainnet.g.alchemy.com/v2/demo");
    ("arbitrum", "https://arb-mainnet.g.alchemy.com/v2/demo");
    ("optimism", "https://opt-mainnet.g.alchemy.com/v2/demo");
    ("avalanche", "https://api.avax.network/ext/bc/C/rpc");
    ("binance-smart-chain", "https://bsc-dataseed.binance.org/");
    ("base", "https://mainnet.base.org") ].

(* ================================================================== *)
(** * [bridge_aggregator.py]: selection and scheduling *)
(* ================================================================== *)

(** The condition under which [select_random_service] lists Stargate;
    [and] is short-circuit, so [STARGATE_POOLS[token_symbol]] is only read
    when the key is present. *)
Definition stargate_declares_route (from_chain to_chain token_symbol : string)
  : bool :=
  Dict.mem STARGATE_CHAINS from_chain &&
  Dict.mem STARGATE_CHAINS to_chain &&
  match Dict.get STARGATE_POOLS token_symbol with
  | Some pools => Dict.mem pools from_chain && Dict.mem pools to_chain
  | None => false
  end.

(** The list [supported_services] that [select_random_service] builds. *)
Definition supported_services (from_chain to_chain token_symbol : string)
  : list string :=
  let supported_services : list string := [] in
  let supported_services := (supported_services ++ ["jumper"])%list in
  let supported_services :=
    if stargate_declares_route from_chain to_chain token_symbol
    then (supported_services ++ ["stargate"])%list
    else supported_services in
  let supported_services := (supported_services ++ ["relay"])%list in
  supported_services.

Definition select_random_service {R : Type}
  (from_chain to_chain token_symbol : string) : M R string :=
  def_ (
    s <- random_choice (supported_services from_chain to_chain token_symbol) ;;
    return_ s).

Definition TRANSACTIONS_PER_DAY : Z := 2.

Definition start_hour : Z := 8.
Definition end_hour : Z := 22.

(** [if tx_time < now: tx_time = tx_time + timedelta(days=1)] *)
Definition postpone_if_past (now tx_time : datetime) : option datetime :=
  if dt_ltb tx_time now then dt_add_days tx_time 1 else Some tx_time.

(** The body of the loop [for _ in range(num_tx)], [n] iterations. *)
Fixpoint draw_transaction_times {R : Type} (n : nat) (now today : datetime)
  (transaction_times : list datetime) : M R (list datetime) :=
  match n with
  | O => ret transaction_times
  | S n' =>
      random_hour <- random_randint start_hour end_hour ;;
      random_minute <- random_randint 0 59 ;;
      random_second <- random_randint 0 59 ;;
      tx_time <- lift (dt_replace today random_hour random_minute
                         random_second (microsecond today)) ;;
      tx_time <- lift (postpone_if_past now tx_time) ;;
      draw_transaction_times n' now today (transaction_times ++ [tx_time])
  end.

Definition generate_random_transaction_times {R : Type}
  (num_transactions : option Z) : M R (list datetime) :=
  def_ (
    let num_tx :=
      match num_transactions with
      | Some n => n
      | None => TRANSACTIONS_PER_DAY
      end in
    now <- datetime_now ;;
    today <- lift (dt_replace now 0 0 0 0) ;;
    tomorrow <- lift (dt_add_days today 1) ;;
    transaction_times <-
      draw_transaction_times (Z.to_nat num_tx) now today [] ;;
    return_ (dt_sort transaction_times)).

(** The entry of a token in [available_tokens[chain]]:
    [{"address": ..., "balance": ...}]. *)
Record token_info : Type := {
  address : string;
  balance : float
}.

(** The tuple [(from_chain, to_chain, token_symbol, token_address, amount)]. *)
Abbreviation transfer := (string * string * string * string * float)%type.

(** [chain in available_tokens and available_tokens[chain]] *)
Definition has_tokens (available_tokens : dict (dict token_info))
  (chain : string) : bool :=
  match Dict.get available_tokens chain with
  | Some tokens => negb (Dict.is_empty tokens)
  | None => false
  end.

(** The list [valid_chains] that the first loop builds. *)
Definition valid_chains_of (available_chains : list string)
  (available_tokens : dict (dict token_info)) : list string :=
  filter (has_tokens available_tokens) available_chains.

(** The list [other_chains]: the valid chains different from the source. *)
Definition other_chains_of (valid_chains : list string) (from_chain : string)
  : list string :=
  filter (fun chain => negb (String.eqb chain from_chain)) valid_chains.

Definition msg_no_valid_chain : string :=
  "Aucune chaîne valide avec des tokens disponibles".
Definition msg_no_token_on_chain : string :=
  "Aucun token disponible sur la chaîne ".
Definition msg_insufficient_balance (token_symbol from_chain : string)
  : string :=
  "Solde insuffisant pour le token " ++ token_symbol ++
  " sur la chaîne " ++ from_chain.
Definition msg_no_destination : string :=
  "Aucune chaîne de destination disponible".

Definition select_random_transaction {R : Type} (wallet_address : string)
  (available_chains : list string)
  (available_tokens : dict (dict token_info)) : M R (option transfer) :=
  def_ (
    let valid_chains := valid_chains_of available_chains available_tokens in
    when (list_is_empty valid_chains)
      (log ERROR msg_no_valid_chain ;; return_ None) ;;
    from_chain <- random_choice valid_chains ;;
    available_tokens_on_chain <- lift (Dict.get available_tokens from_chain) ;;
    when (Dict.is_empty available_tokens_on_chain)
      (log ERROR (msg_no_token_on_chain ++ from_chain) ;; return_ None) ;;
    token_symbol <- random_choice (Dict.keys available_tokens_on_chain) ;;
    info <- lift (Dict.get available_tokens_on_chain token_symbol) ;;
    let token_address := address info in
    let token_balance := balance info in
    when (fleb token_balance (float_of_Z 0))
      (log ERROR (msg_insufficient_balance token_symbol from_chain) ;;
       return_ None) ;;
    let other_chains := other_chains_of valid_chains from_chain in
    when (list_is_empty other_chains)
      (log ERROR msg_no_destination ;; return_ None) ;;
    to_chain <- random_choice other_chains ;;
    let min_percentage := 10 in
    let max_percentage := 90 in
    percentage <- random_randint min_percentage max_percentage ;;
    let amount :=
      fdiv (fmul token_balance (float_of_Z percentage)) (float_of_Z 100) in
    return_ (Some (from_chain, to_chain, token_symbol, token_address, amount))).

(* ================================================================== *)
(** * Provider adapters *)
(* ================================================================== *)

(** An HTTP-backed service object: [api_url], [api_key] and [headers] as
    set by [__init__]. *)
Record http_service : Type := {
  api_url : string;
  api_key : pyval;
  headers : dict pyval
}.

Definition base_headers : dict pyval :=
  [ ("Accept", PStr "application/json");
    ("Content-Type", PStr "application/json") ].

(** [__init__]: the key is sent only when it is truthy. *)
Definition new_http_service (url : string) (key : pyval) : http_service :=
  {| api_url := url;
     api_key := key;
     headers := if truthy key then Dict.set base_headers "X-API-KEY" key
                else base_headers |}.

(** [datetime.now().isoformat()] *)
Definition now_isoformat {R : Type} : M R pyval :=
  fun s =>
    match datetime_now (R:=R) s with
    | (Val d, s') => (Val (PStr (isoformat (env s) d)), s')
    | (Ret r, s') => (Ret r, s')
    | (Exc, s') => (Exc, s')
    end.

(** [s.startswith("0x")] after [isinstance(s, str)] *)
Definition is_0x_string (v : pyval) : bool :=
  match v with
  | PStr s => String.prefix "0x" s
  | _ => false
  end.

(** [int(v, 16) if isinstance(v, str) and v.startswith("0x") else int(v)] *)
Definition parse_tx_value (v : pyval) : option Z :=
  if isinstance_str v && is_0x_string v then py_int16 v else py_int v.

(* ------------------------------------------------------------------ *)
(** ** [jumper_bridge.py] *)
(* ------------------------------------------------------------------ *)

Module Jumper.

Definition new (api_key : pyval) : http_service :=
  new_http_service "https://li.quest/v1" api_key.

Definition get_quote {R : Type} (self : http_service)
  (from_chain to_chain from_token to_token from_amount from_address : string)
  : M R pyval :=
  def_ (try_except (
    let url := api_url self ++ "/quote" in
    let params :=
      [ ("fromChain", PStr from_chain);
        ("toChain", PStr to_chain);
        ("fromToken", PStr from_token);
        ("toToken", PStr to_token);
        ("fromAmount", PStr from_amount);
        ("fromAddress", PStr from_address) ] in
    response_json <- external (RequestsGet url (headers self) params) ;;
    return_ response_json)
  (log ERROR "Erreur lors de la récupération du devis Jumper: " ;;
   return_ PNone)).

Definition prepare_transaction_data {R : Type} (quote : pyval) : M R pyval :=
  def_ (try_except (
    invalid <-
      (if negb (truthy quote) then ret true
       else present <- lift (py_contains "transactionRequest" quote) ;;
            ret (negb present)) ;;
    when invalid (log ERROR "Devis invalide ou incomplet" ;; return_ PNone) ;;
    tx_request <- lift (py_getitem quote "transactionRequest") ;;
    to <- lift (py_get tx_request "to" PNone) ;;
    data <- lift (py_get tx_request "data" PNone) ;;
    value <- lift (py_get tx_request "value" (PStr "0")) ;;
    gasLimit <- lift (py_get tx_request "gasLimit" (PStr "0")) ;;
    gasPrice <- lift (py_get tx_request "gasPrice" (PStr "0")) ;;
    action <- lift (py_get quote "action" (PDict [])) ;;
    chain_id <- lift (py_get action "fromChainId" PNone) ;;
    return_ (PDict [ ("to", to); ("data", data); ("value", value);
                     ("gasLimit", gasLimit); ("gasPrice", gasPrice);
                     ("chain_id", chain_id) ]))
  (log ERROR "Erreur lors de la préparation des données de transaction: " ;;
   return_ PNone)).

Definition execute_bridge {R : Type} (self : http_service)
  (wallet_address from_chain to_chain from_token to_token amount : string)
  : M R pyval :=
  def_ (try_except (
    quote <- get_quote self from_chain to_chain from_token to_token amount
               wallet_address ;;
    when (negb (truthy quote))
      (log ERROR "Impossible d'obtenir un devis pour le bridge" ;;
       return_ PNone) ;;
    tx_data <- prepare_transaction_data quote ;;
    when (negb (truthy tx_data))
      (log ERROR "Impossible de préparer les données de transaction" ;;
       return_ PNone) ;;
    approval_needed <-
      (present <- lift (py_contains "approvalData" quote) ;;
       if present
       then approval_data <- lift (py_getitem quote "approvalData") ;;
            ret (truthy approval_data)
       else ret false) ;;
    when approval_needed (
      approval_data <- lift (py_getitem quote "approvalData") ;;
      log INFO ("Approbation nécessaire pour le token " ++ from_token) ;;
      chain_id <- lift (py_getitem tx_data "chain_id") ;;
      token_address <- lift (py_get approval_data "tokenAddress" PNone) ;;
      spender_address <- lift (py_get approval_data "spenderAddress" PNone) ;;
      amount_text <- lift (py_get approval_data "amount" (PStr "0")) ;;
      approval_amount <- lift (py_int16 amount_text) ;;
      approval_tx_hash <-
        external (ApproveTokenForBridge wallet_address chain_id token_address
                    spender_address (PInt approval_amount)) ;;
      when (negb (truthy approval_tx_hash))
        (log ERROR "Échec de l'approbation du token" ;; return_ PNone) ;;
      chain_id <- lift (py_getitem tx_data "chain_id") ;;
      approval_success <-
        external (WaitForTransaction chain_id approval_tx_hash 180) ;;
      when (negb (truthy approval_success))
        (log ERROR "L'approbation du token n'a pas été confirmée" ;;
         return_ PNone) ;;
      log INFO "Approbation du token réussie: ") ;;
    chain_id <- lift (py_getitem tx_data "chain_id") ;;
    to <- lift (py_getitem tx_data "to") ;;
    value <- lift (py_getitem tx_data "value") ;;
    tx_value <- lift (parse_tx_value value) ;;
    data <- lift (py_getitem tx_data "data") ;;
    tx_hash <-
      external (SendTransaction wallet_address chain_id to (PInt tx_value)
                  data) ;;
    when (negb (truthy tx_hash))
      (log ERROR "Échec de l'exécution de la transaction de bridge" ;;
       return_ PNone) ;;
    log INFO "Transaction de bridge initiée: " ;;
    chain_id <- lift (py_getitem tx_data "chain_id") ;;
    tx_success <- external (WaitForTransaction chain_id tx_hash 300) ;;
    when (negb (truthy tx_success))
      (log ERROR
         "La transaction de bridge n'a pas été confirmée sur la chaîne source" ;;
       return_ PNone) ;;
    log INFO "Transaction de bridge confirmée sur la chaîne source: " ;;
    bridge_type <- lift (py_get quote "tool" PNone) ;;
    timestamp <- now_isoformat ;;
    return_ (PDict [ ("tx_hash", tx_hash);
                     ("bridge_type", bridge_type);
                     ("from_chain", PStr from_chain);
                     ("to_chain", PStr to_chain);
                     ("from_token", PStr from_token);
                     ("to_token", PStr to_token);
                     ("amount", PStr amount);
                     ("status", PStr "pending");
                     ("timestamp", timestamp) ]))
  (log ERROR "Erreur lors de l'exécution du bridge: " ;; return_ PNone)).

(** The read-only queries: one GET request each.  [requests.get] without
    [params] sends no parameter, as with an empty dictionary. *)
Definition get_status {R : Type} (self : http_service)
  (tx_hash bridge_type from_chain to_chain : string) : M R pyval :=
  def_ (try_except (
    let url := api_url self ++ "/status" in
    let params :=
      [ ("txHash", PStr tx_hash);
        ("bridge", PStr bridge_type);
        ("fromChain", PStr from_chain);
        ("toChain", PStr to_chain) ] in
    response_json <- external (RequestsGet url (headers self) params) ;;
    return_ response_json)
  (log ERROR
     "Erreur lors de la vérification du statut de la transaction Jumper: " ;;
   return_ PNone)).

Definition get_chains {R : Type} (self : http_service) : M R pyval :=
  def_ (try_except (
    let url := api_url self ++ "/chains" in
    response_json <- external (RequestsGet url (headers self) []) ;;
    return_ response_json)
  (log ERROR
     "Erreur lors de la récupération des chaînes supportées par Jumper: " ;;
   return_ PNone)).

Definition get_tokens {R : Type} (self : http_service) (chain_id : pyval)
  : M R pyval :=
  def_ (try_except (
    let url := api_url self ++ "/tokens" in
    let params : dict pyval := [] in
    let params :=
      if truthy chain_id then Dict.set params "chains" chain_id else params in
    response_json <- external (RequestsGet url (headers self) params) ;;
    return_ response_json)
  (log ERROR
     "Erreur lors de la récupération des tokens supportés par Jumper: " ;;
   return_ PNone)).

Definition get_connections {R : Type} (self : http_service)
  (from_chain to_chain : pyval) : M R pyval :=
  def_ (try_except (
    let url := api_url self ++ "/connections" in
    let params : dict pyval := [] in
    let params :=
      if truthy from_chain then Dict.set params "fromChain" from_chain
      else params in
    let params :=
      if truthy to_chain then Dict.set params "toChain" to_chain
      else params in
    response_json <- external (RequestsGet url (headers self) params) ;;
    return_ response_json)
  (log ERROR "Erreur lors de la récupération des connexions Jumper: " ;;
   return_ PNone)).

End Jumper.

(* ------------------------------------------------------------------ *)
(** ** [relay_bridge.py] *)
(* ------------------------------------------------------------------ *)

Module Relay.

Definition new (api_key : pyval) : http_service :=
  new_http_service "https://api.relay.link" api_key.

(** [recipient_address or sender_address] *)
Definition or_else (a b : pyval) : pyval := if truthy a then a else b.

Definition get_quote {R : Type} (self : http_service)
  (from_chain_id to_chain_id from_token_address to_token_address amount
     sender_address : string) (recipient_address : pyval) : M R pyval :=
  def_ (try_except (
    let url := api_url self ++ "/quote" in
    let data :=
      [ ("fromChainId", PStr from_chain_id);
        ("toChainId", PStr to_chain_id);
        ("fromTokenAddress", PStr from_token_address);
        ("toTokenAddress", PStr to_token_address);
        ("fromAmount", PStr amount);
        ("fromAddress", PStr sender_address);
        ("toAddress", or_else recipient_address (PStr sender_address)) ] in
    response_json <- external (RequestsPost url (headers self) data) ;;
    return_ response_json)
  (log ERROR "Erreur lors de la récupération du devis Relay: " ;;
   return_ PNone)).

Definition prepare_transaction_data {R : Type} (quote : pyval) : M R pyval :=
  def_ (try_except (
    invalid <-
      (if negb (truthy quote) then ret true
       else present <- lift (py_contains "tx" quote) ;;
            ret (negb present)) ;;
    when invalid (log ERROR "Devis invalide ou incomplet" ;; return_ PNone) ;;
    tx <- lift (py_getitem quote "tx") ;;
    to <- lift (py_get tx "to" PNone) ;;
    data <- lift (py_get tx "data" PNone) ;;
    value <- lift (py_get tx "value" (PStr "0")) ;;
    gas_limit <- lift (py_get tx "gasLimit" (PStr "0")) ;;
    chain_id <- lift (py_get quote "fromChainId" PNone) ;;
    request_id <- lift (py_get quote "requestId" PNone) ;;
    return_ (PDict [ ("to", to); ("data", data); ("value", value);
                     ("gas_limit", gas_limit); ("chain_id", chain_id);
                     ("request_id", request_id) ]))
  (log ERROR "Erreur lors de la préparation des données de transaction: " ;;
   return_ PNone)).

Definition notify_transaction {R : Type} (self : http_service)
  (request_id tx_hash : pyval) : M R pyval :=
  def_ (try_except (
    let url := api_url self ++ "/transactions" in
    let data := [ ("requestId", request_id); ("txHash", tx_hash) ] in
    response_json <- external (RequestsPost url (headers self) data) ;;
    return_ response_json)
  (log ERROR "Erreur lors de la notification de la transaction: " ;;
   return_ PNone)).

(** [int(a, 16) if isinstance(a, str) else int(...get("amount", "0"))],
    with [a = approval_data.get("amount")]. *)
Definition parse_approval_amount (approval_data : pyval) : option Z :=
  match py_get approval_data "amount" PNone with
  | Some a =>
      if isinstance_str a
      then match py_get approval_data "amount" (PStr "0") with
           | Some a' => py_int16 a'
           | None => None
           end
      else match py_get approval_data "amount" (PStr "0") with
           | Some a' => py_int a'
           | None => None
           end
  | None => None
  end.

Definition execute_bridge {R : Type} (self : http_service)
  (wallet_address from_chain_id to_chain_id from_token_address
     to_token_address amount : string) : M R pyval :=
  def_ (try_except (
    quote <- get_quote self from_chain_id to_chain_id from_token_address
               to_token_address amount wallet_address PNone ;;
    when (negb (truthy quote))
      (log ERROR "Impossible d'obtenir un devis pour le bridge" ;;
       return_ PNone) ;;
    tx_data <- prepare_transaction_data quote ;;
    when (negb (truthy tx_data))
      (log ERROR "Impossible de préparer les données de transaction" ;;
       return_ PNone) ;;
    approval_needed <-
      (present <- lift (py_contains "approvalData" quote) ;;
       if present
       then approval_data <- lift (py_getitem quote "approvalData") ;;
            ret (truthy approval_data)
       else ret false) ;;
    when approval_needed (
      approval_data <- lift (py_getitem quote "approvalData") ;;
      log INFO ("Approbation nécessaire pour le token " ++ from_token_address) ;;
      chain_id <- lift (py_getitem tx_data "chain_id") ;;
      spender <- lift (py_get approval_data "spender" PNone) ;;
      approval_amount <- lift (parse_approval_amount approval_data) ;;
      approval_tx_hash <-
        external (ApproveTokenForBridge wallet_address chain_id
                    (PStr from_token_address) spender (PInt approval_amount)) ;;
      when (negb (truthy approval_tx_hash))
        (log ERROR "Échec de l'approbation du token" ;; return_ PNone) ;;
      chain_id <- lift (py_getitem tx_data "chain_id") ;;
      approval_success <-
        external (WaitForTransaction chain_id approval_tx_hash 180) ;;
      when (negb (truthy approval_success))
        (log ERROR "L'approbation du token n'a pas été confirmée" ;;
         return_ PNone) ;;
      log INFO "Approbation du token réussie: ") ;;
    value <- lift (py_getitem tx_data "value") ;;
    tx_value <- lift (parse_tx_value value) ;;
    chain_id <- lift (py_getitem tx_data "chain_id") ;;
    to <- lift (py_getitem tx_data "to") ;;
    data <- lift (py_getitem tx_data "data") ;;
    tx_hash <-
      external (SendTransaction wallet_address chain_id to (PInt tx_value)
                  data) ;;
    when (negb (truthy tx_hash))
      (log ERROR "Échec de l'exécution de la transaction de bridge" ;;
       return_ PNone) ;;
    log INFO "Transaction de bridge Relay initiée: " ;;
    request_id <- lift (py_getitem tx_data "request_id") ;;
    notification_result <- notify_transaction self request_id tx_hash ;;
    when (negb (truthy notification_result))
      (log WARNING "Impossible de notifier Relay de la transaction") ;;
    chain_id <- lift (py_getitem tx_data "chain_id") ;;
    tx_success <- external (WaitForTransaction chain_id tx_hash 300) ;;
    when (negb (truthy tx_success))
      (log ERROR
         "La transaction de bridge n'a pas été confirmée sur la chaîne source" ;;
       return_ PNone) ;;
    log INFO "Transaction de bridge Relay confirmée sur la chaîne source: " ;;
    request_id <- lift (py_getitem tx_data "request_id") ;;
    timestamp <- now_isoformat ;;
    return_ (PDict [ ("tx_hash", tx_hash);
                     ("bridge_type", PStr "relay");
                     ("request_id", request_id);
                     ("from_chain_id", PStr from_chain_id);
                     ("to_chain_id", PStr to_chain_id);
                     ("from_token", PStr from_token_address);
                     ("to_token", PStr to_token_address);
                     ("amount", PStr amount);
                     ("status", PStr "pending");
                     ("timestamp", timestamp) ]))
  (log ERROR "Erreur lors de l'exécution du bridge Relay: " ;; return_ PNone)).

(** The read-only queries: one GET request each. *)
Definition get_chains {R : Type} (self : http_service) : M R pyval :=
  def_ (try_except (
    let url := api_url self ++ "/chains" in
    response_json <- external (RequestsGet url (headers self) []) ;;
    return_ response_json)
  (log ERROR
     "Erreur lors de la récupération des chaînes supportées par Relay: " ;;
   return_ PNone)).

Definition get_token_price {R : Type} (self : http_service)
  (chain_id token_address : string) : M R pyval :=
  def_ (try_except (
    let url := api_url self ++ "/token-price" in
    let params :=
      [ ("chainId", PStr chain_id);
        ("tokenAddress", PStr token_address) ] in
    response_json <- external (RequestsGet url (headers self) params) ;;
    return_ response_json)
  (log ERROR "Erreur lors de la récupération du prix du token: " ;;
   return_ PNone)).

Definition get_execution_status {R : Type} (self : http_service)
  (request_id : string) : M R pyval :=
  def_ (try_except (
    let url := api_url self ++ "/execution-status" in
    let params := [ ("requestId", PStr request_id) ] in
    response_json <- external (RequestsGet url (headers self) params) ;;
    return_ response_json)
  (log ERROR "Erreur lors de la vérification du statut d'exécution: " ;;
   return_ PNone)).

End Relay.

(* ------------------------------------------------------------------ *)
(** ** [stargate_bridge.py] *)
(* ------------------------------------------------------------------ *)

Module Stargate.

(** The keys of [self.web3_connections] and of [self.router_contracts],
    as filled by [__init__]; the values are handles of the web3 library. *)
Record service : Type := {
  web3_connections : list string;
  router_contracts : list string
}.

(** [key in d] on the keys of a dictionary of handles *)
Definition has_key (keys : list string) (k : string) : bool :=
  existsb (String.eqb k) keys.

Definition get_chain_id (chain_name : string) : option Z :=
  match Dict.get STARGATE_CHAINS chain_name with
  | Some c => Some (sg_id c)
  | None => None
  end.

Definition get_pool_id (token_symbol chain_name : string) : option Z :=
  match Dict.get STARGATE_POOLS token_symbol with
  | Some pools => Dict.get pools chain_name
  | None => None
  end.

(** An optional identifier as a Python value. *)
Definition opt_int (o : option Z) : pyval :=
  match o with Some z => PInt z | None => PNone end.

Definition is_none {A : Type} (o : option A) : bool :=
  match o with Some _ => false | None => true end.

Definition quote_fee {R : Type} (self : service)
  (from_chain to_chain token_symbol refund_address : string) : M R pyval :=
  def_ (try_except (
    when (negb (has_key (router_contracts self) from_chain))
      (log ERROR ("Chaîne source non supportée par Stargate: " ++ from_chain) ;;
       return_ PNone) ;;
    let dst_chain_id := get_chain_id to_chain in
    when (is_none dst_chain_id)
      (log ERROR
         ("Chaîne de destination non supportée par Stargate: " ++ to_chain) ;;
       return_ PNone) ;;
    let src_pool_id := get_pool_id token_symbol from_chain in
    let dst_pool_id := get_pool_id token_symbol to_chain in
    when (is_none src_pool_id || is_none dst_pool_id)
      (log ERROR
         ("Token non supporté par Stargate sur les chaînes spécifiées: "
          ++ token_symbol) ;;
       return_ PNone) ;;
    when (negb (has_key (router_contracts self) from_chain)) raise ;;
    refund <- external (Web3ToChecksumAddress (PStr refund_address)) ;;
    fees <- external (QuoteLayerZeroFee from_chain (opt_int dst_chain_id)
                        (opt_int src_pool_id) (opt_int dst_pool_id) refund) ;;
    pair <- lift (py_unpack2 fees) ;;
    return_ (fst pair))
  (log ERROR "Erreur lors de l'estimation des frais Stargate: " ;;
   return_ PNone)).

Definition prepare_swap_params {R : Type} (self : service)
  (from_chain to_chain token_symbol : string) (amount min_amount : pyval)
  (recipient_address : string) : M R pyval :=
  def_ (try_except (
    let dst_chain_id := get_chain_id to_chain in
    when (is_none dst_chain_id)
      (log ERROR
         ("Chaîne de destination non supportée par Stargate: " ++ to_chain) ;;
       return_ PNone) ;;
    let src_pool_id := get_pool_id token_symbol from_chain in
    let dst_pool_id := get_pool_id token_symbol to_chain in
    when (is_none src_pool_id || is_none dst_pool_id)
      (log ERROR
         ("Token non supporté par Stargate sur les chaînes spécifiées: "
          ++ token_symbol) ;;
       return_ PNone) ;;
    to_address_bytes <- external (Web3ToBytes recipient_address) ;;
    return_ (PDict [ ("dst_chain_id", opt_int dst_chain_id);
                     ("src_pool_id", opt_int src_pool_id);
                     ("dst_pool_id", opt_int dst_pool_id);
                     ("refund_address", PStr recipient_address);
                     ("amount", amount);
                     ("min_amount", min_amount);
                     ("to_address_bytes", to_address_bytes);
                     ("payload", PBytes "");
                     ("additional_data", PBytes "") ]))
  (log ERROR
     "Erreur lors de la préparation des paramètres de swap Stargate: " ;;
   return_ PNone)).

(** [STARGATE_CHAINS[from_chain]["router"]] *)
Definition router_of (from_chain : string) : option string :=
  match Dict.get STARGATE_CHAINS from_chain with
  | Some c => Some (sg_router c)
  | None => None
  end.

Definition execute_bridge {R : Type} (self : service)
  (wallet_address from_chain to_chain token_symbol amount : string)
  (token_address : pyval) : M R pyval :=
  def_ (try_except (
    when (negb (has_key (router_contracts self) from_chain))
      (log ERROR ("Chaîne source non supportée par Stargate: " ++ from_chain) ;;
       return_ PNone) ;;
    when (negb (has_key (web3_connections self) from_chain)) raise ;;
    amount_wei <-
      (if String.eqb token_symbol "ETH"
       then external (Web3ToWei from_chain amount "ether")
       else n <- lift (py_int_of_string 10 amount) ;; ret (PInt n)) ;;
    scaled <- lift (py_mul_float amount_wei float_0_97) ;;
    min_amount <- lift (py_int scaled) ;;
    let min_amount_wei := PInt min_amount in
    when (negb (String.eqb token_symbol "ETH") && truthy token_address) (
      router_address <- lift (router_of from_chain) ;;
      log INFO ("Approbation nécessaire pour le token " ++ token_symbol) ;;
      approval_tx_hash <-
        external (ApproveTokenForBridge wallet_address (PStr from_chain)
                    token_address (PStr router_address) amount_wei) ;;
      when (negb (truthy approval_tx_hash))
        (log ERROR "Échec de l'approbation du token" ;; return_ PNone) ;;
      approval_success <-
        external (WaitForTransaction (PStr from_chain) approval_tx_hash 180) ;;
      when (negb (truthy approval_success))
        (log ERROR "L'approbation du token n'a pas été confirmée" ;;
         return_ PNone) ;;
      log INFO "Approbation du token réussie: ") ;;
    swap_params <- prepare_swap_params self from_chain to_chain token_symbol
                     amount_wei min_amount_wei wallet_address ;;
    when (negb (truthy swap_params))
      (log ERROR "Impossible de préparer les paramètres de swap" ;;
       return_ PNone) ;;
    fee <- quote_fee self from_chain to_chain token_symbol wallet_address ;;
    when (is_None fee)
      (log ERROR "Impossible d'estimer les frais de bridge" ;; return_ PNone) ;;
    when (negb (has_key (router_contracts self) from_chain)) raise ;;
    router_address <- lift (router_of from_chain) ;;
    dst_chain_id <- lift (py_getitem swap_params "dst_chain_id") ;;
    src_pool_id <- lift (py_getitem swap_params "src_pool_id") ;;
    dst_pool_id <- lift (py_getitem swap_params "dst_pool_id") ;;
    refund_address <- lift (py_getitem swap_params "refund_address") ;;
    refund <- external (Web3ToChecksumAddress refund_address) ;;
    swap_amount <- lift (py_getitem swap_params "amount") ;;
    swap_min_amount <- lift (py_getitem swap_params "min_amount") ;;
    to_address_bytes <- lift (py_getitem swap_params "to_address_bytes") ;;
    payload <- lift (py_getitem swap_params "payload") ;;
    additional_data <- lift (py_getitem swap_params "additional_data") ;;
    tx_data <-
      external (EncodeABI from_chain "swap"
                  [ dst_chain_id; src_pool_id; dst_pool_id; refund;
                    swap_amount; swap_min_amount; to_address_bytes; payload;
                    additional_data ]) ;;
    tx_value <-
      (if negb (String.eqb token_symbol "ETH") then ret fee
       else lift (py_add fee amount_wei)) ;;
    tx_hash <-
      external (SendTransaction wallet_address (PStr from_chain)
                  (PStr router_address) tx_value tx_data) ;;
    when (negb (truthy tx_hash))
      (log ERROR "Échec de l'exécution de la transaction de bridge" ;;
       return_ PNone) ;;
    log INFO "Transaction de bridge Stargate initiée: " ;;
    tx_success <- external (WaitForTransaction (PStr from_chain) tx_hash 300) ;;
    when (negb (truthy tx_success))
      (log ERROR
         "La transaction de bridge n'a pas été confirmée sur la chaîne source" ;;
       return_ PNone) ;;
    log INFO "Transaction de bridge Stargate confirmée sur la chaîne source: " ;;
    timestamp <- now_isoformat ;;
    return_ (PDict [ ("tx_hash", tx_hash);
                     ("bridge_type", PStr "stargate");
                     ("from_chain", PStr from_chain);
                     ("to_chain", PStr to_chain);
                     ("from_token", PStr token_symbol);
                     ("to_token", PStr token_symbol);
                     ("amount", PStr amount);
                     ("status", PStr "pending");
                     ("timestamp", timestamp) ]))
  (log ERROR "Erreur lors de l'exécution du bridge Stargate: " ;;
   return_ PNone)).

(** [__init__]: for every Stargate chain with an RPC endpoint, the web3
    connection is made, then the router contract is bound; an exception in
    either step is caught and ends the step of that chain.  [connects] and
    [binds] tell whether [Web3(...)] and [eth.contract(...)] return; the log
    records of [__init__] are left out. *)
Definition new (connects binds : string -> bool) : service :=
  fold_left
    (fun self entry =>
       let chain_name := fst entry in
       if Dict.mem RPC_URLS chain_name then
         if connects chain_name then
           let self :=
             {| web3_connections := web3_connections self ++ [chain_name];
                router_contracts := router_contracts self |} in
           if binds chain_name then
             {| web3_connections := web3_connections self;
                router_contracts := router_contracts self ++ [chain_name] |}
           else self
         else self
       else self)
    STARGATE_CHAINS
    {| web3_connections := []; router_contracts := [] |}.

End Stargate.

(* ================================================================== *)
(** * [bridge_aggregator.py]: [execute_random_bridge] *)
(* ================================================================== *)

(** The aggregator object; its [transaction_history] lives in the state. *)
Record BridgeAggregator : Type := {
  jumper_service : http_service;
  stargate_service : Stargate.service;
  relay_service : http_service
}.

(** [self.services[service_name]]: the keys of the mapping of services. *)
Definition is_service (service_name : string) : bool :=
  String.eqb service_name "jumper" || String.eqb service_name "stargate" ||
  String.eqb service_name "relay".

(** [available_tokens[chain][token_symbol] = info] *)
Definition set_token (available_tokens : dict (dict token_info))
  (chain token_symbol : string) (info : token_info)
  : dict (dict token_info) :=
  match Dict.get available_tokens chain with
  | Some tokens =>
      Dict.set available_tokens chain (Dict.set tokens token_symbol info)
  | None => available_tokens
  end.

(** The two nested loops that prepare [available_tokens]. *)
Definition build_available_tokens (balances : dict (dict float))
  : dict (dict token_info) :=
  fold_left
    (fun available_tokens entry =>
       let chain := fst entry in
       let tokens := snd entry in
       let available_tokens := Dict.set available_tokens chain [] in
       fold_left
         (fun available_tokens item =>
            let token_symbol := fst item in
            let balance := snd item in
            let token_address := "0x..." in
            set_token available_tokens chain token_symbol
              {| address := token_address; balance := balance |})
         tokens available_tokens)
    balances [].

(** [str(amount)] *)
Definition str_of_float {R : Type} (x : float) : M R string :=
  fun s => (Val (float_str (env s) x), s).

(** [self.transaction_history.append(record)] *)
Definition append_history {R : Type} (record : pyval) : M R unit :=
  fun s => (Val tt, with_history (transaction_history s ++ [record]) s).

(** [{**result, "service": service_name}] *)
Definition with_service (result : pyval) (service_name : string)
  : option pyval :=
  match result with
  | PDict d => Some (PDict (Dict.set d "service" (PStr service_name)))
  | _ => None
  end.

Definition execute_random_bridge {R : Type} (self : BridgeAggregator)
  (wallet_address : string) : M R pyval :=
  def_ (try_except (
    balances <- update_balances wallet_address ;;
    when (Dict.is_empty balances)
      (log ERROR ("Impossible de récupérer les soldes pour le wallet "
                  ++ wallet_address) ;;
       return_ PNone) ;;
    let available_chains := Dict.keys balances in
    let available_tokens := build_available_tokens balances in
    transaction <- select_random_transaction wallet_address available_chains
                     available_tokens ;;
    match transaction with
    | None =>
        log ERROR "Impossible de sélectionner une transaction aléatoire" ;;
        return_ PNone
    | Some (from_chain, to_chain, token_symbol, token_address, amount) =>
        service_name <- select_random_service from_chain to_chain
                          token_symbol ;;
        when (negb (is_service service_name)) raise ;;
        amount_text <- str_of_float amount ;;
        log INFO ("Exécution d'un bridge aléatoire: " ++ from_chain ++ " -> "
                  ++ to_chain ++ ", " ++ amount_text ++ " " ++ token_symbol
                  ++ " via " ++ service_name) ;;
        result <-
          (if String.eqb service_name "jumper" then
             Jumper.execute_bridge (jumper_service self) wallet_address
               from_chain to_chain token_symbol token_symbol amount_text
           else if String.eqb service_name "stargate" then
             Stargate.execute_bridge (stargate_service self) wallet_address
               from_chain to_chain token_symbol amount_text
               (PStr token_address)
           else if String.eqb service_name "relay" then
             Relay.execute_bridge (relay_service self) wallet_address
               from_chain to_chain token_address token_address amount_text
           else raise) ;;
        when (truthy result)
          (record <- lift (with_service result service_name) ;;
           append_history record) ;;
        return_ result
    end)
  (log ERROR "Erreur lors de l'exécution du bridge aléatoire: " ;;
   return_ PNone)).

(** [BridgeService.get_transaction_history] *)
Definition get_transaction_history {R : Type} : M R (list pyval) :=
  fun s => (Val (transaction_history s), s).

(** The elements that [for x in v] yields: the items of a list, the keys of
    a dictionary, the characters of a string; [None] is the [TypeError] of a
    value that is not iterable. *)
Definition py_iter (v : pyval) : option (list pyval) :=
  match v with
  | PList l => Some l
  | PDict d => Some (map (fun entry => PStr (fst entry)) d)
  | PStr s =>
      Some (map (fun c => PStr (String c EmptyString))
              (list_ascii_of_string s))
  | PBytes s =>
      Some (map (fun c => PInt (Z.of_nat (nat_of_ascii c)))
              (list_ascii_of_string s))
  | _ => None
  end.

(** [[f(x) for x in l]], where [f] may raise. *)
Fixpoint traverse {A B : Type} (f : A -> option B) (l : list A)
  : option (list B) :=
  match l with
  | [] => Some []
  | x :: l' =>
      match f x with
      | Some y =>
          match traverse f l' with
          | Some ys => Some (y :: ys)
          | None => None
          end
      | None => None
      end
  end.

(** [BridgeAggregator.get_supported_chains]; the builtin [str] on the chain
    identifiers of Relay is a parameter. *)
Definition get_supported_chains {R : Type} (str : pyval -> string)
  (self : BridgeAggregator) : M R (dict (list pyval)) :=
  def_ (
    let supported_chains : dict (list pyval) := [] in
    jumper_chains <- Jumper.get_chains (jumper_service self) ;;
    supported_chains <-
      (if truthy jumper_chains then
         chains <- lift (py_iter jumper_chains) ;;
         keys <- lift (traverse (fun chain => py_get chain "key" PNone)
                         chains) ;;
         ret (Dict.set supported_chains "jumper" keys)
       else ret supported_chains) ;;
    let supported_chains :=
      Dict.set supported_chains "stargate"
        (map PStr (Dict.keys STARGATE_CHAINS)) in
    relay_chains <- Relay.get_chains (relay_service self) ;;
    supported_chains <-
      (if truthy relay_chains then
         chains <- lift (py_iter relay_chains) ;;
         ids <- lift (traverse
                        (fun chain =>
                           match py_get chain "id" PNone with
                           | Some id => Some (PStr (str id))
                           | None => None
                           end) chains) ;;
         ret (Dict.set supported_chains "relay" ids)
       else ret supported_chains) ;;
    return_ supported_chains).

(* ================================================================== *)
(** * [balance_checker.py]: [check_all_balances] *)
(* ================================================================== *)

(** [config.py] *)
Definition SUPPORTED_CHAINS : list string :=
  [ "ethereum"; "polygon"; "arbitrum"; "optimism"; "avalanche";
    "binance-smart-chain"; "base" ].

(** The balance checker as [check_all_balances] sees it: the chains of
    [self.web3_connections], and what [get_native_balance] and
    [get_token_balance] return for a chain (and a token address) and a
    wallet; both getters catch every exception and return [None] then. *)
Record balance_checker : Type := {
  connected_chains : list string;
  get_native_balance : string -> string -> option float;
  get_token_balance : string -> string -> string -> option float
}.

(** [get_token_addresses]: a static mapping with a default. *)
Definition get_token_addresses (chain_id : string) : dict string :=
  let token_addresses : dict (dict string) :=
    [ ("ethereum",
       [ ("USDC", "0xA0b86991c6218b36c1d19D4a2e9Eb0cE3606eB48");
         ("USDT", "0xdAC17F958D2ee523a2206206994597C13D831ec7");
         ("DAI", "0x6B175474E89094C44Da98b954EedeAC495271d0F");
         ("WETH", "0xC02aaA39b223FE8D0A0e5C4F27eAD9083C756Cc2") ]);
      ("polygon",
       [ ("USDC", "0x2791Bca1f2de4661ED88A30C99A7a9449Aa84174");
         ("USDT", "0xc2132D05D31c914a87C6611C10748AEb04B58e8F");
         ("DAI", "0x8f3Cf7ad23Cd3CaDbD9735AFf958023239c6A063");
         ("WETH", "0x7ceB23fD6bC0adD59E62ac25578270cFf1b9f619") ]) ] in
  match Dict.get token_addresses chain_id with
  | Some addresses => addresses
  | None => []
  end.

(** The symbol under which the native balance of a chain is reported. *)
Definition native_symbol_of (chain_id : string) : string :=
  let native_symbol := "ETH" in
  if String.eqb chain_id "binance-smart-chain" then "BNB"
  else if String.eqb chain_id "avalanche" then "AVAX"
  else native_symbol.

(** The body of the loop over the chains. *)
Definition check_chain (self : balance_checker) (wallet_address : string)
  (results : dict (dict float)) (chain_id : string) : dict (dict float) :=
  if negb (existsb (String.eqb chain_id) (connected_chains self)) then results
  else
    let chain_results : dict float := [] in
    let native_balance := get_native_balance self chain_id wallet_address in
    let chain_results :=
      match native_balance with
      | Some b => Dict.set chain_results (native_symbol_of chain_id) b
      | None => chain_results
      end in
    let token_addresses := get_token_addresses chain_id in
    let chain_results :=
      fold_left
        (fun chain_results item =>
           let symbol := fst item in
           let address := snd item in
           let balance :=
             get_token_balance self chain_id address wallet_address in
           match balance with
           | Some b => Dict.set chain_results symbol b
           | None => chain_results
           end)
        token_addresses chain_results in
    if negb (Dict.is_empty chain_results)
    then Dict.set results chain_id chain_results
    else results.

Definition check_all_balances (self : balance_checker)
  (wallet_address : string) : dict (dict float) :=
  fold_left (check_chain self wallet_address) SUPPORTED_CHAINS [].

(* ================================================================== *)
(** * [wallet_manager.py] and [wallet_service.py]: the stored wallets *)
(* ================================================================== *)

(** [v[k] = x] for a string [k]; [None] is the [TypeError] raised by a value
    that is not a dictionary. *)
Definition py_setitem (v : pyval) (k : string) (x : pyval) : option pyval :=
  match v with
  | PDict d => Some (PDict (Dict.set d k x))
  | _ => None
  end.

(** [del d[k]] *)
Definition dict_del {V : Type} (d : dict V) (k : string) : dict V :=
  filter (fun entry => negb (String.eqb (fst entry) k)) d.

(** What [add_wallet] and [get_private_key] use of [eth_account] and of
    [self.fernet]: the address of the account of a key ([None]: [from_key]
    raises), the token that [encrypt] returns for a key, and the text that
    [decrypt] returns for a token ([None]: it raises). *)
Record keyring : Type := {
  account_address : string -> option string;
  fernet_encrypt : string -> string;
  fernet_decrypt : string -> option string
}.

(** The functions of the wallet manager on [self.wallets], taken to be a
    dictionary, as [__init__] creates it and [_save_wallets] writes it.  The
    calls of [_save_wallets], which catches every exception and does not
    change [self.wallets], and of the logger are left out. *)
Module WalletManager.

Notation "x <- m ;; k" :=
  (match m with Some x => k | None => None end)
  (at level 61, m at next level, right associativity, only parsing).

(** [add_wallet] on the dictionary [self.wallets]: the returned information
    and the dictionary afterwards; [None] is the raised [ValueError]. *)
Definition add_wallet (self : keyring) (wallets : dict pyval)
  (name private_key : string) : option (pyval * dict pyval) :=
  let private_key :=
    if negb (String.prefix "0x" private_key)
    then "0x" ++ private_key
    else private_key in
  match account_address self private_key with
  | Some address =>
      let encrypted_key := fernet_encrypt self private_key in
      let wallet_info :=
        PDict [ ("name", PStr name);
                ("address", PStr address);
                ("encrypted_key", PStr encrypted_key);
                ("chains", PDict []) ] in
      Some (PDict [ ("name", PStr name); ("address", PStr address) ],
            Dict.set wallets address wallet_info)
  | None => None
  end.

(** [remove_wallet]: the result and the dictionary afterwards. *)
Definition remove_wallet (wallets : dict pyval) (address : string)
  : bool * dict pyval :=
  if Dict.mem wallets address
  then (true, dict_del wallets address)
  else (false, wallets).

(** [get_wallet]; [None] is a raised exception, [Some PNone] the result
    [None]. *)
Definition get_wallet (wallets : dict pyval) (address : string)
  : option pyval :=
  match Dict.get wallets address with
  | Some wallet =>
      match py_getitem wallet "name" with
      | Some name =>
          match py_get wallet "chains" (PDict []) with
          | Some chains =>
              Some (PDict [ ("name", name);
                            ("address", PStr address);
                            ("chains", chains) ])
          | None => None
          end
      | None => None
      end
  | None => Some PNone
  end.

(** [get_private_key]: every exception is caught; [None] is the result
    [None]. *)
Definition get_private_key (self : keyring) (wallets : dict pyval)
  (address : string) : option string :=
  match Dict.get wallets address with
  | Some wallet =>
      match py_getitem wallet "encrypted_key" with
      | Some (PStr encrypted_key) => fernet_decrypt self encrypted_key
      | _ => None
      end
  | None => None
  end.

(** [update_wallet_info] on the dictionary [self.wallets]: the result and
    the dictionary afterwards; [None] is a raised exception, which leaves
    the dictionary as it was.  The nested dictionaries are updated in place
    in the source, hence written back here. *)
Definition update_wallet_info (wallets : dict pyval)
  (address chain_id token_symbol : string) (balance : pyval)
  : option (bool * dict pyval) :=
  match Dict.get wallets address with
  | Some wallet =>
      has_chains <- py_contains "chains" wallet ;;
      wallet <- (if negb has_chains
                 then py_setitem wallet "chains" (PDict [])
                 else Some wallet) ;;
      chains <- py_getitem wallet "chains" ;;
      has_chain <- py_contains chain_id chains ;;
      chains <- (if negb has_chain
                 then py_setitem chains chain_id
                        (PDict [ ("tokens", PDict []) ])
                 else Some chains) ;;
      chain <- py_getitem chains chain_id ;;
      tokens <- py_getitem chain "tokens" ;;
      tokens <- py_setitem tokens token_symbol balance ;;
      chain <- py_setitem chain "tokens" tokens ;;
      chains <- py_setitem chains chain_id chain ;;
      wallet <- py_setitem wallet "chains" chains ;;
      Some (true, Dict.set wallets address wallet)
  | None => Some (false, wallets)
  end.

(** [get_balance]: the conjunction is short-circuit; [None] is a raised
    exception, [Some PNone] the result [None]. *)
Definition get_balance (wallets : dict pyval)
  (address chain_id token_symbol : string) : option pyval :=
  match Dict.get wallets address with
  | Some wallet =>
      has_chains <- py_contains "chains" wallet ;;
      if negb has_chains then Some PNone else
      chains <- py_getitem wallet "chains" ;;
      has_chain <- py_contains chain_id chains ;;
      if negb has_chain then Some PNone else
      chain <- py_getitem chains chain_id ;;
      has_tokens <- py_contains "tokens" chain ;;
      if negb has_tokens then Some PNone else
      tokens <- py_getitem chain "tokens" ;;
      has_token <- py_contains token_symbol tokens ;;
      if negb has_token then Some PNone else
      py_getitem tokens token_symbol
  | None => Some PNone
  end.

End WalletManager.

Module WalletService.

(** [update_balances] on the dictionary of the wallet manager: the body of the inner loop, the body of the outer loop, and the
    two loops over the balances that [check_all_balances] returned; [None]
    is a raised exception. *)
Definition store_balance (address chain_id : string)
  (wallets : option (dict pyval)) (item : string * float)
  : option (dict pyval) :=
  let token_symbol := fst item in
  let balance := snd item in
  match wallets with
  | Some wallets =>
      match WalletManager.update_wallet_info wallets address chain_id
              token_symbol (PFloat balance) with
      | Some (_, wallets) => Some wallets
      | None => None
      end
  | None => None
  end.

Definition store_chain (address : string) (wallets : option (dict pyval))
  (entry : string * dict float) : option (dict pyval) :=
  let chain_id := fst entry in
  let tokens := snd entry in
  fold_left (store_balance address chain_id) tokens wallets.

Definition update_balances (checker : balance_checker)
  (wallets : dict pyval) (address : string)
  : option (dict (dict float) * dict pyval) :=
  let balances := check_all_balances checker address in
  match fold_left (store_chain address) balances (Some wallets) with
  | Some wallets => Some (balances, wallets)
  | None => None
  end.

End WalletService.

(* ================================================================== *)
(** * Vocabulary of the statements *)
(* ================================================================== *)

(** The state after one draw from the generator. *)
Definition advance (s : state) : state := with_rng (fun i => rng s (S i)) s.

(** The state after one log record. *)
Definition logged (l : level) (msg : string) (s : state) : state :=
  with_trace (trace s ++ [ELog l msg]) s.

(** Stargate declares a route: both chains are Stargate chains and the token
    has a pool entry on both. *)
Definition Stargate_route_declared (from_chain to_chain token_symbol : string)
  : Prop :=
  In from_chain (Dict.keys STARGATE_CHAINS) /\
  In to_chain (Dict.keys STARGATE_CHAINS) /\
  exists pools, Dict.get STARGATE_POOLS token_symbol = Some pools /\
    In from_chain (Dict.keys pools) /\ In to_chain (Dict.keys pools).

(** An environment in which every call fails; the selection functions make
    no call. *)
Definition silent_env : environment :=
  {| respond := fun _ _ => Raises;
     balances := fun _ _ => None;
     clock := fun _ => mk_datetime 0 0 0 0 0;
     isoformat := fun _ => "";
     float_str := fun _ => "" |}.

(** A fresh state whose generator yields the given raw draws, then zeros. *)
Definition state_with_draws (draws : list nat) : state :=
  {| env := silent_env; trace := [];
     rng := fun i => nth i draws 0%nat;
     transaction_history := [] |}.

(** The wallet of the end-to-end scenario: 100 USDC on each of two chains. *)
Definition wallet_100 : dict (dict token_info) :=
  [ ("X", [ ("USDC", {| address := "0x..."; balance := float_of_Z 100 |}) ]);
    ("Y", [ ("USDC", {| address := "0x..."; balance := float_of_Z 100 |}) ]) ].

(** The chain holds a token with a positive balance. *)
Definition has_positive_balance (available_tokens : dict (dict token_info))
  (chain : string) : bool :=
  match Dict.get available_tokens chain with
  | Some tokens =>
      existsb (fun entry => fltb (float_of_Z 0) (balance (snd entry))) tokens
  | None => false
  end.

(** A wallet with zero balances: chain A holds an empty DAI balance before
    5 USDC, chain B holds 5 USDC, chain C holds only an empty balance. *)
Definition wallet_with_zero_balances : dict (dict token_info) :=
  [ ("A", [ ("DAI",  {| address := "0x..."; balance := float_of_Z 0 |});
            ("USDC", {| address := "0x..."; balance := float_of_Z 5 |}) ]);
    ("B", [ ("USDC", {| address := "0x..."; balance := float_of_Z 5 |}) ]);
    ("C", [ ("USDC", {| address := "0x..."; balance := float_of_Z 0 |}) ]) ].

(** A wallet in which a single chain holds a positive balance: chain A
    holds 5 USDC, chain C only an empty balance. *)
Definition wallet_one_positive : dict (dict token_info) :=
  [ ("A", [ ("USDC", {| address := "0x..."; balance := float_of_Z 5 |}) ]);
    ("C", [ ("USDC", {| address := "0x..."; balance := float_of_Z 0 |}) ]) ].


(** The rational number that a finite float stands for. *)
Definition float_value (x : float) : Q :=
  match x with
  | S754_finite s m e =>
      (inject_Z (if s then Zneg m else Zpos m) * Qpower 2 e)%Q
  | _ => 0%Q
  end.

(** The floats [0.1] and [1e308]: the floats nearest to 1/10 and to
    10^308. *)
Definition float_tenth : float := fdiv (float_of_Z 1) (float_of_Z 10).
Definition float_1e308 : float := float_of_Z (10 ^ 308).

(** A wallet holding 0.1 USDC on each of two chains, and one holding 1e308
    USDC on each. *)
Definition wallet_tenth : dict (dict token_info) :=
  [ ("X", [ ("USDC", {| address := "0x..."; balance := float_tenth |}) ]);
    ("Y", [ ("USDC", {| address := "0x..."; balance := float_tenth |}) ]) ].

Definition wallet_1e308 : dict (dict token_info) :=
  [ ("X", [ ("USDC", {| address := "0x..."; balance := float_1e308 |}) ]);
    ("Y", [ ("USDC", {| address := "0x..."; balance := float_1e308 |}) ]) ].


(** The clock time of a scheduled transaction lies in the daily window. *)
Definition in_daily_window (t : datetime) : Prop :=
  8 <= hour t <= 22 /\ 0 <= minute t <= 59 /\ 0 <= second t <= 59.


(** The timestamp drawn for today, before any correction. *)
Definition drawn_today (now d : datetime) : Prop :=
  ordinal d = ordinal now /\ in_daily_window d /\ microsecond d = 0.


(** A fresh state whose clock reads [now] and whose generator yields the
    given raw draws, then zeros. *)
Definition state_at (now : datetime) (draws : list nat) : state :=
  {| env := {| respond := fun _ _ => Raises;
               balances := fun _ _ => None;
               clock := fun _ => now;
               isoformat := fun _ => "";
               float_str := fun _ => "" |};
     trace := [];
     rng := fun i => nth i draws 0%nat;
     transaction_history := [] |}.

(** The events that a run from [s] to [s'] added to the trace. *)
Definition run_events (s s' : state) : list event :=
  skipn (List.length (trace s)) (trace s').

Definition reply_truthy (r : reply) : bool :=
  match r with
  | Returns v => truthy v
  | Raises => false
  end.

(** A submission: a call of [wallet_service.send_transaction]. *)
Definition is_send (e : event) : bool :=
  match e with
  | ECall (SendTransaction _ _ _ _ _) _ => true
  | _ => false
  end.

(** An approval transaction: a call of
    [wallet_service.approve_token_for_bridge]. *)
Definition is_approve (e : event) : bool :=
  match e with
  | ECall (ApproveTokenForBridge _ _ _ _ _) _ => true
  | _ => false
  end.

(** The approval confirmation: the wait with the 180 seconds timeout. *)
Definition is_approval_wait (e : event) : bool :=
  match e with
  | ECall (WaitForTransaction _ _ timeout) _ => timeout =? 180
  | _ => false
  end.

Definition is_approval_step (e : event) : bool :=
  is_approve e || is_approval_wait e.

Definition reply_of (e : event) : reply :=
  match e with
  | ECall _ r => r
  | _ => Raises
  end.

(** The approval step fails: no transaction hash is obtained, or the
    confirmation wait does not return true. *)
Definition approval_step_failed (e : event) : bool :=
  is_approval_step e && negb (reply_truthy (reply_of e)).

(** The approval is confirmed: the confirmation wait returns true. *)
Definition approval_confirmed (e : event) : bool :=
  is_approval_wait e && reply_truthy (reply_of e).

(** Weakest precondition of a program from a given state: the
    postcondition holds of its outcome and final state. *)
Definition wp {R A : Type} (m : M R A) (s : state)
  (Q : outcome R A -> state -> Prop) : Prop :=
  Q (fst (m s)) (snd (m s)).

(** The state reached from [s] once the events [revs], newest first, have
    been added to its trace. *)
Definition st (s : state) (revs : list event) : state :=
  with_trace (trace s ++ rev revs) s.

(** Scan of a run for submissions: at a submission, an approval that was
    requested ([requested]) must have been confirmed ([confirmed]), and no
    approval step may follow. *)
Fixpoint submission_gated (requested confirmed : bool) (evs : list event)
  : bool :=
  match evs with
  | [] => true
  | e :: rest =>
      if is_send e then
        (negb requested || confirmed) &&
        forallb (fun x => negb (is_approval_step x)) rest &&
        submission_gated requested confirmed rest
      else
        submission_gated (requested || is_approve e)
          (confirmed || approval_confirmed e) rest
  end.

(** What a run of an adapter guarantees about approval and submission,
    in terms of its result and of its events. *)
Definition approval_gate {R : Type} (r : outcome R pyval) (evs : list event)
  : Prop :=
  (existsb approval_step_failed evs = true ->
   r = Val PNone /\ existsb is_send evs = false) /\
  submission_gated false false evs = true.




(** The result of an adapter: [None], or a non-empty record. *)
Definition adapter_result {R : Type} (r : outcome R pyval) : Prop :=
  r = Val PNone \/ exists d, r = Val (PDict d) /\ d <> [].

(** The run only added events to the trace. *)
Definition only_trace_added (s s' : state) : Prop :=
  exists revs, s' = st s revs.

(** A run of one of the three provider adapters, with its arguments. *)
Inductive adapter_run : Type :=
| JumperRun (self : http_service)
    (wallet_address from_chain to_chain from_token to_token amount : string)
| StargateRun (self : Stargate.service)
    (wallet_address from_chain to_chain token_symbol amount : string)
    (token_address : pyval)
| RelayRun (self : http_service)
    (wallet_address from_chain_id to_chain_id from_token_address
       to_token_address amount : string).

Definition run_adapter {R : Type} (a : adapter_run) : M R pyval :=
  match a with
  | JumperRun self w f t from_token to_token amount =>
      Jumper.execute_bridge self w f t from_token to_token amount
  | StargateRun self w f t k amount token_address =>
      Stargate.execute_bridge self w f t k amount token_address
  | RelayRun self w f t fa ta amount =>
      Relay.execute_bridge self w f t fa ta amount
  end.

(** A Jumper quote that requires an approval for spender S, amount "50". *)
Definition quote_with_approval : pyval :=
  PDict [ ("transactionRequest",
           PDict [ ("to", PStr "0x1234"); ("data", PStr "0xabcd");
                   ("value", PStr "0x0") ]);
          ("action", PDict [ ("fromChainId", PStr "1") ]);
          ("approvalData",
           PDict [ ("tokenAddress", PStr "0xToken");
                   ("spenderAddress", PStr "0xS");
                   ("amount", PStr "50") ]);
          ("tool", PStr "across") ].

(** The signing port of the scenario: [approve] returns a hash and every
    confirmation wait returns [False]; the provider answers with the quote
    above. *)
Definition unconfirmed_approval_env : environment :=
  {| respond := fun _ c =>
       match c with
       | RequestsGet _ _ _ => Returns quote_with_approval
       | ApproveTokenForBridge _ _ _ _ _ => Returns (PStr "0xapproval")
       | WaitForTransaction _ _ _ => Returns (PBool false)
       | SendTransaction _ _ _ _ _ => Returns (PStr "0xbridge")
       | _ => Raises
       end;
     balances := fun _ _ => None;
     clock := fun _ => mk_datetime 739000 12 0 0 0;
     isoformat := fun _ => "2024-04-23T12:00:00";
     float_str := fun _ => "" |}.

Definition fresh_state (e : environment) : state :=
  {| env := e; trace := []; rng := fun _ => 0%nat; transaction_history := [] |}.

Definition jumper_usdc_run : adapter_run :=
  JumperRun (Jumper.new PNone) "0xW" "ETH" "ARB" "USDC" "USDC" "45.0".

(** A hexadecimal digit character, and its value. *)
Definition is_hex_digit (c : ascii) : bool :=
  match digit_value c with
  | Some d => d <? 16
  | None => false
  end.

Definition hex_digit (c : ascii) : Z :=
  match digit_value c with
  | Some d => d
  | None => 0
  end.

(** The unsigned integer written by digits, most significant first. *)
Fixpoint big_endian (base : Z) (digits : list Z) : Z :=
  match digits with
  | [] => 0
  | d :: rest => d * base ^ Z.of_nat (List.length rest) + big_endian base rest
  end.

(** The unsigned base-16 reading of a string of hexadecimal digits. *)
Definition hex_value (digits : list ascii) : Z :=
  big_endian 16 (map hex_digit digits).

(** The parameters of the quote request of Jumper. *)
Definition jumper_quote_params
  (from_chain to_chain from_token to_token from_amount from_address : string)
  : dict pyval :=
  [ ("fromChain", PStr from_chain);
    ("toChain", PStr to_chain);
    ("fromToken", PStr from_token);
    ("toToken", PStr to_token);
    ("fromAmount", PStr from_amount);
    ("fromAddress", PStr from_address) ].

(** What a run of the Jumper adapter guarantees about the amount of an
    approval call [e]: it is the base-16 reading of the amount string of the
    quote's [approvalData]. *)
Definition approves_base16 (self : http_service)
  (params : dict pyval) (evs : list event) (e : event) : Prop :=
  match e with
  | ECall (ApproveTokenForBridge _ _ token spender amount) _ =>
      exists quote approval_data text n,
        hd_error evs
          = Some (ECall (RequestsGet (api_url self ++ "/quote") (headers self)
                           params) (Returns quote)) /\
        py_getitem quote "approvalData" = Some approval_data /\
        py_get approval_data "tokenAddress" PNone = Some token /\
        py_get approval_data "spenderAddress" PNone = Some spender /\
        py_get approval_data "amount" (PStr "0") = Some text /\
        py_int16 text = Some n /\
        amount = PInt n
  | _ => True
  end.

(** The provider answers with a quote whose approval amount is "100"; the
    signing port accepts everything. *)
Definition decimal_amount_env : environment :=
  {| respond := fun _ c =>
       match c with
       | RequestsGet _ _ _ =>
           Returns
             (PDict [ ("transactionRequest",
                       PDict [ ("to", PStr "0x1234"); ("data", PStr "0xabcd");
                               ("value", PStr "0x0") ]);
                      ("action", PDict [ ("fromChainId", PStr "1") ]);
                      ("approvalData",
                       PDict [ ("tokenAddress", PStr "0xToken");
                               ("spenderAddress", PStr "0xS");
                               ("amount", PStr "100") ]) ])
       | ApproveTokenForBridge _ _ _ _ _ => Returns (PStr "0xapproval")
       | WaitForTransaction _ _ _ => Returns (PBool true)
       | SendTransaction _ _ _ _ _ => Returns (PStr "0xbridge")
       | _ => Raises
       end;
     balances := fun _ _ => None;
     clock := fun _ => mk_datetime 739000 12 0 0 0;
     isoformat := fun _ => "2024-04-23T12:00:00";
     float_str := fun _ => "" |}.

(** The first element that satisfies [p], with what precedes and what
    follows it. *)
Fixpoint split_first {A : Type} (p : A -> bool) (l : list A)
  : option (list A * A * list A) :=
  match l with
  | [] => None
  | x :: rest =>
      if p x then Some ([], x, rest)
      else match split_first p rest with
           | Some (pre, y, post) => Some (x :: pre, y, post)
           | None => None
           end
  end.

Definition is_log (e : event) : bool :=
  match e with ELog _ _ => true | _ => false end.

Definition is_post (e : event) : bool :=
  match e with ECall (RequestsPost _ _ _) _ => true | _ => false end.

Definition is_wait (e : event) : bool :=
  match e with ECall (WaitForTransaction _ _ _) _ => true | _ => false end.

Definition msg_notification_failed : string :=
  "Impossible de notifier Relay de la transaction".

(** The success record of the Relay adapter. *)
Definition relay_success {R : Type} (r : outcome R pyval)
  (tx_hash request_id : pyval) : Prop :=
  exists d,
    r = Val (PDict d) /\
    Dict.get d "tx_hash" = Some tx_hash /\
    Dict.get d "request_id" = Some request_id /\
    Dict.get d "bridge_type" = Some (PStr "relay") /\
    Dict.get d "status" = Some (PStr "pending").

(** After the notification, whatever its reply: only log records, among
    them the warning when the notification failed, then the confirmation
    wait of the submitted transaction; if that wait succeeds the run
    succeeds. *)
Definition confirmed_after_notification {R : Type} (r : outcome R pyval)
  (chain_id tx_hash request_id : pyval) (notification : reply)
  (evs : list event) : Prop :=
  match split_first is_wait evs with
  | Some (logs, ECall (WaitForTransaction c h timeout) confirmation, _) =>
      forallb is_log logs = true /\
      (reply_truthy notification = false ->
       In (ELog WARNING msg_notification_failed) logs) /\
      c = chain_id /\ h = tx_hash /\ timeout = 300 /\
      (reply_truthy confirmation = true ->
       relay_success r tx_hash request_id)
  | _ => False
  end.

(** After the submission: only log records, then the notification request
    with the request id and the transaction hash. *)
Definition notified_after_submission {R : Type} (self : http_service)
  (r : outcome R pyval) (chain_id tx_hash request_id : pyval)
  (evs : list event) : Prop :=
  match split_first is_post evs with
  | Some (logs, ECall (RequestsPost url hdrs body) notification, rest) =>
      forallb is_log logs = true /\
      url = api_url self ++ "/transactions" /\
      hdrs = headers self /\
      body = [ ("requestId", request_id); ("txHash", tx_hash) ] /\
      confirmed_after_notification r chain_id tx_hash request_id notification
        rest
  | _ => False
  end.

(** The body of the quote request of Relay. *)
Definition relay_quote_body
  (from_chain_id to_chain_id from_token_address to_token_address amount
     sender_address : string) : dict pyval :=
  [ ("fromChainId", PStr from_chain_id);
    ("toChainId", PStr to_chain_id);
    ("fromTokenAddress", PStr from_token_address);
    ("toTokenAddress", PStr to_token_address);
    ("fromAmount", PStr amount);
    ("fromAddress", PStr sender_address);
    ("toAddress", PStr sender_address) ].

(** What a run of the Relay adapter guarantees once a submission has
    returned a transaction hash. *)
Definition relay_notifies {R : Type} (self : http_service)
  (quote_body : dict pyval) (r : outcome R pyval) (evs : list event) : Prop :=
  match split_first is_send evs with
  | Some (_, ECall (SendTransaction _ chain_id _ _ _) (Returns tx_hash), rest) =>
      truthy tx_hash = true ->
      exists quote request_id,
        hd_error evs
          = Some (ECall (RequestsPost (api_url self ++ "/quote") (headers self)
                           quote_body) (Returns quote)) /\
        py_get quote "requestId" PNone = Some request_id /\
        notified_after_submission self r chain_id tx_hash request_id rest
  | _ => True
  end.

(** A Relay quote that requires no approval, and an environment in which
    the notification request fails while the signing port accepts the
    submission and confirms it. *)
Definition relay_quote : pyval :=
  PDict [ ("tx", PDict [ ("to", PStr "0x1234"); ("data", PStr "0xabcd");
                         ("value", PStr "0") ]);
          ("fromChainId", PInt 1);
          ("requestId", PStr "req-1") ].

Definition failing_notification_env : environment :=
  {| respond := fun _ c =>
       match c with
       | RequestsPost url _ _ =>
           if String.eqb url "https://api.relay.link/quote"
           then Returns relay_quote else Raises
       | SendTransaction _ _ _ _ _ => Returns (PStr "0xbridge")
       | WaitForTransaction _ _ _ => Returns (PBool true)
       | _ => Raises
       end;
     balances := fun _ _ => None;
     clock := fun _ => mk_datetime 739000 12 0 0 0;
     isoformat := fun _ => "2024-04-23T12:00:00";
     float_str := fun _ => "" |}.

(** The events of a run of [m] from [s]. *)
Definition events_of {R A : Type} (m : M R A) (s : state) : list event :=
  run_events s (snd (m s)).

(** The effect of [execute_random_bridge] on the history, from state [s]:
    on failure nothing changes; on success the result is a record and
    exactly one record, the result tagged with the name of a service, is
    added at the end. *)
Definition history_outcome {R : Type} (s : state) (r : outcome R pyval)
  (s' : state) : Prop :=
  (r = Val PNone /\ transaction_history s' = transaction_history s) \/
  (exists d service_name,
      r = Val (PDict d) /\ d <> [] /\
      is_service service_name = true /\
      transaction_history s'
      = (transaction_history s ++
         [PDict (Dict.set d "service" (PStr service_name))])%list).

(** The operations of the aggregator and of its adapters. *)
Inductive operation : Type :=
| ExecuteRandomBridge (self : BridgeAggregator) (wallet_address : string)
| SelectRandomTransaction (wallet_address : string)
    (available_chains : list string)
    (available_tokens : dict (dict token_info))
| SelectRandomService (from_chain to_chain token_symbol : string)
| GenerateRandomTransactionTimes (num_transactions : option Z)
| GetTransactionHistory
| ExecuteBridge (a : adapter_run).

(** The state after an operation. *)
Definition perform (op : operation) (s : state) : state :=
  match op with
  | ExecuteRandomBridge self w =>
      snd (execute_random_bridge (R:=unit) self w s)
  | SelectRandomTransaction w chains tokens =>
      snd (select_random_transaction (R:=unit) w chains tokens s)
  | SelectRandomService f t k =>
      snd (select_random_service (R:=unit) f t k s)
  | GenerateRandomTransactionTimes n =>
      snd (generate_random_transaction_times (R:=unit) n s)
  | GetTransactionHistory => snd (get_transaction_history (R:=unit) s)
  | ExecuteBridge a => snd (run_adapter (R:=unit) a s)
  end.

Definition perform_all (ops : list operation) (s : state) : state :=
  fold_left (fun s op => perform op s) ops s.

(** The scenario of a successful run: 100 USDC on chains X and Y, a quote
    that requires no approval, a signing port that accepts and confirms the
    submission. *)
Definition successful_env : environment :=
  {| respond := fun _ c =>
       match c with
       | RequestsGet _ _ _ =>
           Returns
             (PDict [ ("transactionRequest",
                       PDict [ ("to", PStr "0x1234"); ("data", PStr "0xabcd");
                               ("value", PStr "0x0") ]);
                      ("action", PDict [ ("fromChainId", PStr "1") ]);
                      ("tool", PStr "across") ])
       | SendTransaction _ _ _ _ _ => Returns (PStr "0xbridge")
       | WaitForTransaction _ _ _ => Returns (PBool true)
       | _ => Raises
       end;
     balances := fun _ _ =>
       Some [ ("X", [ ("USDC", float_of_Z 100) ]); ("Y", [ ("USDC", float_of_Z 100) ]) ];
     clock := fun _ => mk_datetime 739000 12 0 0 0;
     isoformat := fun _ => "2024-04-23T12:00:00";
     float_str := fun _ => "10.0" |}.

Definition aggregator : BridgeAggregator :=
  {| jumper_service := Jumper.new PNone;
     stargate_service :=
       {| Stargate.web3_connections := []; Stargate.router_contracts := [] |};
     relay_service := Relay.new PNone |}.

Definition jumper_record : dict pyval :=
  [ ("tx_hash", PStr "0xbridge");
    ("bridge_type", PStr "across");
    ("from_chain", PStr "X");
    ("to_chain", PStr "Y");
    ("from_token", PStr "USDC");
    ("to_token", PStr "USDC");
    ("amount", PStr "10.0");
    ("status", PStr "pending");
    ("timestamp", PStr "2024-04-23T12:00:00") ].

(** The state in which [execute_random_bridge] selects the transfer: the
    balances [b] have been read. *)
Definition after_balances (wallet_address : string) (b : dict (dict float))
  (s : state) : state :=
  with_trace (trace s ++ [EBalances wallet_address (Some b)]) s.

(** The run of the provider that [execute_random_bridge] delegates to. *)
Definition provider_run (self : BridgeAggregator)
  (service_name wallet_address from_chain to_chain token_symbol
     token_address amount_text : string) : option adapter_run :=
  if String.eqb service_name "jumper" then
    Some (JumperRun (jumper_service self) wallet_address from_chain to_chain
            token_symbol token_symbol amount_text)
  else if String.eqb service_name "stargate" then
    Some (StargateRun (stargate_service self) wallet_address from_chain
            to_chain token_symbol amount_text (PStr token_address))
  else if String.eqb service_name "relay" then
    Some (RelayRun (relay_service self) wallet_address from_chain to_chain
            token_address token_address amount_text)
  else None.

(** The state in which the provider starts: the choice has been logged. *)
Definition before_provider (from_chain to_chain token_symbol service_name
                              : string) (amount : float) (s : state) : state :=
  logged INFO
    ("Exécution d'un bridge aléatoire: " ++ from_chain ++ " -> " ++ to_chain
     ++ ", " ++ float_str (env s) amount ++ " " ++ token_symbol ++ " via "
     ++ service_name) s.

(** An adapter run acts for one wallet. *)
Definition wallet_of (a : adapter_run) : string :=
  match a with
  | JumperRun _ w _ _ _ _ _ => w
  | StargateRun _ w _ _ _ _ _ => w
  | RelayRun _ w _ _ _ _ _ => w
  end.

(** The amount argument of an adapter run, as received. *)
Definition amount_of (a : adapter_run) : string :=
  match a with
  | JumperRun _ _ _ _ _ _ amount => amount
  | StargateRun _ _ _ _ _ amount _ => amount
  | RelayRun _ _ _ _ _ _ amount => amount
  end.

Definition is_error_log (e : event) : bool :=
  match e with ELog ERROR _ => true | _ => false end.

(** A call of the wallet service that signs or waits. *)
Definition is_wallet_call (e : event) : bool :=
  is_approve e || is_send e || is_wait e.

(** The confirmation of a submission: the wait with the 300 seconds
    timeout. *)
Definition is_confirmation_wait (e : event) : bool :=
  match e with
  | ECall (WaitForTransaction _ _ timeout) _ => timeout =? 300
  | _ => false
  end.

(** An event that leaves the process: any call. *)
Definition is_call (e : event) : bool :=
  match e with ECall _ _ => true | _ => false end.

(** The last event of a run is an error record. *)
Definition ends_with_error (evs : list event) : bool :=
  match rev evs with
  | e :: _ => is_error_log e
  | [] => false
  end.

(** The success record of an adapter: the hash of the submission, the
    amount as received, and the status [pending]. *)
Definition pending_record {R : Type} (r : outcome R pyval) (tx_hash : pyval)
  (amount : string) : Prop :=
  exists d,
    r = Val (PDict d) /\
    Dict.get d "tx_hash" = Some tx_hash /\
    Dict.get d "amount" = Some (PStr amount) /\
    Dict.get d "status" = Some (PStr "pending").

(** After a submission that returned the hash [tx_hash]: no call up to the
    confirmation wait, except the notification of Relay; the wait is for
    that hash on the chain of the submission, with the 300 seconds timeout;
    its reply decides the result, and no call follows it. *)
Definition confirmation_decides {R : Type} (r : outcome R pyval)
  (chain_id tx_hash : pyval) (amount : string) (evs : list event) : Prop :=
  match split_first is_wait evs with
  | Some (mid, ECall (WaitForTransaction c h timeout) confirmation, post) =>
      existsb is_wallet_call mid = false /\
      c = chain_id /\ h = tx_hash /\ timeout = 300 /\
      existsb is_call post = false /\
      if reply_truthy confirmation
      then pending_record r tx_hash amount
      else r = Val PNone
  | _ => False
  end.

(** What a run guarantees about its submission: without a submission the
    result is [None]; there is at most one submission, for the wallet of
    the run; when it yields no hash the run stops with [None] and only log
    records follow; when it yields a hash the confirmation decides. *)
Definition submission_outcome {R : Type} (wallet_address amount : string)
  (r : outcome R pyval) (evs : list event) : Prop :=
  match split_first is_send evs with
  | None => r = Val PNone
  | Some (pre, ECall (SendTransaction w chain_id _ _ _) answer, rest) =>
      w = wallet_address /\
      existsb is_confirmation_wait pre = false /\
      existsb is_send rest = false /\
      if reply_truthy answer
      then match answer with
           | Returns tx_hash =>
               confirmation_decides r chain_id tx_hash amount rest
           | Raises => False
           end
      else r = Val PNone /\ forallb is_log rest = true
  | Some _ => False
  end.

(** The guarantees that every adapter gives on every run. *)
Definition run_outcome {R : Type} (wallet_address amount : string)
  (r : outcome R pyval) (evs : list event) : Prop :=
  submission_outcome wallet_address amount r evs /\
  (r = Val PNone <-> ends_with_error evs = true) /\
  (List.length (filter is_approve evs) <=? 1)%nat = true.

(** A Relay scenario in which the wallet service refuses the submission:
    [send_transaction] returns [None]. *)
Definition rejected_submission_env : environment :=
  {| respond := fun _ c =>
       match c with
       | RequestsPost _ _ _ => Returns relay_quote
       | SendTransaction _ _ _ _ _ => Returns PNone
       | WaitForTransaction _ _ _ => Returns (PBool true)
       | _ => Raises
       end;
     balances := fun _ _ => None;
     clock := fun _ => mk_datetime 739000 12 0 0 0;
     isoformat := fun _ => "2024-04-23T12:00:00";
     float_str := fun _ => "" |}.

Definition relay_usdc_run : adapter_run :=
  RelayRun (Relay.new PNone) "0xW" "1" "42161" "0xUSDC" "0xUSDC" "45.0".

(** [quote.get("action", {}).get("fromChainId")]: the chain on which the
    Jumper adapter signs. *)
Definition jumper_chain_id (quote : pyval) : option pyval :=
  match py_get quote "action" (PDict []) with
  | Some action => py_get action "fromChainId" PNone
  | None => None
  end.

(** What a call made after the quote owes to it in a run of the Jumper
    adapter: the wallet service signs for the wallet of the run on the chain
    of the quote, and the submission carries the transaction request of the
    quote; there is no other call. *)
Definition jumper_call_of_quote (wallet_address : string) (quote : pyval)
  (e : event) : Prop :=
  match e with
  | ECall (SendTransaction w chain_id to value data) _ =>
      w = wallet_address /\
      jumper_chain_id quote = Some chain_id /\
      exists tx_request text n,
        py_getitem quote "transactionRequest" = Some tx_request /\
        py_get tx_request "to" PNone = Some to /\
        py_get tx_request "data" PNone = Some data /\
        py_get tx_request "value" (PStr "0") = Some text /\
        parse_tx_value text = Some n /\
        value = PInt n
  | ECall (ApproveTokenForBridge w chain_id _ _ _) _ =>
      w = wallet_address /\ jumper_chain_id quote = Some chain_id
  | ECall (WaitForTransaction chain_id _ _) _ =>
      jumper_chain_id quote = Some chain_id
  | ECall _ _ => False
  | _ => True
  end.

(** A run of the Jumper adapter starts with the quote request; without a
    quote it stops, and with one every later call follows the quote. *)
Definition jumper_follows_quote {R : Type} (self : http_service)
  (params : dict pyval) (wallet_address : string) (r : outcome R pyval)
  (evs : list event) : Prop :=
  match evs with
  | ECall (RequestsGet url hdrs ps) answer :: rest =>
      url = api_url self ++ "/quote" /\ hdrs = headers self /\ ps = params /\
      if reply_truthy answer
      then match answer with
           | Returns quote =>
               Forall (jumper_call_of_quote wallet_address quote) rest
           | Raises => False
           end
      else r = Val PNone /\ forallb is_log rest = true
  | _ => False
  end.

(** What a call made after the quote owes to it in a run of the Relay
    adapter. *)
Definition relay_call_of_quote (self : http_service)
  (wallet_address from_token_address : string) (quote : pyval) (e : event)
  : Prop :=
  match e with
  | ECall (SendTransaction w chain_id to value data) _ =>
      w = wallet_address /\
      py_get quote "fromChainId" PNone = Some chain_id /\
      exists tx text n,
        py_getitem quote "tx" = Some tx /\
        py_get tx "to" PNone = Some to /\
        py_get tx "data" PNone = Some data /\
        py_get tx "value" (PStr "0") = Some text /\
        parse_tx_value text = Some n /\
        value = PInt n
  | ECall (ApproveTokenForBridge w chain_id token spender amount) _ =>
      w = wallet_address /\
      py_get quote "fromChainId" PNone = Some chain_id /\
      token = PStr from_token_address /\
      exists approval_data n,
        py_getitem quote "approvalData" = Some approval_data /\
        py_get approval_data "spender" PNone = Some spender /\
        Relay.parse_approval_amount approval_data = Some n /\
        amount = PInt n
  | ECall (WaitForTransaction chain_id _ _) _ =>
      py_get quote "fromChainId" PNone = Some chain_id
  | ECall (RequestsPost url hdrs _) _ =>
      url = api_url self ++ "/transactions" /\ hdrs = headers self
  | ECall _ _ => False
  | _ => True
  end.

Definition relay_follows_quote {R : Type} (self : http_service)
  (body : dict pyval) (wallet_address from_token_address : string)
  (r : outcome R pyval) (evs : list event) : Prop :=
  match evs with
  | ECall (RequestsPost url hdrs b) answer :: rest =>
      url = api_url self ++ "/quote" /\ hdrs = headers self /\ b = body /\
      if reply_truthy answer
      then match answer with
           | Returns quote =>
               Forall (relay_call_of_quote self wallet_address
                         from_token_address quote) rest
           | Raises => False
           end
      else r = Val PNone /\ forallb is_log rest = true
  | _ => False
  end.

(** An HTTP request. *)
Definition is_http (e : event) : bool :=
  match e with
  | ECall (RequestsGet _ _ _) _ => true
  | ECall (RequestsPost _ _ _) _ => true
  | _ => false
  end.

(** A Relay quote that requires an approval with the JSON amount 100, and a
    scenario in which the wallet service accepts and confirms everything. *)
Definition relay_quote_with_approval : pyval :=
  PDict [ ("tx", PDict [ ("to", PStr "0x1234"); ("data", PStr "0xabcd");
                         ("value", PStr "0") ]);
          ("fromChainId", PInt 1);
          ("requestId", PStr "req-1");
          ("approvalData",
           PDict [ ("spender", PStr "0xS"); ("amount", PInt 100) ]) ].

Definition relay_approval_env : environment :=
  {| respond := fun _ c =>
       match c with
       | RequestsPost _ _ _ => Returns relay_quote_with_approval
       | ApproveTokenForBridge _ _ _ _ _ => Returns (PStr "0xapproval")
       | SendTransaction _ _ _ _ _ => Returns (PStr "0xbridge")
       | WaitForTransaction _ _ _ => Returns (PBool true)
       | _ => Raises
       end;
     balances := fun _ _ => None;
     clock := fun _ => mk_datetime 739000 12 0 0 0;
     isoformat := fun _ => "2024-04-23T12:00:00";
     float_str := fun _ => "" |}.

(** [amount_wei] of a Stargate run: the reply of [web3.to_wei(amount,
    'ether')] for ETH, [int(amount)] for any other token. *)
Definition stargate_amount_wei (from_chain token_symbol amount : string)
  (evs : list event) (amount_wei : pyval) : Prop :=
  if String.eqb token_symbol "ETH"
  then In (ECall (Web3ToWei from_chain amount "ether") (Returns amount_wei))
         evs
  else exists n, py_int_of_string 10 amount = Some n /\ amount_wei = PInt n.

(** The event [e2] is the next event after [e1] somewhere among the
    events. *)
Fixpoint follows_directly (e1 e2 : event) (evs : list event) : Prop :=
  match evs with
  | x :: rest =>
      match rest with
      | y :: _ => (x = e1 /\ y = e2) \/ follows_directly e1 e2 rest
      | [] => False
      end
  | [] => False
  end.

(** What a call of a Stargate run owes to the arguments and to the tables
    of the module: the wallet service signs for the wallet of the run on the
    source chain; an approval is for the token of the run, for the router of
    the source chain and for [amount_wei]; the submission goes to that
    router, with the fee as value (plus the amount for ETH) and the encoded
    [swap] as data, whose chain and pool identifiers are those of the
    tables, whose minimum amount is [int(amount_wei * 0.97)], and whose
    refund address is the reply of the checksum call on the wallet address
    made just before the encoding; the fee is quoted for the reply of the
    checksum call on the wallet address made just before the quote.  There
    is no HTTP request. *)
Definition stargate_call_of_tables
  (wallet_address from_chain to_chain token_symbol amount : string)
  (token_address : pyval) (evs : list event) (e : event) : Prop :=
  match e with
  | ECall (ApproveTokenForBridge w chain_id token spender approved) _ =>
      w = wallet_address /\ chain_id = PStr from_chain /\
      token = token_address /\
      String.eqb token_symbol "ETH" = false /\
      truthy token_address = true /\
      (exists router,
          Stargate.router_of from_chain = Some router /\
          spender = PStr router) /\
      stargate_amount_wei from_chain token_symbol amount evs approved
  | ECall (SendTransaction w chain_id to value data) _ =>
      w = wallet_address /\ chain_id = PStr from_chain /\
      (exists router,
          Stargate.router_of from_chain = Some router /\ to = PStr router) /\
      exists amount_wei scaled min_amount refund to_address_bytes
             fee_refund fees fee other,
        stargate_amount_wei from_chain token_symbol amount evs amount_wei /\
        py_mul_float amount_wei float_0_97 = Some scaled /\
        py_int scaled = Some min_amount /\
        Stargate.is_none (Stargate.get_chain_id to_chain) = false /\
        Stargate.is_none (Stargate.get_pool_id token_symbol from_chain)
        = false /\
        Stargate.is_none (Stargate.get_pool_id token_symbol to_chain)
        = false /\
        In (ECall (Web3ToBytes wallet_address) (Returns to_address_bytes))
          evs /\
        follows_directly
          (ECall (Web3ToChecksumAddress (PStr wallet_address))
             (Returns refund))
          (ECall
             (EncodeABI from_chain "swap"
                [ Stargate.opt_int (Stargate.get_chain_id to_chain);
                  Stargate.opt_int
                    (Stargate.get_pool_id token_symbol from_chain);
                  Stargate.opt_int
                    (Stargate.get_pool_id token_symbol to_chain);
                  refund; amount_wei; PInt min_amount; to_address_bytes;
                  PBytes ""; PBytes "" ])
             (Returns data)) evs /\
        follows_directly
          (ECall (Web3ToChecksumAddress (PStr wallet_address))
             (Returns fee_refund))
          (ECall
             (QuoteLayerZeroFee from_chain
                (Stargate.opt_int (Stargate.get_chain_id to_chain))
                (Stargate.opt_int
                   (Stargate.get_pool_id token_symbol from_chain))
                (Stargate.opt_int
                   (Stargate.get_pool_id token_symbol to_chain))
                fee_refund)
             (Returns fees)) evs /\
        py_unpack2 fees = Some (fee, other) /\
        (if String.eqb token_symbol "ETH"
         then py_add fee amount_wei = Some value
         else value = fee)
  | ECall (WaitForTransaction chain_id _ _) _ => chain_id = PStr from_chain
  | ECall (RequestsGet _ _ _) _ => False
  | ECall (RequestsPost _ _ _) _ => False
  | _ => True
  end.

Definition msg_unsupported_source (from_chain : string) : string :=
  "Chaîne source non supportée par Stargate: " ++ from_chain.

(** What every run of the Stargate adapter guarantees. *)
Definition stargate_follows_tables {R : Type} (self : Stargate.service)
  (wallet_address from_chain to_chain token_symbol amount : string)
  (token_address : pyval) (r : outcome R pyval) (evs : list event) : Prop :=
  Forall (stargate_call_of_tables wallet_address from_chain to_chain
            token_symbol amount token_address evs) evs /\
  (Stargate.has_key (Stargate.router_contracts self) from_chain = false ->
   r = Val PNone /\ evs = [ELog ERROR (msg_unsupported_source from_chain)]) /\
  (String.eqb token_symbol "ETH" = false ->
   py_int_of_string 10 amount = None ->
   r = Val PNone /\ existsb is_call evs = false).

(** A character that [int(s)] accepts somewhere in a decimal literal:
    white space, an underscore, a sign or a decimal digit. *)
Definition int_literal_char (c : ascii) : bool :=
  is_py_space c || Ascii.eqb c "_" || Ascii.eqb c "+" || Ascii.eqb c "-" ||
  match digit_value c with
  | Some d => d <? 10
  | None => false
  end.

(** A Stargate service connected to Ethereum and Arbitrum, and a scenario
    in which every helper and the wallet service succeed. *)
Definition stargate_two_chains : Stargate.service :=
  {| Stargate.web3_connections := ["ethereum"; "arbitrum"];
     Stargate.router_contracts := ["ethereum"; "arbitrum"] |}.

Definition stargate_env : environment :=
  {| respond := fun _ c =>
       match c with
       | Web3ToWei _ _ _ => Returns (PInt 1000000000000000000)
       | Web3ToBytes _ => Returns (PBytes "W")
       | Web3ToChecksumAddress a => Returns a
       | QuoteLayerZeroFee _ _ _ _ _ => Returns (PList [PInt 5000; PInt 0])
       | EncodeABI _ _ _ => Returns (PStr "0xswap")
       | ApproveTokenForBridge _ _ _ _ _ => Returns (PStr "0xapproval")
       | SendTransaction _ _ _ _ _ => Returns (PStr "0xbridge")
       | WaitForTransaction _ _ _ => Returns (PBool true)
       | _ => Raises
       end;
     balances := fun _ _ => None;
     clock := fun _ => mk_datetime 739000 12 0 0 0;
     isoformat := fun _ => "2024-04-23T12:00:00";
     float_str := fun _ => "" |}.


Definition stargate_usdc_run : adapter_run :=
  StargateRun stargate_two_chains "0xW" "ethereum" "arbitrum" "USDC" "1000000"
    (PStr "0xUSDC").

(** A wallet that holds USDC on Ethereum and on Arbitrum, in a scenario in
    which every helper and the wallet service succeed and [str(amount)]
    reads 10.0. *)
Definition stargate_usdc_env : environment :=
  {| respond := respond stargate_env;
     balances := fun _ _ =>
       Some [ ("ethereum", [ ("USDC", float_of_Z 100) ]);
              ("arbitrum", [ ("USDC", float_of_Z 100) ]) ];
     clock := clock stargate_env;
     isoformat := isoformat stargate_env;
     float_str := fun _ => "10.0" |}.

(** The state of that scenario; the fifth draw selects the second of the
    supported services. *)
Definition stargate_usdc_state : state :=
  {| env := stargate_usdc_env; trace := [];
     rng := fun i => nth i [0; 0; 0; 0; 1]%nat 0%nat;
     transaction_history := [] |}.

Definition stargate_aggregator : BridgeAggregator :=
  {| jumper_service := Jumper.new PNone;
     stargate_service := stargate_two_chains;
     relay_service := Relay.new PNone |}.

(** The read-only queries of the two HTTP adapters, with their
    arguments. *)
Inductive query : Type :=
| JumperStatus (tx_hash bridge_type from_chain to_chain : string)
| JumperChains
| JumperTokens (chain_id : pyval)
| JumperConnections (from_chain to_chain : pyval)
| RelayChains
| RelayTokenPrice (chain_id token_address : string)
| RelayExecutionStatus (request_id : string).

Definition run_query {R : Type} (self : http_service) (q : query)
  : M R pyval :=
  match q with
  | JumperStatus h b f t => Jumper.get_status self h b f t
  | JumperChains => Jumper.get_chains self
  | JumperTokens c => Jumper.get_tokens self c
  | JumperConnections f t => Jumper.get_connections self f t
  | RelayChains => Relay.get_chains self
  | RelayTokenPrice c a => Relay.get_token_price self c a
  | RelayExecutionStatus r => Relay.get_execution_status self r
  end.

(** The path of the endpoint that a query addresses, and the parameters
    that it sends: an optional argument is sent when it is truthy. *)
Definition endpoint (q : query) : string :=
  match q with
  | JumperStatus _ _ _ _ => "/status"
  | JumperChains => "/chains"
  | JumperTokens _ => "/tokens"
  | JumperConnections _ _ => "/connections"
  | RelayChains => "/chains"
  | RelayTokenPrice _ _ => "/token-price"
  | RelayExecutionStatus _ => "/execution-status"
  end.

Definition optional (k : string) (v : pyval) : dict pyval :=
  if truthy v then [(k, v)] else [].

Definition query_params (q : query) : dict pyval :=
  match q with
  | JumperStatus tx_hash bridge_type from_chain to_chain =>
      [ ("txHash", PStr tx_hash); ("bridge", PStr bridge_type);
        ("fromChain", PStr from_chain); ("toChain", PStr to_chain) ]
  | JumperChains => []
  | JumperTokens chain_id => optional "chains" chain_id
  | JumperConnections from_chain to_chain =>
      (optional "fromChain" from_chain ++ optional "toChain" to_chain)%list
  | RelayChains => []
  | RelayTokenPrice chain_id token_address =>
      [ ("chainId", PStr chain_id); ("tokenAddress", PStr token_address) ]
  | RelayExecutionStatus request_id => [ ("requestId", PStr request_id) ]
  end.

(** The request of a query, with its reply. *)
Definition query_request (self : http_service) (q : query) (answer : reply)
  : event :=
  ECall (RequestsGet (api_url self ++ endpoint q) (headers self)
           (query_params q)) answer.

(** What a query guarantees: one request; its reply is the result; when the
    request fails, the result is [None] after one error record. *)
Definition query_outcome {R : Type} (self : http_service) (q : query)
  (r : outcome R pyval) (evs : list event) : Prop :=
  exists answer,
    match answer with
    | Returns v => r = Val v /\ evs = [query_request self q answer]
    | Raises =>
        r = Val PNone /\
        exists msg, evs = [query_request self q answer; ELog ERROR msg]
    end.

(** The value that a query returns for a reply: the reply itself, [None]
    when the request failed. *)
Definition reply_value (answer : reply) : pyval :=
  match answer with
  | Returns v => v
  | Raises => PNone
  end.

(** [[f(chain) for chain in chains]] *)
Definition chain_list (f : pyval -> option pyval) (chains : pyval)
  : option (list pyval) :=
  match py_iter chains with
  | Some cs => traverse f cs
  | None => None
  end.

Definition chain_key (chain : pyval) : option pyval :=
  py_get chain "key" PNone.

Definition chain_id_text (str : pyval -> string) (chain : pyval)
  : option pyval :=
  match py_get chain "id" PNone with
  | Some id => Some (PStr (str id))
  | None => None
  end.

Definition stargate_chain_names : list pyval :=
  [ PStr "ethereum"; PStr "bsc"; PStr "avalanche"; PStr "polygon";
    PStr "arbitrum"; PStr "optimism"; PStr "base" ].

(** The second half of [get_supported_chains], after the entries [listed]
    of Jumper: Stargate is listed, Relay is asked, and its chains are listed
    when the reply is truthy; a truthy reply that is not a collection of
    objects raises. *)
Definition relay_chains_listed {R : Type} (str : pyval -> string)
  (self : BridgeAggregator) (jumper_answer : reply)
  (listed : dict (list pyval)) (r : outcome R (dict (list pyval)))
  (evs : list event) : Prop :=
  exists relay_answer,
    filter is_http evs
    = [ query_request (jumper_service self) JumperChains jumper_answer;
        query_request (relay_service self) RelayChains relay_answer ] /\
    if truthy (reply_value relay_answer)
    then match chain_list (chain_id_text str) (reply_value relay_answer) with
         | Some ids =>
             r = Val (listed ++ [ ("stargate", stargate_chain_names);
                                  ("relay", ids) ])%list
         | None => r = Exc
         end
    else r = Val (listed ++ [ ("stargate", stargate_chain_names) ])%list.

(** What a call of [get_supported_chains] does, in terms of the replies of
    the two providers. *)
Definition supported_chains_outcome {R : Type} (str : pyval -> string)
  (self : BridgeAggregator) (r : outcome R (dict (list pyval)))
  (evs : list event) : Prop :=
  exists jumper_answer,
    if truthy (reply_value jumper_answer)
    then match chain_list chain_key (reply_value jumper_answer) with
         | Some keys =>
             relay_chains_listed str self jumper_answer [ ("jumper", keys) ]
               r evs
         | None =>
             r = Exc /\
             evs = [ query_request (jumper_service self) JumperChains
                       jumper_answer ]
         end
    else relay_chains_listed str self jumper_answer [] r evs.

(** Both providers answer the chain query with a JSON object that wraps the
    list, instead of the list itself. *)
Definition wrapped_chains_env : environment :=
  {| respond := fun _ c =>
       match c with
       | RequestsGet _ _ _ =>
           Returns (PDict [ ("chains",
                             PList [ PDict [ ("key", PStr "eth");
                                             ("id", PInt 1) ] ]) ])
       | _ => Raises
       end;
     balances := fun _ _ => None;
     clock := fun _ => mk_datetime 739000 12 0 0 0;
     isoformat := fun _ => "2024-04-23T12:00:00";
     float_str := fun _ => "" |}.

(** The entry of a token as [execute_random_bridge] prepares it: the
    placeholder address and the balance read. *)
Definition token_entry (item : string * float) : string * token_info :=
  (fst item, {| address := "0x..."; balance := snd item |}).

(** Every token of every chain carries the placeholder address. *)
Definition placeholder_addresses (available_tokens : dict (dict token_info))
  : Prop :=
  Forall (fun entry =>
            Forall (fun item => address (snd item) = "0x...") (snd entry))
    available_tokens.

(** A dictionary of balances as Python holds it: no chain and no token of a
    chain occurs twice. *)
Definition unique_keys (balances : dict (dict float)) : Prop :=
  NoDup (Dict.keys balances) /\
  Forall (fun entry => NoDup (Dict.keys (snd entry))) balances.

(** Balances on two chains, and draws that select a transfer. *)
Definition two_chain_balances : dict (dict float) :=
  [ ("ethereum", [ ("USDC", float_of_Z 100); ("ETH", float_of_Z 2) ]);
    ("arbitrum", [ ("USDC", float_of_Z 50) ]) ].

(** The balances that [check_all_balances] collects for one chain. *)
Definition chain_balances (self : balance_checker) (wallet_address : string)
  (chain_id : string) : dict float :=
  fold_left
    (fun chain_results item =>
       match get_token_balance self chain_id (snd item) wallet_address with
       | Some b => Dict.set chain_results (fst item) b
       | None => chain_results
       end)
    (get_token_addresses chain_id)
    match get_native_balance self chain_id wallet_address with
    | Some b => Dict.set [] (native_symbol_of chain_id) b
    | None => []
    end.

(** A chain is reported: it is supported, connected, and some balance of
    it could be read. *)
Definition reported (self : balance_checker) (wallet_address : string)
  (chain_id : string) : bool :=
  existsb (String.eqb chain_id) (connected_chains self) &&
  negb (Dict.is_empty (chain_balances self wallet_address chain_id)).

(** A chain entry of a stored wallet in which balances can be stored: a
    dictionary whose ["tokens"] is a dictionary. *)
Definition chain_has_tokens (chain : pyval) : bool :=
  match chain with
  | PDict chd =>
      match Dict.get chd "tokens" with
      | Some (PDict _) => true
      | _ => false
      end
  | _ => false
  end.

(** A stored wallet as [add_wallet] and [update_wallet_info] leave it: a
    dictionary whose ["chains"], when present, is a dictionary of such chain
    entries. *)
Definition balances_storable (wallet : pyval) : bool :=
  match wallet with
  | PDict wd =>
      match Dict.get wd "chains" with
      | None => true
      | Some (PDict cd) => forallb (fun entry => chain_has_tokens (snd entry)) cd
      | Some _ => false
      end
  | _ => false
  end.

(** The wallet of [address], when stored, is of that form. *)
Definition storable_at (wallets : dict pyval) (address : string) : Prop :=
  forall wallet,
    Dict.get wallets address = Some wallet -> balances_storable wallet = true.

(** A wallet store with one wallet as [add_wallet] creates it, and a checker
    that reads one native balance and one token balance on Ethereum. *)
Definition one_wallet_store : dict pyval :=
  [ ("0xW", PDict [ ("name", PStr "main"); ("address", PStr "0xW");
                    ("encrypted_key", PStr "gAAAA"); ("chains", PDict []) ]) ].

Definition ethereum_checker : balance_checker :=
  {| connected_chains := [ "ethereum"; "polygon" ];
     get_native_balance := fun chain_id _ =>
       if String.eqb chain_id "ethereum" then Some (fdiv (float_of_Z 3) (float_of_Z 2)) else None;
     get_token_balance := fun chain_id address _ =>
       if String.eqb chain_id "ethereum" &&
          String.eqb address "0xA0b86991c6218b36c1d19D4a2e9Eb0cE3606eB48"
       then Some (float_of_Z 100) else None |}.

(** A key ring whose tokens are the keys behind a mark, and whose accounts
    are named by their keys. *)
Definition marked_keyring : keyring :=
  {| account_address := fun key => Some ("account of " ++ key);
     fernet_encrypt := fun key => "g" ++ key;
     fernet_decrypt := fun token =>
       match token with
       | String "g" key => Some key
       | _ => None
       end |}.

(* ================================================================== *)
(** * Properties *)
(* ================================================================== *)

(** ** The execution monad *)

Section Run.
Context {R : Type}.

Lemma run_bind {A B} (m : M R A) (f : A -> M R B) s :
  bind m f s =
  match m s with
  | (Val a, s') => f a s'
  | (Ret r, s') => (Ret r, s')
  | (Exc, s') => (Exc, s')
  end.
Proof. reflexivity. Qed.

Lemma run_ret {A} (a : A) s : ret (R:=R) a s = (Val a, s).
Proof. reflexivity. Qed.

Lemma run_return {A} (r : R) s : return_ (A:=A) r s = (Ret r, s).
Proof. reflexivity. Qed.

Lemma run_raise {A} s : raise (R:=R) (A:=A) s = (Exc, s).
Proof. reflexivity. Qed.

Lemma run_log l msg s : log (R:=R) l msg s = (Val tt, logged l msg s).
Proof. reflexivity. Qed.

Lemma run_when_true (m : M R unit) s : when true m s = m s.
Proof. reflexivity. Qed.

Lemma run_when_false (m : M R unit) s : when false m s = (Val tt, s).
Proof. reflexivity. Qed.

Lemma run_lift_Some {A} (a : A) s : lift (R:=R) (Some a) s = (Val a, s).
Proof. reflexivity. Qed.

Lemma run_lift_None {A} s : lift (R:=R) (@None A) s = (Exc, s).
Proof. reflexivity. Qed.

Lemma run_def {R'} (body : M R R) s :
  def_ (R':=R') body s =
  match body s with
  | (Val a, s') => (Val a, s')
  | (Ret r, s') => (Val r, s')
  | (Exc, s') => (Exc, s')
  end.
Proof. reflexivity. Qed.

Lemma run_random_choice {A} (seq : list A) s :
  seq <> [] ->
  exists a, random_choice (R:=R) seq s = (Val a, advance s) /\
            nth_error seq (rng s 0 mod List.length seq)%nat = Some a.
Proof.
  destruct seq as [|x l]; [congruence|]; intros _.
  exists (nth (rng s 0 mod List.length (x :: l))%nat (x :: l) x). split.
  - reflexivity.
  - apply nth_error_nth'. apply Nat.mod_upper_bound. discriminate.
Qed.

Lemma run_random_randint (a b : Z) s :
  a <= b ->
  random_randint (R:=R) a b s =
  (Val (a + Z.of_nat (rng s 0 mod Z.to_nat (b - a + 1))%nat), advance s).
Proof.
  intros H. unfold random_randint.
  destruct (Z.ltb_spec b a); [lia|]. reflexivity.
Qed.

End Run.

Lemma randint_range (a b : Z) (r : nat) :
  a <= b -> a <= a + Z.of_nat (r mod Z.to_nat (b - a + 1))%nat <= b.
Proof.
  intros H.
  assert (r mod Z.to_nat (b - a + 1) < Z.to_nat (b - a + 1))%nat
    by (apply Nat.mod_upper_bound; lia).
  lia.
Qed.

Lemma mem_keys {V} (d : dict V) k : Dict.mem d k = true <-> In k (Dict.keys d).
Proof.
  unfold Dict.mem. induction d as [|[k' v] d IH]; simpl.
  - split; [discriminate | tauto].
  - destruct (String.eqb_spec k' k) as [->|Hne].
    + split; auto.
    + rewrite IH. split; [auto | intros [?|?]; [contradiction | auto]].
Qed.

Lemma get_keys {V} (d : dict V) k :
  In k (Dict.keys d) -> exists v, Dict.get d k = Some v.
Proof.
  intros H. apply mem_keys in H. unfold Dict.mem in H.
  destruct (Dict.get d k); [eauto | discriminate].
Qed.

Lemma stargate_declares_route_spec f t k :
  stargate_declares_route f t k = true <-> Stargate_route_declared f t k.
Proof.
  unfold stargate_declares_route, Stargate_route_declared.
  rewrite !andb_true_iff, !mem_keys.
  destruct (Dict.get STARGATE_POOLS k) as [pools|].
  - rewrite andb_true_iff, !mem_keys. split.
    + intros [[? ?] [? ?]]. eauto 10.
    + intros (? & ? & p & E & ? & ?). injection E as <-. tauto.
  - split; [intros [_ ?]; discriminate | intros (_ & _ & p & E & _); discriminate].
Qed.

(** C6: [select_random_service] returns a member of the candidate list;
    jumper and relay are always candidates, stargate exactly when it declares
    a route for the triple, so a provider without a route is never returned;
    the candidate list is never empty. *)
Theorem select_random_service_candidates :
  forall (R : Type) (from_chain to_chain token_symbol : string) (s : state),
    let candidates := supported_services from_chain to_chain token_symbol in
    (exists name s',
        select_random_service (R:=R) from_chain to_chain token_symbol s
          = (Val name, s') /\
        In name candidates /\
        (name = "stargate" ->
         Stargate_route_declared from_chain to_chain token_symbol)) /\
    In "jumper" candidates /\
    In "relay" candidates /\
    (In "stargate" candidates <->
     Stargate_route_declared from_chain to_chain token_symbol) /\
    candidates <> [].
Proof.
  intros R f t k s candidates.
  assert (Hst : In "stargate" candidates <-> Stargate_route_declared f t k).
  { rewrite <- stargate_declares_route_spec.
    subst candidates. unfold supported_services.
    destruct (stargate_declares_route f t k); simpl.
    - intuition.
    - intuition; discriminate. }
  assert (Hne : candidates <> []).
  { subst candidates. unfold supported_services.
    destruct (stargate_declares_route f t k); discriminate. }
  split; [|split; [|split; [|split]]]; auto.
  - destruct (run_random_choice (R:=string) candidates s Hne)
      as (name & Hrun & Hnth).
    exists name, (advance s). unfold select_random_service.
    rewrite run_def, run_bind. fold candidates. rewrite Hrun.
    cbv beta iota. rewrite run_return.
    apply nth_error_In in Hnth.
    split; [reflexivity | split; [assumption|]].
    intros ->. apply Hst, Hnth.
  - subst candidates. unfold supported_services.
    destruct (stargate_declares_route f t k); simpl; auto.
  - subst candidates. unfold supported_services.
    destruct (stargate_declares_route f t k); simpl; auto.
Qed.

(** ** [int()] on sample strings *)

Example int16_100 : py_int16 (PStr "100") = Some 256.
Proof. reflexivity. Qed.

Example int16_0x64 : py_int16 (PStr "0x64") = Some 100.
Proof. reflexivity. Qed.

Example int16_spaces_sign : py_int16 (PStr " -0X_f_F ") = Some (-255).
Proof. reflexivity. Qed.

Example int10_rejects_hex : py_int (PStr "0x64") = None.
Proof. reflexivity. Qed.

Example int16_rejects_double_underscore : py_int16 (PStr "1__0") = None.
Proof. reflexivity. Qed.

Lemma has_tokens_get tokens chain :
  has_tokens tokens chain = true ->
  exists toks, Dict.get tokens chain = Some toks /\ toks <> [].
Proof.
  unfold has_tokens. destruct (Dict.get tokens chain) as [toks|]; [|discriminate].
  destruct toks; [discriminate|]. intros _. eexists; split; [reflexivity | discriminate].
Qed.

Lemma list_is_empty_false {A} (l : list A) : list_is_empty l = false <-> l <> [].
Proof. destruct l; simpl; split; congruence. Qed.

Lemma select_random_transaction_run :
  forall (R : Type) (w : string) (chains : list string)
         (tokens : dict (dict token_info)) (s : state),
    let vc := valid_chains_of chains tokens in
    let run := select_random_transaction (R:=R) w chains tokens s in
    (vc = [] /\ run = (Val None, logged ERROR msg_no_valid_chain s)) \/
    (exists from_chain toks token_symbol info,
        nth_error vc (rng s 0 mod List.length vc)%nat = Some from_chain /\
        Dict.get tokens from_chain = Some toks /\
        nth_error (Dict.keys toks) (rng s 1 mod List.length (Dict.keys toks))%nat
          = Some token_symbol /\
        Dict.get toks token_symbol = Some info /\
        let others := other_chains_of vc from_chain in
        ((fleb (balance info) (float_of_Z 0) = true /\
          run = (Val None,
                 logged ERROR (msg_insufficient_balance token_symbol from_chain)
                   (advance (advance s)))) \/
         (fleb (balance info) (float_of_Z 0) = false /\ others = [] /\
          run = (Val None,
                 logged ERROR msg_no_destination (advance (advance s)))) \/
         (fleb (balance info) (float_of_Z 0) = false /\
          exists to_chain,
            nth_error others (rng s 2 mod List.length others)%nat = Some to_chain /\
            run = (Val (Some (from_chain, to_chain, token_symbol, address info,
                              fdiv (fmul (balance info)
                                      (float_of_Z
                                         (10 + Z.of_nat (rng s 3 mod 81)%nat)))
                                (float_of_Z 100))),
                   advance (advance (advance (advance s))))))).
Proof.
  intros R w chains tokens s vc run. subst run.
  unfold select_random_transaction. fold vc.
  assert (Hvalid : forall c, In c vc -> has_tokens tokens c = true).
  { intros c Hc. apply filter_In in Hc. tauto. }
  clearbody vc.
  rewrite run_def, run_bind.
  destruct (list_is_empty vc) eqn:He.
  { left. destruct vc; [|discriminate]. split; [reflexivity|].
    rewrite run_when_true, run_bind, run_log.
    cbv beta iota. rewrite run_return. reflexivity. }
  right. rewrite run_when_false. cbv beta iota.
  apply list_is_empty_false in He.
  destruct (run_random_choice (R:=option transfer) vc s He)
    as (from_chain & Hrun & Hnth).
  rewrite run_bind, Hrun. cbv beta iota.
  destruct (has_tokens_get tokens from_chain) as (toks & Hget & Htoks).
  { apply Hvalid. eapply nth_error_In; eauto. }
  rewrite run_bind, Hget, run_lift_Some. cbv beta iota.
  rewrite run_bind.
  replace (Dict.is_empty toks) with false
    by (destruct toks; [congruence | reflexivity]).
  rewrite run_when_false. cbv beta iota.
  assert (Hk : Dict.keys toks <> []) by (destruct toks; [congruence | discriminate]).
  destruct (run_random_choice (R:=option transfer) (Dict.keys toks) (advance s) Hk)
    as (token_symbol & Hrun2 & Hnth2).
  rewrite run_bind, Hrun2. cbv beta iota.
  destruct (get_keys toks token_symbol) as (info & Hinfo).
  { eapply nth_error_In; eauto. }
  rewrite run_bind, Hinfo, run_lift_Some. cbv beta iota.
  exists from_chain, toks, token_symbol, info.
  split; [assumption|]. split; [assumption|]. split; [assumption|].
  split; [assumption|].
  cbv zeta. set (others := other_chains_of vc from_chain).
  rewrite run_bind.
  destruct (fleb (balance info) (float_of_Z 0)) eqn:Hbal.
  { left. split; [reflexivity|].
    rewrite run_when_true, run_bind, run_log. cbv beta iota.
    rewrite run_return. reflexivity. }
  right. rewrite run_when_false. cbv beta iota. rewrite run_bind.
  destruct (list_is_empty others) eqn:Ho.
  { left. destruct others; [|discriminate].
    split; [reflexivity|]. split; [reflexivity|].
    rewrite run_when_true, run_bind, run_log. cbv beta iota.
    rewrite run_return. reflexivity. }
  right. split; [reflexivity|].
  rewrite run_when_false. cbv beta iota.
  apply list_is_empty_false in Ho.
  destruct (run_random_choice (R:=option transfer) others
              (advance (advance s)) Ho) as (to_chain & Hrun3 & Hnth3).
  exists to_chain. split; [assumption|].
  rewrite run_bind, Hrun3. cbv beta iota.
  rewrite run_bind, run_random_randint by lia. cbv beta iota.
  rewrite run_return. reflexivity.
Qed.

(** A balance that passes the guard [token_balance <= 0] is positive or
    NaN. *)
Lemma fleb_zero_false (x : float) :
  fleb x (float_of_Z 0) = false ->
  fltb (float_of_Z 0) x = true \/ x = S754_nan.
Proof.
  destruct x as [sx|sx| |sx m e]; try destruct sx; cbn; auto; discriminate.
Qed.











(** C3 as stated fails.  With a balance of 0.1 and the percentage 10 the
    product is the float 1 and the amount is the float nearest to 1/100,
    which is less than 10% of the balance: it is [balance * p / 100] for no
    integer [p] from 10 to 90.  With a balance of 1e308 and the percentage
    20 the product overflows, and the amount is the infinity, above the
    balance. *)
Lemma select_random_transaction_amount_counterexample :
  (exists amount s',
      select_random_transaction (R:=unit) "W" ["X"; "Y"] wallet_tenth
        (state_with_draws [0; 0; 0; 0]%nat)
      = (Val (Some ("X", "Y", "USDC", "0x...", amount)), s') /\
      (float_value amount < (10 # 100) * float_value float_tenth)%Q) /\
  (exists s',
      select_random_transaction (R:=unit) "W" ["X"; "Y"] wallet_1e308
        (state_with_draws [0; 0; 0; 10]%nat)
      = (Val (Some ("X", "Y", "USDC", "0x...", S754_infinity false)), s') /\
      fltb float_1e308 (S754_infinity false) = true).
Proof.
  split.
  - exists (fdiv (fmul float_tenth (float_of_Z 10)) (float_of_Z 100)),
      (advance (advance (advance (advance
         (state_with_draws [0; 0; 0; 0]%nat))))).
    split; vm_compute; reflexivity.
  - exists (advance (advance (advance (advance
              (state_with_draws [0; 0; 0; 10]%nat))))).
    split; vm_compute; reflexivity.
Qed.



Lemma valid_chains_of_In chains tokens c :
  In c (valid_chains_of chains tokens) <->
  In c chains /\ exists toks, Dict.get tokens c = Some toks /\ toks <> [].
Proof.
  unfold valid_chains_of. rewrite filter_In. split.
  - intros [Hc Ht]. split; [assumption|]. apply has_tokens_get, Ht.
  - intros [Hc (toks & Hg & Hne)]. split; [assumption|].
    unfold has_tokens. rewrite Hg. destruct toks; [congruence | reflexivity].
Qed.



(** C5 as stated fails.  Chain A holds 5 USDC and chain C only an empty
    balance, so A is the only chain with a positive balance; yet the
    selection succeeds, with C as the destination. *)
Lemma select_random_transaction_distinct_chains_counterexample :
  has_positive_balance wallet_one_positive "A" = true /\
  has_positive_balance wallet_one_positive "C" = false /\
  exists amount s',
    select_random_transaction (R:=unit) "W" ["A"; "C"] wallet_one_positive
      (state_with_draws [0; 0; 0; 0]%nat)
    = (Val (Some ("A", "C", "USDC", "0x...", amount)), s').
Proof.
  split; [vm_compute; reflexivity|]. split; [vm_compute; reflexivity|].
  exists (fdiv (fmul (float_of_Z 5) (float_of_Z 10)) (float_of_Z 100)),
    (advance (advance (advance (advance
       (state_with_draws [0; 0; 0; 0]%nat))))).
  vm_compute. reflexivity.
Qed.

(** C4, amended: [select_random_transaction] keeps exactly the available
    chains that have a non-empty token entry in the mapping, whatever the
    balances; it fails when there is none; the token is drawn among all the
    tokens held on the source chain, at the index given by the draw modulo
    their number, and the selection fails when the drawn token has no
    positive balance. *)
Theorem select_random_transaction_token_choice :
  forall (R : Type) (w : string) (chains : list string)
         (tokens : dict (dict token_info)) (s : state),
    let vc := valid_chains_of chains tokens in
    let run := select_random_transaction (R:=R) w chains tokens s in
    (forall c, In c vc <->
       In c chains /\ exists toks, Dict.get tokens c = Some toks /\ toks <> []) /\
    (vc = [] -> run = (Val None, logged ERROR msg_no_valid_chain s)) /\
    (vc <> [] ->
     exists from_chain toks token_symbol info,
       nth_error vc (rng s 0 mod List.length vc)%nat = Some from_chain /\
       Dict.get tokens from_chain = Some toks /\
       nth_error (Dict.keys toks) (rng s 1 mod List.length (Dict.keys toks))%nat
         = Some token_symbol /\
       Dict.get toks token_symbol = Some info /\
       (fleb (balance info) (float_of_Z 0) = true ->
        run = (Val None,
               logged ERROR (msg_insufficient_balance token_symbol from_chain)
                 (advance (advance s)))) /\
       (forall s' f t k a amount,
           run = (Val (Some (f, t, k, a, amount)), s') ->
           f = from_chain /\ k = token_symbol /\
           fleb (balance info) (float_of_Z 0) = false /\
           (fltb (float_of_Z 0) (balance info) = true \/
            balance info = S754_nan))).
Proof.
  intros R w chains tokens s vc run.
  split; [intros c; apply valid_chains_of_In|].
  destruct (select_random_transaction_run R w chains tokens s)
    as [[Hvc E] | (f & toks & sym & info & Hf & Hget & Hsym & Hinfo & H)];
    fold vc in Hvc || fold vc in Hf; fold run in E || fold run in H.
  - split; [intros _; exact E | intros Hne; contradiction].
  - split.
    { intros Hvc. rewrite Hvc in Hf. destruct (rng s 0 mod _)%nat; discriminate. }
    intros _. exists f, toks, sym, info.
    repeat (split; [assumption|]). cbv zeta in H. split.
    + intros Hle.
      destruct H as [[_ E] | [(Hb & _) | (Hb & _)]]; [exact E | congruence..].
    + intros s' f' t' k a amt Hrun.
      destruct H as [[_ E] | [(_ & _ & E) | (Hbal & t & Ht & E)]];
        rewrite E in Hrun; try discriminate.
      injection Hrun as <- <- <- <- <- <-.
      repeat split; [exact Hbal | apply fleb_zero_false, Hbal].
Qed.

Lemma select_random_transaction_token_choice_witness :
  select_random_transaction (R:=unit) "W" [] wallet_100 (state_with_draws [])
  = (Val None, logged ERROR msg_no_valid_chain (state_with_draws [])).
Proof.
  apply (proj1 (proj2 (select_random_transaction_token_choice unit "W" []
                         wallet_100 (state_with_draws [])))).
  reflexivity.
Defined.

(** C4 as stated fails: chain C is kept although none of its balances is
    positive, and on chain A the draw falls on the empty DAI balance, so the
    selection fails although A holds 5 USDC and B is a possible
    destination. *)
Lemma select_random_transaction_zero_balance_counterexample :
  ~ (forall c,
        In c (valid_chains_of ["A"; "B"; "C"] wallet_with_zero_balances) ->
        has_positive_balance wallet_with_zero_balances c = true) /\
  (has_positive_balance wallet_with_zero_balances "A" = true /\
   has_positive_balance wallet_with_zero_balances "B" = true /\
   select_random_transaction (R:=unit) "W" ["A"; "B"; "C"]
     wallet_with_zero_balances (state_with_draws [0; 0]%nat)
   = (Val None,
      logged ERROR (msg_insufficient_balance "DAI" "A")
        (advance (advance (state_with_draws [0; 0]%nat))))).
Proof.
  split.
  - intros H. specialize (H "C").
    assert (E : has_positive_balance wallet_with_zero_balances "C" = true).
    { apply H. vm_compute. auto. }
    vm_compute in E. discriminate E.
  - repeat split; vm_compute; reflexivity.
Qed.

(** ** Datetimes and sorting *)











(** ** [generate_random_transaction_times] *)

Lemma dt_add_days_Some d n :
  1 <= ordinal d + n <= max_ordinal ->
  dt_add_days d n
  = Some (mk_datetime (ordinal d + n) (hour d) (minute d) (second d)
            (microsecond d)).
Proof.
  intros H. unfold dt_add_days. cbv zeta.
  replace ((1 <=? ordinal d + n) && (ordinal d + n <=? max_ordinal)) with true;
    [reflexivity|].
  symmetry. apply andb_true_iff. split; apply Z.leb_le; lia.
Qed.

Lemma dt_add_days_None d n :
  ~ 1 <= ordinal d + n <= max_ordinal -> dt_add_days d n = None.
Proof.
  intros H. unfold dt_add_days. cbv zeta.
  destruct ((1 <=? ordinal d + n) && (ordinal d + n <=? max_ordinal)) eqn:E;
    [|reflexivity].
  apply andb_true_iff in E. destruct E as [E1 E2].
  apply Z.leb_le in E1, E2. lia.
Qed.

Lemma postpone_if_past_Some now d :
  0 <= ordinal d < max_ordinal ->
  exists t, postpone_if_past now d = Some t.
Proof.
  intros H. unfold postpone_if_past. destruct (dt_ltb d now); [|eauto].
  rewrite dt_add_days_Some by lia. eauto.
Qed.



Lemma draw_transaction_times_run (R : Type) (n : nat) (now today : datetime) :
  microsecond today = 0 ->
  0 <= ordinal today < max_ordinal ->
  forall (acc : list datetime) (s : state),
  exists drawn moved s',
    draw_transaction_times (R:=R) n now today acc s
      = (Val (acc ++ moved)%list, s') /\
    List.length drawn = n /\
    Forall (fun d => ordinal d = ordinal today /\ in_daily_window d /\
                     microsecond d = 0) drawn /\
    Forall2 (fun d t => postpone_if_past now d = Some t) drawn moved /\
    transaction_history s' = transaction_history s.
Proof.
  intros Hus Hday. induction n as [|n IH]; intros acc s.
  - exists [], [], s. simpl. rewrite app_nil_r. repeat split; constructor.
  - simpl draw_transaction_times.
    rewrite run_bind, run_random_randint by (unfold start_hour, end_hour; lia).
    cbv beta iota.
    rewrite run_bind, run_random_randint by lia. cbv beta iota.
    rewrite run_bind, run_random_randint by lia. cbv beta iota.
    set (h := start_hour + _). set (m := 0 + Z.of_nat (rng (advance s) _ mod _)%nat).
    set (sec := 0 + Z.of_nat (rng (advance (advance s)) _ mod _)%nat).
    assert (Hh : 8 <= h <= 22) by (apply (randint_range 8 22); lia).
    assert (Hm : 0 <= m <= 59) by (apply (randint_range 0 59); lia).
    assert (Hs : 0 <= sec <= 59) by (apply (randint_range 0 59); lia).
    assert (E : dt_replace today h m sec (microsecond today)
                = Some (mk_datetime (ordinal today) h m sec 0)).
    { unfold dt_replace. rewrite Hus.
      replace ((0 <=? h) && (h <? 24) && (0 <=? m) && (m <? 60) &&
               (0 <=? sec) && (sec <? 60) && (0 <=? 0) && (0 <? 1000000))
        with true; [reflexivity|].
      symmetry. rewrite !andb_true_iff.
      repeat split; try apply Z.leb_le; try apply Z.ltb_lt; lia. }
    rewrite run_bind, E, run_lift_Some. cbv beta iota.
    destruct (postpone_if_past_Some now (mk_datetime (ordinal today) h m sec 0)
                Hday) as (t & Ht).
    rewrite run_bind, Ht, run_lift_Some. cbv beta iota.
    destruct (IH (acc ++ [t])%list (advance (advance (advance s))))
      as (drawn & moved & s' & Hrun & Hlen & Hall & Hmoved & Hhist).
    exists (mk_datetime (ordinal today) h m sec 0 :: drawn), (t :: moved), s'.
    split; [|split; [|split; [|split]]].
    + rewrite Hrun. rewrite <- app_assoc. reflexivity.
    + simpl. congruence.
    + constructor; [|exact Hall]. simpl. unfold in_daily_window. simpl. tauto.
    + constructor; assumption.
    + exact Hhist.
Qed.

Lemma generate_random_transaction_times_run (R : Type)
  (num_transactions : option Z) (s : state) :
  let now := clock (env s) (trace s) in
  let num_tx :=
    match num_transactions with
    | Some n => n
    | None => TRANSACTIONS_PER_DAY
    end in
  0 <= ordinal now < max_ordinal ->
  exists drawn moved s',
    generate_random_transaction_times (R:=R) num_transactions s
      = (Val (dt_sort moved), s') /\
    List.length drawn = Z.to_nat num_tx /\
    Forall (drawn_today now) drawn /\
    Forall2 (fun d t => postpone_if_past now d = Some t) drawn moved /\
    transaction_history s' = transaction_history s.
Proof.
  intros now num_tx Hday. unfold generate_random_transaction_times.
  fold num_tx.
  rewrite run_def, run_bind.
  change (datetime_now s) with
    (@Val (list datetime) _ now, with_trace (trace s ++ [ENow now]) s).
  cbv beta iota.
  rewrite run_bind.
  change (dt_replace now 0 0 0 0) with (Some (mk_datetime (ordinal now) 0 0 0 0)).
  rewrite run_lift_Some. cbv beta iota.
  rewrite run_bind, dt_add_days_Some, run_lift_Some by (simpl; lia).
  cbv beta iota.
  destruct (draw_transaction_times_run (list datetime) (Z.to_nat num_tx) now
              (mk_datetime (ordinal now) 0 0 0 0) eq_refl
              ltac:(simpl; lia) []
              (with_trace (trace s ++ [ENow now]) s))
    as (drawn & moved & s' & Hrun & Hlen & Hall & Hmoved & Hhist).
  exists drawn, moved, s'. rewrite run_bind, Hrun. cbv beta iota.
  rewrite run_return. simpl app. repeat split; assumption.
Qed.

(** On the last day of the calendar the day after today does not exist:
    the function raises. *)
Lemma generate_random_transaction_times_last_day (R : Type)
  (num_transactions : option Z) (s : state) :
  let now := clock (env s) (trace s) in
  ~ 0 <= ordinal now < max_ordinal ->
  generate_random_transaction_times (R:=R) num_transactions s
  = (Exc, with_trace (trace s ++ [ENow now]) s).
Proof.
  intros now Hday. unfold generate_random_transaction_times.
  rewrite run_def, run_bind.
  change (datetime_now s) with
    (@Val (list datetime) _ now, with_trace (trace s ++ [ENow now]) s).
  cbv beta iota.
  rewrite run_bind.
  change (dt_replace now 0 0 0 0) with (Some (mk_datetime (ordinal now) 0 0 0 0)).
  rewrite run_lift_Some. cbv beta iota.
  rewrite run_bind, dt_add_days_None, run_lift_None by (simpl; lia).
  reflexivity.
Qed.

Lemma generate_random_transaction_times_frame (R : Type)
  (num_transactions : option Z) (s : state) :
  transaction_history
    (snd (generate_random_transaction_times (R:=R) num_transactions s))
  = transaction_history s.
Proof.
  destruct (Z_le_dec 0 (ordinal (clock (env s) (trace s)))) as [H0|H0];
    [destruct (Z_lt_dec (ordinal (clock (env s) (trace s))) max_ordinal)
       as [H1|H1]|].
  - destruct (generate_random_transaction_times_run R num_transactions s
                (conj H0 H1)) as (drawn & moved & s' & Hrun & _ & _ & _ & Hh).
    rewrite Hrun. exact Hh.
  - rewrite generate_random_transaction_times_last_day by lia. reflexivity.
  - rewrite generate_random_transaction_times_last_day by lia. reflexivity.
Qed.





(** At 23:00 every drawn time has elapsed: both timestamps move to the next
    day, and the later draw of 08:00:00 comes first after the sort. *)
Example generate_random_transaction_times_at_night :
  fst (generate_random_transaction_times (R:=unit) (Some 2)
         (state_at (mk_datetime 739000 23 0 0 5) [3; 10; 20; 0; 0; 0]%nat))
  = Val [ mk_datetime 739001 8 0 0 0; mk_datetime 739001 11 10 20 0 ].
Proof. reflexivity. Qed.

(** At noon of 9999-12-31 nothing is scheduled: the call raises. *)
Example generate_random_transaction_times_on_the_last_day :
  fst (generate_random_transaction_times (R:=unit) (Some 2)
         (state_at (mk_datetime max_ordinal 12 0 0 0) [3; 10; 20; 0; 0; 0]%nat))
  = Exc.
Proof. reflexivity. Qed.


(** ** Weakest preconditions *)

Lemma skipn_length_app {A} (l1 l2 : list A) :
  skipn (List.length l1) (l1 ++ l2) = l2.
Proof. induction l1; simpl; auto. Qed.

Lemma st_nil s : st s [] = s.
Proof. destruct s. unfold st, with_trace. simpl. rewrite app_nil_r. reflexivity. Qed.

Lemma st_emit s revs e :
  with_trace (trace (st s revs) ++ [e]) (st s revs) = st s (e :: revs).
Proof. unfold st, with_trace. simpl. rewrite <- app_assoc. reflexivity. Qed.

Lemma run_events_st s revs : run_events s (st s revs) = rev revs.
Proof. unfold run_events, st. simpl. apply skipn_length_app. Qed.

Section WP.
Context {R : Type}.

Lemma wp_run {A} (m : M R A) s Q :
  wp m s Q -> forall r s', m s = (r, s') -> Q r s'.
Proof. unfold wp. intros H r s' E. rewrite E in H. exact H. Qed.

Lemma wp_start {A} (m : M R A) s Q : wp m (st s []) Q -> wp m s Q.
Proof. rewrite st_nil. auto. Qed.

Lemma wp_bind {A B} (m : M R A) (k : A -> M R B) s Q :
  wp m s (fun o s' =>
            match o with
            | Val a => wp (k a) s' Q
            | Ret r => Q (Ret r) s'
            | Exc => Q Exc s'
            end) ->
  wp (bind m k) s Q.
Proof.
  unfold wp, bind. destruct (m s) as [[a|r|] s']; simpl; auto.
Qed.

Lemma wp_ret {A} (a : A) s (Q : outcome R A -> state -> Prop) :
  Q (Val a) s -> wp (ret a) s Q.
Proof. auto. Qed.

Lemma wp_return {A} (r : R) s (Q : outcome R A -> state -> Prop) :
  Q (Ret r) s -> wp (return_ r) s Q.
Proof. auto. Qed.

Lemma wp_raise {A} s (Q : outcome R A -> state -> Prop) :
  Q Exc s -> wp raise s Q.
Proof. auto. Qed.

Lemma wp_lift {A} (o : option A) s (Q : outcome R A -> state -> Prop) :
  match o with Some a => Q (Val a) s | None => Q Exc s end ->
  wp (lift o) s Q.
Proof. destruct o; auto. Qed.

Lemma wp_when (c : bool) (m : M R unit) s Q :
  (if c then wp m s Q else Q (Val tt) s) -> wp (when c m) s Q.
Proof. destruct c; auto. Qed.

Lemma wp_lift_cases {A} (o : option A) s (Q : outcome R A -> state -> Prop) :
  (forall a, o = Some a -> Q (Val a) s) -> (o = None -> Q Exc s) ->
  wp (lift o) s Q.
Proof. intros H1 H2. destruct o; [apply wp_lift, H1 | apply wp_lift, H2]; reflexivity. Qed.

Lemma wp_when_cases (c : bool) (m : M R unit) s Q :
  (c = true -> wp m s Q) -> (c = false -> Q (Val tt) s) -> wp (when c m) s Q.
Proof. intros H1 H2. destruct c; [apply H1 | apply wp_when, H2]; reflexivity. Qed.

Lemma wp_if {A} (c : bool) (m1 m2 : M R A) s Q :
  (c = true -> wp m1 s Q) -> (c = false -> wp m2 s Q) ->
  wp (if c then m1 else m2) s Q.
Proof. intros H1 H2. destruct c; [apply H1 | apply H2]; reflexivity. Qed.

Lemma wp_log l msg s revs (Q : outcome R unit -> state -> Prop) :
  Q (Val tt) (st s (ELog l msg :: revs)) -> wp (log l msg) (st s revs) Q.
Proof. unfold wp, log, emit. cbn [fst snd]. rewrite st_emit. auto. Qed.

Lemma wp_external (c : call) s revs (Q : outcome R pyval -> state -> Prop) :
  (forall r : reply,
      match r with
      | Raises => Q Exc (st s (ECall c r :: revs))
      | Returns v => Q (Val v) (st s (ECall c r :: revs))
      end) ->
  wp (external c) (st s revs) Q.
Proof.
  intros H. unfold wp, external.
  specialize (H (respond (env (st s revs)) (trace (st s revs)) c)).
  destruct (respond (env (st s revs)) (trace (st s revs)) c);
    cbn [fst snd]; rewrite st_emit; exact H.
Qed.

Lemma wp_now_isoformat s revs (Q : outcome R pyval -> state -> Prop) :
  (forall d text, Q (Val (PStr text)) (st s (ENow d :: revs))) ->
  wp now_isoformat (st s revs) Q.
Proof.
  intros H. unfold wp, now_isoformat, datetime_now. cbn [fst snd].
  rewrite st_emit. apply H.
Qed.

Lemma wp_def {R'} (body : M R R) s (Q : outcome R' R -> state -> Prop) :
  wp body s (fun o s' =>
               match o with
               | Val a => Q (Val a) s'
               | Ret r => Q (Val r) s'
               | Exc => Q Exc s'
               end) ->
  wp (def_ body) s Q.
Proof.
  unfold wp, def_. destruct (body s) as [[a|r|] s']; simpl; auto.
Qed.

Lemma wp_try_except {A} (body handler : M R A) s Q :
  wp body s (fun o s' =>
               match o with
               | Exc => wp handler s' Q
               | _ => Q o s'
               end) ->
  wp (try_except body handler) s Q.
Proof.
  unfold wp, try_except. destruct (body s) as [[a|r|] s']; simpl; auto.
Qed.

End WP.

(** One step of symbolic execution: the program is brought to head normal
    form, unfolding the functions of the adapters, and the rule of its head
    is applied. *)
Ltac wp_head m :=
  eval lazy head beta iota zeta delta
    [Jumper.execute_bridge Jumper.get_quote Jumper.prepare_transaction_data
     Relay.execute_bridge Relay.get_quote Relay.prepare_transaction_data
     Relay.notify_transaction
     Stargate.execute_bridge Stargate.quote_fee Stargate.prepare_swap_params]
  in m.

Ltac wp_step :=
  lazymatch goal with
  | |- wp ?m ?s ?Q =>
      let m' := wp_head m in
      lazymatch m' with
      | bind ?m1 ?k => refine (wp_bind m1 k s Q _)
      | ret ?a => refine (wp_ret a s Q _)
      | return_ ?r => refine (wp_return r s Q _)
      | raise => refine (wp_raise s Q _)
      | lift ?o =>
          let o' := eval simpl in o in
          lazymatch o' with
          | Some ?a => refine (wp_lift (Some a) s Q _)
          | None => refine (wp_lift None s Q _)
          | _ => refine (wp_lift_cases o s Q _ _); [intros ?a ?H | intros ?H]
          end
      | when ?c ?m1 =>
          let c' := eval simpl in c in
          lazymatch c' with
          | true => refine (wp_when true m1 s Q _)
          | false => refine (wp_when false m1 s Q _)
          | _ => refine (wp_when_cases c m1 s Q _ _); intros ?H
          end
      | log ?l ?msg =>
          lazymatch s with
          | st ?s0 ?revs => refine (wp_log l msg s0 revs Q _)
          end
      | external ?c =>
          lazymatch s with
          | st ?s0 ?revs => refine (wp_external c s0 revs Q _); intros [|?v]
          end
      | now_isoformat =>
          lazymatch s with
          | st ?s0 ?revs =>
              refine (wp_now_isoformat s0 revs Q _); intros ?d ?text
          end
      | def_ ?b => refine (wp_def b s Q _)
      | try_except ?b ?h => refine (wp_try_except b h s Q _)
      | (if ?c then ?a else ?b) =>
          refine (wp_if c a b s Q _ _); intros ?H
      | (match ?x with _ => _ end) =>
          change (wp m' s Q); destruct x eqn:?
      end
  end; lazy head beta iota.

Ltac wp_run := repeat wp_step.

(** At the end of a path: the events of the run are listed and the
    conditions met on the way are used as rewriting rules. *)
Ltac use_conditions :=
  repeat match goal with
         | H : negb _ = true |- _ => apply negb_true_iff in H
         | H : negb _ = false |- _ => apply negb_false_iff in H
         end;
  repeat match goal with
         | H : truthy _ = _ |- _ => rewrite H
         end.

Ltac wp_leaf :=
  rewrite ?run_events_st; simpl;
  unfold approval_step_failed, approval_confirmed, is_approval_step,
    is_approve, is_approval_wait, is_send, reply_of, reply_truthy;
  simpl; use_conditions; simpl.

Ltac solve_adapter_leaf :=
  split; [|split; [|eexists; reflexivity]];
  [ wp_leaf; split; [intros; try discriminate; auto | reflexivity]
  | first [ left; reflexivity
          | right; eexists; split; [reflexivity | discriminate] ] ].

Lemma jumper_approval_gate R self w f t ft tt a s :
  wp (Jumper.execute_bridge (R:=R) self w f t ft tt a) s
     (fun r s' => approval_gate r (run_events s s') /\ adapter_result r /\
                  only_trace_added s s').
Proof.
  apply wp_start. wp_run.
  all: unfold approval_gate, adapter_result, only_trace_added;
    solve_adapter_leaf.
Qed.

Lemma relay_approval_gate R self w f t fa ta a s :
  wp (Relay.execute_bridge (R:=R) self w f t fa ta a) s
     (fun r s' => approval_gate r (run_events s s') /\ adapter_result r /\
                  only_trace_added s s').
Proof.
  apply wp_start. wp_run.
  all: unfold approval_gate, adapter_result, only_trace_added;
    solve_adapter_leaf.
Qed.

Lemma stargate_approval_gate R self w f t k a ta s :
  wp (Stargate.execute_bridge (R:=R) self w f t k a ta) s
     (fun r s' => approval_gate r (run_events s s') /\ adapter_result r /\
                  only_trace_added s s').
Proof.
  apply wp_start. wp_run.
  all: unfold approval_gate, adapter_result, only_trace_added;
    solve_adapter_leaf.
Qed.

(** ** Approval before submission *)




Lemma run_adapter_approval_gate R (a : adapter_run) s :
  wp (run_adapter (R:=R) a) s
     (fun r s' => approval_gate r (run_events s s') /\ adapter_result r /\
                  only_trace_added s s').
Proof.
  destruct a; simpl.
  - apply jumper_approval_gate.
  - apply stargate_approval_gate.
  - apply relay_approval_gate.
Qed.











(** ** The approval amount of Jumper *)

Lemma hex_digit_facts c :
  is_hex_digit c = true ->
  is_py_space c = false /\ Ascii.eqb c "_" = false /\
  Ascii.eqb c "+" = false /\ Ascii.eqb c "-" = false /\
  Ascii.eqb c "x" || Ascii.eqb c "X" = false /\
  digit_value c = Some (hex_digit c) /\ (hex_digit c <? 16) = true /\
  0 <= hex_digit c.
Proof.
  destruct c as [[] [] [] [] [] [] [] []]; vm_compute; intros H;
    try discriminate H; repeat split; discriminate.
Qed.

Lemma lstrip_not_space c cs : is_py_space c = false -> lstrip (c :: cs) = c :: cs.
Proof. intros H. simpl. rewrite H. reflexivity. Qed.

Lemma strip_no_space cs :
  Forall (fun c => is_py_space c = false) cs -> strip cs = cs.
Proof.
  intros H. unfold strip. destruct cs as [|c cs]; [reflexivity|].
  rewrite lstrip_not_space by exact (Forall_inv H).
  destruct (rev (c :: cs)) as [|x l] eqn:E.
  - apply (f_equal (@List.length _)) in E. rewrite length_rev in E. discriminate.
  - rewrite lstrip_not_space.
    + rewrite <- E. apply rev_involutive.
    + rewrite Forall_forall in H. apply H. apply in_rev. rewrite E. left. reflexivity.
Qed.

Lemma parse_digits_hex cs :
  Forall (fun c => is_hex_digit c = true) cs ->
  forall acc after_digit,
    cs <> [] \/ after_digit = true ->
    parse_digits 16 acc after_digit cs
    = Some (acc * 16 ^ Z.of_nat (List.length cs) + hex_value cs).
Proof.
  unfold hex_value.
  induction 1 as [|c cs Hc Hcs IH]; intros acc after_digit Hne.
  - destruct Hne as [Hne | ->]; [congruence|]. simpl. f_equal. lia.
  - destruct (hex_digit_facts c Hc) as (_ & Hu & _ & _ & _ & Hd & Hlt & _).
    simpl parse_digits. rewrite Hu, Hd, Hlt.
    rewrite IH by (right; reflexivity).
    f_equal. simpl List.length. simpl map. simpl big_endian.
    rewrite length_map, Nat2Z.inj_succ, Z.pow_succ_r by lia. ring.
Qed.

Lemma hex_value_nonneg cs : 0 <= hex_value cs.
Proof.
  unfold hex_value. induction cs as [|c cs IH]; simpl; [lia|].
  assert (0 <= hex_digit c).
  { unfold hex_digit, digit_value.
    repeat match goal with |- context [if ?b then _ else _] => destruct b eqn:? end;
      lia. }
  assert (0 <= 16 ^ Z.of_nat (List.length (map hex_digit cs))) by (apply Z.pow_nonneg; lia).
  nia.
Qed.

Lemma py_int16_hex_digits (digits : list ascii) :
  digits <> [] ->
  Forall (fun c => is_hex_digit c = true) digits ->
  py_int16 (PStr (string_of_list_ascii digits)) = Some (hex_value digits) /\
  py_int16 (PStr ("0x" ++ string_of_list_ascii digits)) = Some (hex_value digits).
Proof.
  intros Hne Hall.
  assert (Hsp : Forall (fun c => is_py_space c = false) digits).
  { eapply Forall_impl; [|exact Hall]. intros c Hc. apply hex_digit_facts, Hc. }
  destruct digits as [|c cs]; [congruence|].
  pose proof (Forall_inv Hall) as Hc.
  destruct (hex_digit_facts c Hc) as (Hs & Hu & Hplus & Hminus & Hx & _).
  split.
  - unfold py_int16, py_int_of_string.
    rewrite list_ascii_of_string_of_list_ascii, (strip_no_space _ Hsp).
    unfold split_sign. rewrite Hplus, Hminus. cbn [fst snd].
    change (16 =? 16) with true. cbv iota.
    assert (Hdrop : drop_hex_prefix (c :: cs) = c :: cs).
    { unfold drop_hex_prefix. destruct cs as [|x r]; [reflexivity|].
      pose proof (Forall_inv (Forall_inv_tail Hall)) as Hx2.
      destruct (hex_digit_facts x Hx2) as (_ & _ & _ & _ & -> & _).
      rewrite andb_false_r. reflexivity. }
    rewrite Hdrop, (parse_digits_hex _ Hall) by (left; discriminate).
    f_equal.
  - unfold py_int16, py_int_of_string.
    change ("0x" ++ string_of_list_ascii (c :: cs))
      with (string_of_list_ascii ("0"%char :: "x"%char :: c :: cs)).
    rewrite list_ascii_of_string_of_list_ascii.
    rewrite strip_no_space
      by (constructor; [reflexivity | constructor; [reflexivity | exact Hsp]]).
    cbn [split_sign Ascii.eqb Bool.eqb fst snd andb].
    change (16 =? 16) with true. cbv iota.
    unfold drop_hex_prefix.
    cbn [Ascii.eqb Bool.eqb andb orb]. rewrite Hu.
    rewrite (parse_digits_hex _ Hall) by (left; discriminate).
    f_equal.
Qed.

Ltac solve_in_events :=
  repeat match goal with
         | H : _ \/ _ |- _ => destruct H as [H | H]
         | H : False |- _ => contradiction
         | H : @eq event _ _ |- _ => first [discriminate H | subst]
         end.

Lemma jumper_approve_amount R self w f t ft tt a s :
  wp (Jumper.execute_bridge (R:=R) self w f t ft tt a) s
     (fun r s' =>
        Forall (approves_base16 self (jumper_quote_params f t ft tt a w)
                  (run_events s s'))
          (run_events s s')).
Proof.
  apply wp_start. wp_run.
  all: rewrite ?run_events_st; cbn [rev app].
  all: repeat (apply Forall_cons; [cbn [approves_base16]; try exact I|]);
       try apply Forall_nil.
  all: do 4 eexists; cbn [hd_error];
       repeat (split; [first [reflexivity | eassumption]|]); reflexivity.
Qed.

(** C10: whenever a run of the Jumper adapter calls the approval, the
    amount it passes is [int(text, 16)] for the amount string [text] of the
    quote's [approvalData].  On a string of hexadecimal digits, with or
    without the prefix 0x, this is the unsigned big-endian base-16 value; so
    a string meant as decimal is read in base 16 all the same: "100" is
    approved as 256, not 100. *)
Theorem jumper_approval_amount_base16 :
  (forall (R : Type) (self : http_service)
          (wallet_address from_chain to_chain from_token to_token
             amount : string)
          (s s' : state) (r : outcome R pyval)
          (w : string) (chain_id token spender approved : pyval)
          (answer : reply),
      Jumper.execute_bridge self wallet_address from_chain to_chain
        from_token to_token amount s = (r, s') ->
      In (ECall (ApproveTokenForBridge w chain_id token spender approved)
            answer) (run_events s s') ->
      exists quote approval_data text n,
        hd_error (run_events s s')
          = Some (ECall (RequestsGet (api_url self ++ "/quote") (headers self)
                           (jumper_quote_params from_chain to_chain from_token
                              to_token amount wallet_address))
                    (Returns quote)) /\
        py_getitem quote "approvalData" = Some approval_data /\
        py_get approval_data "amount" (PStr "0") = Some text /\
        py_int16 text = Some n /\
        approved = PInt n) /\
  (forall digits : list ascii,
      digits <> [] ->
      Forall (fun c => is_hex_digit c = true) digits ->
      py_int16 (PStr (string_of_list_ascii digits))
        = Some (hex_value digits) /\
      py_int16 (PStr ("0x" ++ string_of_list_ascii digits))
        = Some (hex_value digits) /\
      0 <= hex_value digits) /\
  (py_int16 (PStr "100") = Some 256 /\ py_int (PStr "100") = Some 100).
Proof.
  split; [|split].
  - intros R self wa f t ft tk a s s' r w c tok sp am ans Hrun Hin.
    pose proof (wp_run _ _ _ (jumper_approve_amount R self wa f t ft tk a s)
                  r s' Hrun) as H.
    cbv beta in H. rewrite Forall_forall in H. specialize (H _ Hin).
    cbn [approves_base16] in H.
    destruct H as (quote & ad & text & n & H1 & H2 & _ & _ & H3 & H4 & H5).
    exists quote, ad, text, n. repeat split; assumption.
  - intros digits Hne Hall.
    destruct (py_int16_hex_digits digits Hne Hall) as [H1 H2].
    repeat split; auto. apply hex_value_nonneg.
  - split; reflexivity.
Qed.

Lemma jumper_approval_amount_base16_witness :
  exists quote approval_data text n,
    hd_error (events_of (run_adapter (R:=unit) jumper_usdc_run)
                (fresh_state decimal_amount_env))
      = Some (ECall (RequestsGet (api_url (Jumper.new PNone) ++ "/quote")
                       (headers (Jumper.new PNone))
                       (jumper_quote_params "ETH" "ARB" "USDC" "USDC" "45.0"
                          "0xW"))
                (Returns quote)) /\
    py_getitem quote "approvalData" = Some approval_data /\
    py_get approval_data "amount" (PStr "0") = Some text /\
    py_int16 text = Some n /\
    PInt 256 = PInt n.
Proof.
  apply (proj1 jumper_approval_amount_base16 unit (Jumper.new PNone)
           "0xW" "ETH" "ARB" "USDC" "USDC" "45.0"
           (fresh_state decimal_amount_env) _ _
           "0xW" (PStr "1") (PStr "0xToken") (PStr "0xS") (PInt 256)
           (Returns (PStr "0xapproval")) (surjective_pairing _)).
  vm_compute. auto.
Defined.

(** ** The notification of Relay *)

Lemma relay_notification R self w f t fa ta a s :
  wp (Relay.execute_bridge (R:=R) self w f t fa ta a) s
     (fun r s' =>
        relay_notifies self (relay_quote_body f t fa ta a w) r
          (run_events s s')).
Proof.
  apply wp_start. wp_run.
  all: rewrite ?run_events_st; cbn [rev app].
  all: unfold relay_notifies; cbn [split_first is_send]; try exact I.
  all: use_conditions; intros Hhash; try congruence.
  all: do 2 eexists; cbn [hd_error];
       split; [reflexivity|]; split; [eassumption|].
  all: unfold notified_after_submission; cbn [split_first is_post forallb is_log andb].
  all: do 4 (split; [reflexivity|]).
  all: unfold confirmed_after_notification; cbn [split_first is_wait forallb is_log andb].
  all: unfold reply_truthy; rewrite ?Hhash.
  all: repeat match goal with H : truthy _ = _ |- _ => rewrite H end.
  all: split; [reflexivity|].
  all: split; [intros; first [discriminate | simpl; auto]|].
  all: do 3 (split; [reflexivity|]).
  all: intros; try discriminate.
  all: unfold relay_success; eexists; repeat (split; [reflexivity|]); reflexivity.
Qed.

(** C9: in a run of the Relay adapter, once the submission has returned a
    transaction hash, the adapter posts the notification with the request
    id of the quote and the transaction hash, only log records lying in
    between; whatever the notification replies, only log records follow
    (among them the warning when the notification failed) up to the
    confirmation wait of the submitted transaction; and when that wait
    succeeds the run returns the success record. *)
Theorem relay_notification_failure_tolerated :
  forall (R : Type) (self : http_service)
         (wallet_address from_chain_id to_chain_id from_token_address
            to_token_address amount : string)
         (s s' : state) (r : outcome R pyval)
         (pre rest : list event) (w : string)
         (chain_id to value data tx_hash : pyval),
    Relay.execute_bridge self wallet_address from_chain_id to_chain_id
      from_token_address to_token_address amount s = (r, s') ->
    split_first is_send (run_events s s')
      = Some (pre,
              ECall (SendTransaction w chain_id to value data)
                (Returns tx_hash),
              rest) ->
    truthy tx_hash = true ->
    exists quote request_id logs1 notification rest1 logs2 confirmation rest2,
      hd_error (run_events s s')
        = Some (ECall (RequestsPost (api_url self ++ "/quote") (headers self)
                         (relay_quote_body from_chain_id to_chain_id
                            from_token_address to_token_address amount
                            wallet_address))
                  (Returns quote)) /\
      py_get quote "requestId" PNone = Some request_id /\
      split_first is_post rest
        = Some (logs1,
                ECall (RequestsPost (api_url self ++ "/transactions")
                         (headers self)
                         [ ("requestId", request_id); ("txHash", tx_hash) ])
                  notification,
                rest1) /\
      forallb is_log logs1 = true /\
      split_first is_wait rest1
        = Some (logs2,
                ECall (WaitForTransaction chain_id tx_hash 300) confirmation,
                rest2) /\
      forallb is_log logs2 = true /\
      (reply_truthy notification = false ->
       In (ELog WARNING msg_notification_failed) logs2) /\
      (reply_truthy confirmation = true ->
       relay_success r tx_hash request_id).
Proof.
  intros R self wa f t fa ta a s s' r pre rest w c to v d h Hrun Hsend Hh.
  pose proof (wp_run _ _ _ (relay_notification R self wa f t fa ta a s)
                r s' Hrun) as H.
  cbv beta in H. unfold relay_notifies in H. rewrite Hsend in H.
  destruct (H Hh) as (quote & rid & Hq & Hrid & Hn). clear H.
  unfold notified_after_submission in Hn.
  destruct (split_first is_post rest) as [[[logs1 e1] rest1]|] eqn:E1;
    [|contradiction].
  destruct e1 as [c1 notification| | |]; try contradiction.
  destruct c1; try contradiction.
  destruct Hn as (Hl1 & -> & -> & -> & Hc).
  unfold confirmed_after_notification in Hc.
  destruct (split_first is_wait rest1) as [[[logs2 e2] rest2]|] eqn:E2;
    [|contradiction].
  destruct e2 as [c2 confirmation| | |]; try contradiction.
  destruct c2; try contradiction.
  destruct Hc as (Hl2 & Hw & -> & -> & -> & Hok).
  exists quote, rid, logs1, notification, rest1, logs2, confirmation, rest2.
  repeat split; assumption || reflexivity.
Qed.

Lemma relay_notification_failure_tolerated_witness :
  exists quote request_id logs1 notification rest1 logs2 confirmation rest2,
    hd_error (events_of (Relay.execute_bridge (R:=unit)
                           (Relay.new PNone) "0xW" "1" "10" "0xA" "0xA" "45.0")
                (fresh_state failing_notification_env))
      = Some (ECall (RequestsPost (api_url (Relay.new PNone) ++ "/quote")
                       (headers (Relay.new PNone))
                       (relay_quote_body "1" "10" "0xA" "0xA" "45.0" "0xW"))
                (Returns quote)) /\
    py_get quote "requestId" PNone = Some request_id /\
    split_first is_post
      [ ELog INFO "Transaction de bridge Relay initiée: ";
        ECall (RequestsPost "https://api.relay.link/transactions"
                 base_headers
                 [ ("requestId", PStr "req-1"); ("txHash", PStr "0xbridge") ])
          Raises;
        ELog ERROR "Erreur lors de la notification de la transaction: ";
        ELog WARNING msg_notification_failed;
        ECall (WaitForTransaction (PInt 1) (PStr "0xbridge") 300)
          (Returns (PBool true));
        ELog INFO
          "Transaction de bridge Relay confirmée sur la chaîne source: ";
        ENow (mk_datetime 739000 12 0 0 0) ]
      = Some (logs1,
              ECall (RequestsPost (api_url (Relay.new PNone) ++ "/transactions")
                       (headers (Relay.new PNone))
                       [ ("requestId", request_id);
                         ("txHash", PStr "0xbridge") ])
                notification,
              rest1) /\
    forallb is_log logs1 = true /\
    split_first is_wait rest1
      = Some (logs2,
              ECall (WaitForTransaction (PInt 1) (PStr "0xbridge") 300)
                confirmation,
              rest2) /\
    forallb is_log logs2 = true /\
    (reply_truthy notification = false ->
     In (ELog WARNING msg_notification_failed) logs2) /\
    (reply_truthy confirmation = true ->
     relay_success
       (fst (Relay.execute_bridge (R:=unit) (Relay.new PNone) "0xW" "1" "10"
               "0xA" "0xA" "45.0" (fresh_state failing_notification_env)))
       (PStr "0xbridge") request_id).
Proof.
  apply (relay_notification_failure_tolerated unit (Relay.new PNone)
           "0xW" "1" "10" "0xA" "0xA" "45.0"
           (fresh_state failing_notification_env) _ _
           [ ECall (RequestsPost "https://api.relay.link/quote" base_headers
                      (relay_quote_body "1" "10" "0xA" "0xA" "45.0" "0xW"))
               (Returns relay_quote) ]
           _ "0xW" (PInt 1) (PStr "0x1234") (PInt 0) (PStr "0xabcd")
           (PStr "0xbridge") (surjective_pairing _)).
  - vm_compute. reflexivity.
  - reflexivity.
Defined.

(** With a failing notification and a confirmed submission the run
    succeeds. *)
Example relay_run_with_failing_notification :
  fst (Relay.execute_bridge (R:=unit) (Relay.new PNone) "0xW" "1" "10"
         "0xA" "0xA" "45.0" (fresh_state failing_notification_env))
  = Val (PDict [ ("tx_hash", PStr "0xbridge");
                 ("bridge_type", PStr "relay");
                 ("request_id", PStr "req-1");
                 ("from_chain_id", PStr "1");
                 ("to_chain_id", PStr "10");
                 ("from_token", PStr "0xA");
                 ("to_token", PStr "0xA");
                 ("amount", PStr "45.0");
                 ("status", PStr "pending");
                 ("timestamp", PStr "2024-04-23T12:00:00") ]).
Proof. vm_compute. reflexivity. Qed.

(** ** [execute_random_bridge] and the history *)

Lemma wp_frame {R A} (m : M R A) s (P Q : outcome R A -> state -> Prop) :
  wp m s P -> (forall o s', P o s' -> Q o s') -> wp m s Q.
Proof. unfold wp. auto. Qed.

Lemma wp_update_balances {R} w s revs
  (Q : outcome R (dict (dict float)) -> state -> Prop) :
  (forall r,
      match r with
      | None => Q Exc (st s (EBalances w r :: revs))
      | Some b => Q (Val b) (st s (EBalances w r :: revs))
      end) ->
  wp (update_balances w) (st s revs) Q.
Proof.
  intros H. unfold wp, update_balances.
  specialize (H (balances (env (st s revs)) (trace (st s revs)) w)).
  destruct (balances (env (st s revs)) (trace (st s revs)) w);
    cbn [fst snd]; rewrite st_emit; exact H.
Qed.

Lemma wp_str_of_float {R} q s (Q : outcome R string -> state -> Prop) :
  Q (Val (float_str (env s) q)) s -> wp (str_of_float q) s Q.
Proof. auto. Qed.

Lemma wp_append_history {R} record s (Q : outcome R unit -> state -> Prop) :
  Q (Val tt) (with_history (transaction_history s ++ [record])%list s) ->
  wp (append_history record) s Q.
Proof. auto. Qed.

Lemma select_random_transaction_frame R w chains tokens s :
  wp (select_random_transaction (R:=R) w chains tokens) s
     (fun o s' => (exists v, o = Val v) /\
                  transaction_history s' = transaction_history s).
Proof.
  unfold wp.
  destruct (select_random_transaction_run R w chains tokens s)
    as [[_ E] | (f & toks & sym & info & _ & _ & _ & _ & H)].
  - rewrite E. split; [eexists; reflexivity | reflexivity].
  - cbv zeta in H.
    destruct H as [[_ E] | [(_ & _ & E) | (_ & t & _ & E)]]; rewrite E;
      (split; [eexists; reflexivity | reflexivity]).
Qed.

Lemma supported_services_are_services f t k name :
  In name (supported_services f t k) -> is_service name = true.
Proof.
  unfold supported_services.
  destruct (stargate_declares_route f t k); simpl;
    intros H; repeat destruct H as [<- | H]; try reflexivity; contradiction.
Qed.

Lemma select_random_service_frame R f t k s :
  wp (select_random_service (R:=R) f t k) s
     (fun o s' => (exists name, o = Val name /\ is_service name = true) /\
                  transaction_history s' = transaction_history s).
Proof.
  unfold wp, select_random_service.
  assert (Hne : supported_services f t k <> []).
  { unfold supported_services.
    destruct (stargate_declares_route f t k); discriminate. }
  destruct (run_random_choice (R:=string) _ s Hne) as (name & Hrun & Hnth).
  rewrite run_def, run_bind, Hrun. cbv beta iota. rewrite run_return.
  cbn [fst snd]. split; [|reflexivity].
  exists name. split; [reflexivity|].
  eapply supported_services_are_services, nth_error_In, Hnth.
Qed.

Lemma adapter_frame R (a : adapter_run) s :
  wp (run_adapter (R:=R) a) s
     (fun r s' => adapter_result r /\
                  transaction_history s' = transaction_history s).
Proof.
  eapply wp_frame; [apply run_adapter_approval_gate|].
  intros o s' (_ & Hres & revs & ->). split; [exact Hres | reflexivity].
Qed.

Ltac history_unchanged :=
  left; split; [reflexivity | cbn [transaction_history st with_trace]; congruence].

Lemma execute_random_bridge_history R self w s :
  wp (execute_random_bridge (R:=R) self w) s (history_outcome s).
Proof.
  unfold execute_random_bridge. apply wp_start.
  refine (wp_def _ _ _ _). refine (wp_try_except _ _ _ _ _).
  refine (wp_bind _ _ _ _ _).
  refine (wp_update_balances _ _ _ _ _). intros [b|]; lazy head beta iota.
  2:{ wp_run. history_unchanged. }
  wp_step. wp_step.
  { wp_run. history_unchanged. }
  refine (wp_bind _ _ _ _ _).
  eapply wp_frame; [apply select_random_transaction_frame|].
  intros o s1 [[tr ->] Hh1]. lazy head beta iota.
  cbn [transaction_history st with_trace] in Hh1.
  apply wp_start.
  destruct tr as [[[[[f t] k] addr] amt]|].
  2:{ wp_run. history_unchanged. }
  refine (wp_bind _ _ _ _ _).
  eapply wp_frame; [apply select_random_service_frame|].
  intros o s2 [(name & -> & Hname) Hh2]. lazy head beta iota.
  cbn [transaction_history st with_trace] in Hh2.
  apply wp_start.
  wp_step. wp_step.
  { rewrite Hname in H0. discriminate. }
  refine (wp_bind _ _ _ _ _). refine (wp_str_of_float _ _ _ _).
  lazy head beta iota.
  wp_step. wp_step.
  refine (wp_bind _ _ _ _ _).
  set (amount_text := float_str _ _).
  eapply (wp_frame _ _
            (fun r s' => adapter_result r /\
                         transaction_history s' = transaction_history s)).
  { unfold is_service in Hname.
    destruct (String.eqb name "jumper");
      [|destruct (String.eqb name "stargate");
        [|destruct (String.eqb name "relay"); [|discriminate Hname]]].
    - eapply wp_frame;
        [apply (adapter_frame _ (JumperRun (jumper_service self) w f t k k
                                   amount_text))|].
      cbn [transaction_history st with_trace].
      intros ? ? [? ?]; split; [assumption | congruence].
    - eapply wp_frame;
        [apply (adapter_frame _ (StargateRun (stargate_service self) w f t k
                                   amount_text (PStr addr)))|].
      cbn [transaction_history st with_trace].
      intros ? ? [? ?]; split; [assumption | congruence].
    - eapply wp_frame;
        [apply (adapter_frame _ (RelayRun (relay_service self) w f t addr
                                   addr amount_text))|].
      cbn [transaction_history st with_trace].
      intros ? ? [? ?]; split; [assumption | congruence]. }
  intros o s3 [[-> | (d & -> & Hd)] Hh3]; lazy head beta iota; apply wp_start.
  - wp_run. history_unchanged.
  - destruct d as [|entry d]; [congruence|].
    wp_run. refine (wp_append_history _ _ _ _). lazy head beta iota.
    wp_run. right. exists (entry :: d), name.
    cbn [transaction_history st with_trace with_history].
    rewrite Hh3. repeat split; auto.
Qed.

Lemma perform_keeps_prefix op s :
  exists added,
    transaction_history (perform op s)
    = (transaction_history s ++ added)%list.
Proof.
  destruct op as [self w | w chains tokens | f t k | n | | a]; simpl.
  - pose proof (execute_random_bridge_history unit self w s) as H.
    unfold wp in H. destruct H as [[_ H] | (d & name & _ & _ & _ & H)].
    + exists []. rewrite app_nil_r. exact H.
    + eexists. exact H.
  - exists []. rewrite app_nil_r.
    apply (select_random_transaction_frame unit w chains tokens s).
  - exists []. rewrite app_nil_r.
    apply (select_random_service_frame unit f t k s).
  - exists []. rewrite app_nil_r.
    apply generate_random_transaction_times_frame.
  - exists []. rewrite app_nil_r. reflexivity.
  - exists []. rewrite app_nil_r. apply (adapter_frame unit a s).
Qed.

Lemma run_try_except {R A} (body handler : M R A) s :
  try_except body handler s =
  match body s with
  | (Exc, s') => handler s'
  | res => res
  end.
Proof. reflexivity. Qed.

Lemma run_update_balances {R} w s :
  update_balances (R:=R) w s =
  match balances (env s) (trace s) w with
  | None => (Exc, with_trace (trace s ++ [EBalances w None]) s)
  | Some b => (Val b, after_balances w b s)
  end.
Proof.
  unfold update_balances, after_balances.
  destruct (balances (env s) (trace s) w); reflexivity.
Qed.

Lemma stage_balances_fails R self w s :
  balances (env s) (trace s) w = None \/
  balances (env s) (trace s) w = Some [] ->
  fst (execute_random_bridge (R:=R) self w s) = Val PNone.
Proof.
  intros H. unfold execute_random_bridge.
  rewrite run_def, run_try_except, run_bind, run_update_balances.
  destruct H as [-> | ->]; reflexivity.
Qed.

Lemma stage_selection_fails R self w s b s2 :
  balances (env s) (trace s) w = Some b -> b <> [] ->
  select_random_transaction (R:=pyval) w (Dict.keys b)
    (build_available_tokens b)
    (after_balances w b s) = (Val None, s2) ->
  fst (execute_random_bridge (R:=R) self w s) = Val PNone.
Proof.
  intros Hb Hne Hsel. unfold execute_random_bridge.
  rewrite run_def, run_try_except, run_bind, run_update_balances, Hb.
  cbv beta iota. rewrite run_bind.
  replace (Dict.is_empty b) with false
    by (destruct b; [congruence | reflexivity]).
  rewrite run_when_false. cbv beta iota.
  rewrite run_bind, Hsel. reflexivity.
Qed.

Lemma stage_provider R self w s b f t k addr amt s2 name s3 a :
  balances (env s) (trace s) w = Some b -> b <> [] ->
  select_random_transaction (R:=pyval) w (Dict.keys b)
    (build_available_tokens b)
    (after_balances w b s) = (Val (Some (f, t, k, addr, amt)), s2) ->
  select_random_service (R:=pyval) f t k s2 = (Val name, s3) ->
  provider_run self name w f t k addr (float_str (env s3) amt) = Some a ->
  fst (run_adapter (R:=pyval) a (before_provider f t k name amt s3)) = Val PNone ->
  fst (execute_random_bridge (R:=R) self w s) = Val PNone.
Proof.
  intros Hb Hne Hsel Hsrv Ha Hrun. unfold execute_random_bridge.
  rewrite run_def, run_try_except, run_bind, run_update_balances, Hb.
  cbv beta iota. rewrite run_bind.
  replace (Dict.is_empty b) with false
    by (destruct b; [congruence | reflexivity]).
  rewrite run_when_false. cbv beta iota.
  rewrite run_bind, Hsel. cbv beta iota.
  rewrite run_bind, Hsrv. cbv beta iota.
  assert (Hs : is_service name = true).
  { unfold provider_run in Ha. unfold is_service.
    destruct (String.eqb name "jumper"); [reflexivity|].
    destruct (String.eqb name "stargate"); [reflexivity|].
    destruct (String.eqb name "relay"); [reflexivity | discriminate]. }
  rewrite run_bind, Hs. simpl negb. rewrite run_when_false. cbv beta iota.
  rewrite run_bind. unfold str_of_float at 1. cbv beta iota.
  rewrite run_bind, run_log. cbv beta iota.
  change (logged INFO _ s3) with (before_provider f t k name amt s3).
  rewrite run_bind.
  match goal with
  | |- context [(if String.eqb name "jumper" then ?x else ?y) ?st] =>
      replace (if String.eqb name "jumper" then x else y)
        with (run_adapter (R:=pyval) a)
  end.
  2:{ unfold provider_run in Ha.
      destruct (String.eqb name "jumper"); [injection Ha as <-; reflexivity|].
      destruct (String.eqb name "stargate"); [injection Ha as <-; reflexivity|].
      destruct (String.eqb name "relay"); [injection Ha as <-; reflexivity|].
      discriminate. }
  destruct (run_adapter a (before_provider f t k name amt s3)) as [o s5].
  simpl in Hrun. subst o. cbv beta iota.
  rewrite run_bind. simpl truthy. rewrite run_when_false. cbv beta iota.
  rewrite run_return. reflexivity.
Qed.

Lemma stage_provider_succeeds R self w s b f t k addr amt s2 name s3 a d s4 :
  balances (env s) (trace s) w = Some b -> b <> [] ->
  select_random_transaction (R:=pyval) w (Dict.keys b)
    (build_available_tokens b)
    (after_balances w b s) = (Val (Some (f, t, k, addr, amt)), s2) ->
  select_random_service (R:=pyval) f t k s2 = (Val name, s3) ->
  provider_run self name w f t k addr (float_str (env s3) amt) = Some a ->
  run_adapter (R:=pyval) a (before_provider f t k name amt s3)
  = (Val (PDict d), s4) ->
  d <> [] ->
  execute_random_bridge (R:=R) self w s
  = (Val (PDict d),
     with_history
       (transaction_history s ++
        [PDict (Dict.set d "service" (PStr name))])%list s4).
Proof.
  intros Hb Hne Hsel Hsrv Ha Hrun Hd.
  assert (Hh : transaction_history s4 = transaction_history s).
  { pose proof (adapter_frame pyval a (before_provider f t k name amt s3))
      as H4.
    unfold wp in H4. rewrite Hrun in H4. destruct H4 as [_ H4].
    pose proof (select_random_service_frame pyval f t k s2) as H3.
    unfold wp in H3. rewrite Hsrv in H3. destruct H3 as [_ H3].
    pose proof (select_random_transaction_frame pyval w (Dict.keys b)
                  (build_available_tokens b) (after_balances w b s)) as H2.
    unfold wp in H2. rewrite Hsel in H2. destruct H2 as [_ H2].
    cbn [fst snd] in H2, H3, H4. rewrite H4.
    unfold before_provider, logged.
    cbn [transaction_history with_trace]. rewrite H3, H2. reflexivity. }
  unfold execute_random_bridge.
  rewrite run_def, run_try_except, run_bind, run_update_balances, Hb.
  cbv beta iota. rewrite run_bind.
  replace (Dict.is_empty b) with false
    by (destruct b; [congruence | reflexivity]).
  rewrite run_when_false. cbv beta iota.
  rewrite run_bind, Hsel. cbv beta iota.
  rewrite run_bind, Hsrv. cbv beta iota.
  assert (Hs : is_service name = true).
  { unfold provider_run in Ha. unfold is_service.
    destruct (String.eqb name "jumper"); [reflexivity|].
    destruct (String.eqb name "stargate"); [reflexivity|].
    destruct (String.eqb name "relay"); [reflexivity | discriminate]. }
  rewrite run_bind, Hs. simpl negb. rewrite run_when_false. cbv beta iota.
  rewrite run_bind. unfold str_of_float at 1. cbv beta iota.
  rewrite run_bind, run_log. cbv beta iota.
  change (logged INFO _ s3) with (before_provider f t k name amt s3).
  rewrite run_bind.
  match goal with
  | |- context [(if String.eqb name "jumper" then ?x else ?y) ?st] =>
      replace (if String.eqb name "jumper" then x else y)
        with (run_adapter (R:=pyval) a)
  end.
  2:{ unfold provider_run in Ha.
      destruct (String.eqb name "jumper"); [injection Ha as <-; reflexivity|].
      destruct (String.eqb name "stargate"); [injection Ha as <-; reflexivity|].
      destruct (String.eqb name "relay"); [injection Ha as <-; reflexivity|].
      discriminate. }
  rewrite Hrun. cbv beta iota.
  rewrite run_bind.
  replace (truthy (PDict d)) with true
    by (destruct d; [congruence | reflexivity]).
  unfold when. cbn [with_service]. rewrite run_bind, run_lift_Some.
  cbv beta iota. unfold append_history at 1. cbv beta iota.
  rewrite run_return. rewrite Hh. reflexivity.
Qed.

(** C2: a call of [execute_random_bridge] either returns [None] and leaves
    the transaction history unchanged, or returns the record of the provider
    run and adds exactly one record, that result tagged with the name of a
    service, at the end of the history.  A failing stage leads to the first
    case: when the balances cannot be read or are empty, when no transfer is
    selected, when the run of the provider returns [None].  When the run of
    the provider that [select_random_service] chose returns a record, the
    call returns that record, and the history is the former one followed by
    that record tagged with the name of the chosen service.  Through any
    sequence of operations the records already in the history stay in
    place, unchanged. *)
Theorem execute_random_bridge_appends_on_success :
  (forall (R : Type) (self : BridgeAggregator) (wallet_address : string)
          (s s' : state) (r : outcome R pyval),
      execute_random_bridge self wallet_address s = (r, s') ->
      (r = Val PNone /\ transaction_history s' = transaction_history s) \/
      (exists d service_name,
          r = Val (PDict d) /\ d <> [] /\
          In service_name ["jumper"; "stargate"; "relay"] /\
          transaction_history s'
          = (transaction_history s ++
             [PDict (Dict.set d "service" (PStr service_name))])%list)) /\
  (forall (R : Type) (self : BridgeAggregator) (wallet_address : string)
          (s : state),
      let run := execute_random_bridge (R:=R) self wallet_address s in
      let failed :=
        fst run = Val PNone /\
        transaction_history (snd run) = transaction_history s in
      (balances (env s) (trace s) wallet_address = None \/
       balances (env s) (trace s) wallet_address = Some [] -> failed) /\
      (forall b s2,
          balances (env s) (trace s) wallet_address = Some b -> b <> [] ->
          select_random_transaction (R:=pyval) wallet_address (Dict.keys b)
            (build_available_tokens b) (after_balances wallet_address b s)
          = (Val None, s2) ->
          failed) /\
      (forall b from_chain to_chain token_symbol token_address amount s2
              service_name s3 a,
          balances (env s) (trace s) wallet_address = Some b -> b <> [] ->
          select_random_transaction (R:=pyval) wallet_address (Dict.keys b)
            (build_available_tokens b) (after_balances wallet_address b s)
          = (Val (Some (from_chain, to_chain, token_symbol, token_address,
                        amount)), s2) ->
          select_random_service (R:=pyval) from_chain to_chain token_symbol s2
          = (Val service_name, s3) ->
          provider_run self service_name wallet_address from_chain to_chain
            token_symbol token_address (float_str (env s3) amount) = Some a ->
          let provider :=
            run_adapter (R:=pyval) a
              (before_provider from_chain to_chain token_symbol
                 service_name amount s3) in
          (fst provider = Val PNone -> failed) /\
          (forall d,
              fst provider = Val (PDict d) -> d <> [] ->
              fst run = Val (PDict d) /\
              transaction_history (snd run)
              = (transaction_history s ++
                 [PDict (Dict.set d "service" (PStr service_name))])%list))) /\
  (forall (ops : list operation) (s : state),
      exists added,
        transaction_history (perform_all ops s)
        = (transaction_history s ++ added)%list).
Proof.
  assert (Hout : forall (R : Type) self w (s s' : state) (r : outcome R pyval),
             execute_random_bridge self w s = (r, s') ->
             (r = Val PNone /\
              transaction_history s' = transaction_history s) \/
             (exists d service_name,
                 r = Val (PDict d) /\ d <> [] /\
                 In service_name ["jumper"; "stargate"; "relay"] /\
                 transaction_history s'
                 = (transaction_history s ++
                    [PDict (Dict.set d "service" (PStr service_name))])%list)).
  { intros R self w s s' r Hrun.
    pose proof (wp_run _ _ _ (execute_random_bridge_history R self w s)
                  r s' Hrun) as [[-> Hh] | (d & name & -> & Hd & Hname & Hh)].
    - left; split; [reflexivity | exact Hh].
    - right. exists d, name. repeat split; auto.
      unfold is_service in Hname.
      destruct (String.eqb_spec name "jumper") as [->|_]; [simpl; auto|].
      destruct (String.eqb_spec name "stargate") as [->|_]; [simpl; auto|].
      destruct (String.eqb_spec name "relay") as [->|_]; [simpl; auto|].
      discriminate. }
  assert (Hfail : forall (R : Type) self w (s : state),
             fst (execute_random_bridge (R:=R) self w s) = Val PNone ->
             fst (execute_random_bridge (R:=R) self w s) = Val PNone /\
             transaction_history (snd (execute_random_bridge (R:=R) self w s))
             = transaction_history s).
  { intros R self w s Hnone. split; [exact Hnone|].
    destruct (Hout R self w s _ _ (surjective_pairing _))
      as [[_ Hh] | (d & name & Hr & _)]; [exact Hh|].
    rewrite Hnone in Hr. discriminate. }
  split; [exact Hout | split].
  - intros R self w s run failed. subst run failed. split; [|split].
    + intros H. apply Hfail. apply stage_balances_fails, H.
    + intros b s2 Hb Hne Hsel. apply Hfail.
      eapply stage_selection_fails; eassumption.
    + intros b f t k addr amt s2 name s3 a Hb Hne Hsel Hsrv Ha provider.
      split.
      * intros Hrun. apply Hfail. eapply stage_provider; eassumption.
      * intros d Hrun Hd.
        rewrite (stage_provider_succeeds R self w s b f t k addr amt s2 name
                   s3 a d (snd provider) Hb Hne Hsel Hsrv Ha);
          [split; reflexivity | | exact Hd].
        rewrite <- Hrun. apply surjective_pairing.
  - intros ops. unfold perform_all.
    induction ops as [|op ops IH]; intros s; simpl.
    + exists []. rewrite app_nil_r. reflexivity.
    + destruct (IH (perform op s)) as (added2 & H2).
      destruct (perform_keeps_prefix op s) as (added1 & H1).
      exists (added1 ++ added2)%list. rewrite H2, H1, app_assoc. reflexivity.
Qed.

Lemma execute_random_bridge_appends_on_success_witness :
  fst (execute_random_bridge (R:=unit) aggregator "0xW"
         (fresh_state successful_env)) = Val (PDict jumper_record) /\
  transaction_history
    (snd (execute_random_bridge (R:=unit) aggregator "0xW"
            (fresh_state successful_env)))
  = (transaction_history (fresh_state successful_env) ++
     [PDict (Dict.set jumper_record "service" (PStr "jumper"))])%list.
Proof.
  refine (proj2 (proj2 (proj2 (proj1 (proj2
    execute_random_bridge_appends_on_success) unit aggregator "0xW"
      (fresh_state successful_env)))
    [ ("X", [ ("USDC", float_of_Z 100) ]); ("Y", [ ("USDC", float_of_Z 100) ]) ]
    "X" "Y" "USDC" "0x..." (float_of_Z 10)
    (advance (advance (advance (advance
       (after_balances "0xW"
          [ ("X", [ ("USDC", float_of_Z 100) ]);
            ("Y", [ ("USDC", float_of_Z 100) ]) ]
          (fresh_state successful_env))))))
    "jumper"
    (advance (advance (advance (advance (advance
       (after_balances "0xW"
          [ ("X", [ ("USDC", float_of_Z 100) ]);
            ("Y", [ ("USDC", float_of_Z 100) ]) ]
          (fresh_state successful_env)))))))
    (JumperRun (Jumper.new PNone) "0xW" "X" "Y" "USDC" "USDC" "10.0")
    eq_refl _ _ _ eq_refl) jumper_record _ _).
  - discriminate.
  - vm_compute. reflexivity.
  - vm_compute. reflexivity.
  - vm_compute. reflexivity.
  - discriminate.
Defined.

(** The successful scenario: the result of the Jumper run, and the history
    that holds this one record tagged with the service. *)
Example execute_random_bridge_success :
  fst (execute_random_bridge (R:=unit) aggregator "0xW"
         (fresh_state successful_env)) = Val (PDict jumper_record) /\
  transaction_history
    (snd (execute_random_bridge (R:=unit) aggregator "0xW"
            (fresh_state successful_env)))
  = [ PDict (jumper_record ++ [ ("service", PStr "jumper") ]) ].
Proof. vm_compute. split; reflexivity. Qed.

(** When the balances cannot be read the call fails and the history is
    kept. *)
Example execute_random_bridge_without_balances :
  fst (execute_random_bridge (R:=unit) aggregator "0xW"
         (with_history [PDict jumper_record]
            (fresh_state unconfirmed_approval_env))) = Val PNone /\
  transaction_history
    (snd (execute_random_bridge (R:=unit) aggregator "0xW"
            (with_history [PDict jumper_record]
               (fresh_state unconfirmed_approval_env))))
  = [ PDict jumper_record ].
Proof. vm_compute. split; reflexivity. Qed.

(** ** The outcome of a run of an adapter *)

Ltac contradictory_lookup :=
  match goal with
  | H : py_getitem ?q _ = Some _ |- _ =>
      destruct q; try discriminate H;
      repeat match goal with
             | H' : py_get (PDict _) _ _ = None |- _ => discriminate H'
             | H' : py_contains _ (PDict _) = None |- _ => discriminate H'
             end
  end.

Ltac solve_submission_outcome :=
  unfold submission_outcome; cbn [split_first is_send];
  first
    [ reflexivity
    | split; [reflexivity|]; split; [reflexivity|]; split; [reflexivity|];
      unfold reply_truthy; use_conditions; cbv iota;
      first
        [ split; reflexivity
        | unfold confirmation_decides; cbn [split_first is_wait];
          split; [reflexivity|]; do 3 (split; [reflexivity|]);
          split; [reflexivity|];
          unfold reply_truthy; use_conditions; cbv iota;
          first
            [ reflexivity
            | eexists; split; [reflexivity|]; repeat split ] ] ].

Ltac solve_run_outcome :=
  rewrite ?run_events_st; cbn [rev app];
  unfold run_outcome; split; [|split];
  [ first [ solve [solve_submission_outcome]
          | exfalso; contradictory_lookup ]
  | unfold ends_with_error; cbn [rev app is_error_log];
    split; intros; first [reflexivity | discriminate]
  | reflexivity ].

Lemma jumper_run_outcome R self w f t ft tt a s :
  wp (Jumper.execute_bridge (R:=R) self w f t ft tt a) s
     (fun r s' => run_outcome w a r (run_events s s')).
Proof. apply wp_start. wp_run. all: solve_run_outcome. Qed.

Lemma relay_run_outcome R self w f t fa ta a s :
  wp (Relay.execute_bridge (R:=R) self w f t fa ta a) s
     (fun r s' => run_outcome w a r (run_events s s')).
Proof. apply wp_start. wp_run. all: solve_run_outcome. Qed.

Lemma stargate_run_outcome R self w f t k a ta s :
  wp (Stargate.execute_bridge (R:=R) self w f t k a ta) s
     (fun r s' => run_outcome w a r (run_events s s')).
Proof. apply wp_start. wp_run. all: solve_run_outcome. Qed.

Lemma run_adapter_outcome R (a : adapter_run) s :
  wp (run_adapter (R:=R) a) s
     (fun r s' => run_outcome (wallet_of a) (amount_of a) r (run_events s s')).
Proof.
  destruct a; simpl.
  - apply jumper_run_outcome.
  - apply stargate_run_outcome.
  - apply relay_run_outcome.
Qed.

Lemma split_first_Some {A} (p : A -> bool) l :
  forall pre x post,
    split_first p l = Some (pre, x, post) ->
    l = (pre ++ x :: post)%list /\ p x = true /\ existsb p pre = false.
Proof.
  induction l as [|y l IH]; intros pre x post H; simpl in H; [discriminate|].
  destruct (p y) eqn:Hy.
  - injection H as <- <- <-. auto.
  - destruct (split_first p l) as [[[pre' x'] post']|]; [|discriminate].
    injection H as <- <- <-.
    destruct (IH _ _ _ eq_refl) as (-> & Hx & Hpre).
    simpl. rewrite Hy, Hpre. auto.
Qed.

Lemma split_first_None {A} (p : A -> bool) l :
  split_first p l = None -> existsb p l = false.
Proof.
  induction l as [|y l IH]; simpl; [reflexivity|].
  destruct (p y); [discriminate|].
  destruct (split_first p l) as [[[pre x] post]|]; [discriminate|].
  intros _. apply IH. reflexivity.
Qed.

Lemma existsb_false_In {A} (p : A -> bool) l x :
  existsb p l = false -> In x l -> p x = false.
Proof.
  intros H Hin. destruct (p x) eqn:Hx; [|reflexivity].
  rewrite <- H. symmetry. apply existsb_exists. exists x. auto.
Qed.

Lemma reply_truthy_Returns r :
  reply_truthy r = true -> exists v, r = Returns v /\ truthy v = true.
Proof. destruct r; [discriminate|]. intros H. eauto. Qed.

(** The shape of a run with a submission, read off [submission_outcome]. *)
Lemma submission_outcome_inv {R} w amount (r : outcome R pyval) evs :
  submission_outcome w amount r evs ->
  (existsb is_send evs = false /\ r = Val PNone) \/
  exists pre chain_id to value data answer rest,
    evs = (pre ++ ECall (SendTransaction w chain_id to value data) answer
               :: rest)%list /\
    existsb is_send pre = false /\
    existsb is_confirmation_wait pre = false /\
    existsb is_send rest = false /\
    ((reply_truthy answer = false /\ r = Val PNone /\
      forallb is_log rest = true) \/
     exists tx_hash mid confirmation post,
       answer = Returns tx_hash /\ truthy tx_hash = true /\
       rest = (mid ++ ECall (WaitForTransaction chain_id tx_hash 300)
                        confirmation :: post)%list /\
       existsb is_wallet_call mid = false /\
       existsb is_call post = false /\
       if reply_truthy confirmation
       then pending_record r tx_hash amount
       else r = Val PNone).
Proof.
  unfold submission_outcome.
  destruct (split_first is_send evs) as [[[pre e] rest]|] eqn:E.
  2:{ intros ->. left. split; [apply split_first_None, E | reflexivity]. }
  destruct (split_first_Some _ _ _ _ _ E) as (-> & He & Hpre).
  destruct e as [c answer| | |]; try contradiction.
  destruct c; try contradiction.
  intros (-> & Hw & Hrest & H). right.
  exists pre, chain_id, to_address, value, data, answer, rest.
  split; [reflexivity|]. split; [exact Hpre|]. split; [exact Hw|].
  split; [exact Hrest|].
  destruct (reply_truthy answer) eqn:Ha.
  2:{ left. destruct H. auto. }
  right. destruct answer as [|tx_hash]; [contradiction|].
  unfold confirmation_decides in H.
  destruct (split_first is_wait rest) as [[[mid e] post]|] eqn:E2;
    [|contradiction].
  destruct (split_first_Some _ _ _ _ _ E2) as (-> & _ & _).
  destruct e as [c confirmation| | |]; try contradiction.
  destruct c; try contradiction.
  destruct H as (Hmid & -> & -> & -> & Hpost & H).
  exists tx_hash, mid, confirmation, post. repeat split; auto.
Qed.

(** X1: in a run of any of the three adapters, a record is returned exactly
    when a submission returned a transaction hash and the confirmation wait
    for that hash, with the 300 seconds timeout, returned true: a returned
    record comes with such a submission for the wallet of the run and such a
    wait on the chain of the submission, and holds that hash as [tx_hash],
    the amount as received and the status [pending]; conversely a
    submission with a hash and a confirmation wait for it that returned true
    always yield a record. *)
Theorem adapter_record_iff_confirmed_submission :
  forall (R : Type) (a : adapter_run) (s s' : state) (r : outcome R pyval),
    run_adapter a s = (r, s') ->
    let evs := run_events s s' in
    (forall d,
        r = Val (PDict d) ->
        exists chain_id to value data tx_hash confirmation,
          In (ECall (SendTransaction (wallet_of a) chain_id to value data)
                (Returns tx_hash)) evs /\
          truthy tx_hash = true /\
          In (ECall (WaitForTransaction chain_id tx_hash 300)
                (Returns confirmation)) evs /\
          truthy confirmation = true /\
          Dict.get d "tx_hash" = Some tx_hash /\
          Dict.get d "amount" = Some (PStr (amount_of a)) /\
          Dict.get d "status" = Some (PStr "pending")) /\
    (forall w chain_id to value data tx_hash c confirmation,
        In (ECall (SendTransaction w chain_id to value data)
              (Returns tx_hash)) evs ->
        truthy tx_hash = true ->
        In (ECall (WaitForTransaction c tx_hash 300) (Returns confirmation))
          evs ->
        truthy confirmation = true ->
        exists d, r = Val (PDict d)).
Proof.
  intros R a s s' r Hrun evs.
  destruct (wp_run _ _ _ (run_adapter_outcome R a s) r s' Hrun) as (Hout & _).
  fold evs in Hout. apply submission_outcome_inv in Hout.
  destruct Hout as [[Hno ->] | (pre & chain & to & value & data & answer & rest
                                  & Hevs & Hpre & Hw & Hrest & Hout)].
  { split; [intros d Hd; discriminate|].
    intros w c to v dt h c' conf Hin.
    apply (existsb_false_In _ _ _ Hno) in Hin. discriminate. }
  split.
  - intros d Hd.
    destruct Hout as [(_ & -> & _) | (h & mid & conf & post & -> & Hh & ->
                                        & Hmid & Hpost & Hres)];
      [discriminate|].
    destruct (reply_truthy conf) eqn:Hc; [|rewrite Hres in Hd; discriminate].
    destruct (reply_truthy_Returns _ Hc) as (ok & -> & Hok).
    destruct Hres as (d' & Hr & H1 & H2 & H3).
    rewrite Hr in Hd. injection Hd as ->.
    exists chain, to, value, data, h, ok. rewrite Hevs.
    split; [apply in_or_app; right; left; reflexivity|].
    split; [exact Hh|].
    split; [apply in_or_app; right; right; apply in_or_app; right; left;
            reflexivity|].
    auto.
  - intros w c to' v' dt' h' c' conf' Hsend Hh' Hwait Hconf'.
    rewrite Hevs in Hsend, Hwait.
    apply in_app_or in Hsend. destruct Hsend as [Hsend | [Hsend | Hsend]].
    { apply (existsb_false_In _ _ _ Hpre) in Hsend. discriminate. }
    2:{ apply (existsb_false_In _ _ _ Hrest) in Hsend. discriminate. }
    injection Hsend as E1 E2 E3 E4 E5 E6. subst w c to' v' dt' answer.
    destruct Hout as [(Ha & _) | (h & mid & conf & post & Hans & Hh & ->
                                    & Hmid & Hpost & Hres)].
    { simpl in Ha. congruence. }
    injection Hans as <-.
    apply in_app_or in Hwait. destruct Hwait as [Hwait | [Hwait | Hwait]].
    { apply (existsb_false_In _ _ _ Hw) in Hwait. discriminate. }
    { discriminate. }
    apply in_app_or in Hwait. destruct Hwait as [Hwait | [Hwait | Hwait]].
    { apply (existsb_false_In _ _ _ Hmid) in Hwait. discriminate. }
    2:{ apply (existsb_false_In _ _ _ Hpost) in Hwait. discriminate. }
    injection Hwait as E1 E2. subst conf. simpl in Hres. rewrite Hconf' in Hres.
    destruct Hres as (d & -> & _). eauto.
Qed.

Lemma adapter_record_iff_confirmed_submission_witness :
  exists chain_id to value data tx_hash confirmation,
    In (ECall (SendTransaction "0xW" chain_id to value data)
          (Returns tx_hash))
       (events_of (run_adapter (R:=unit) jumper_usdc_run)
          (fresh_state successful_env)) /\
    truthy tx_hash = true /\
    In (ECall (WaitForTransaction chain_id tx_hash 300)
          (Returns confirmation))
       (events_of (run_adapter (R:=unit) jumper_usdc_run)
          (fresh_state successful_env)) /\
    truthy confirmation = true /\
    Dict.get
      [ ("tx_hash", PStr "0xbridge"); ("bridge_type", PStr "across");
        ("from_chain", PStr "ETH"); ("to_chain", PStr "ARB");
        ("from_token", PStr "USDC"); ("to_token", PStr "USDC");
        ("amount", PStr "45.0"); ("status", PStr "pending");
        ("timestamp", PStr "2024-04-23T12:00:00") ] "tx_hash"
    = Some tx_hash /\
    Dict.get
      [ ("tx_hash", PStr "0xbridge"); ("bridge_type", PStr "across");
        ("from_chain", PStr "ETH"); ("to_chain", PStr "ARB");
        ("from_token", PStr "USDC"); ("to_token", PStr "USDC");
        ("amount", PStr "45.0"); ("status", PStr "pending");
        ("timestamp", PStr "2024-04-23T12:00:00") ] "amount"
    = Some (PStr "45.0") /\
    Dict.get
      [ ("tx_hash", PStr "0xbridge"); ("bridge_type", PStr "across");
        ("from_chain", PStr "ETH"); ("to_chain", PStr "ARB");
        ("from_token", PStr "USDC"); ("to_token", PStr "USDC");
        ("amount", PStr "45.0"); ("status", PStr "pending");
        ("timestamp", PStr "2024-04-23T12:00:00") ] "status"
    = Some (PStr "pending").
Proof.
  apply (proj1 (adapter_record_iff_confirmed_submission unit jumper_usdc_run
                  (fresh_state successful_env) _ _ (surjective_pairing _))).
  vm_compute. reflexivity.
Defined.

Lemma existsb_false_filter {A} (p : A -> bool) l :
  existsb p l = false -> filter p l = [].
Proof.
  induction l as [|x l IH]; simpl; [reflexivity|].
  destruct (p x); [discriminate|]. exact IH.
Qed.

(** X2: a run of any of the three adapters calls the approval at most once
    and [send_transaction] at most once, and a submission is always made for
    the wallet of the run. *)
Theorem adapter_signs_at_most_once :
  forall (R : Type) (a : adapter_run) (s : state),
    let evs := events_of (run_adapter (R:=R) a) s in
    (List.length (filter is_approve evs) <= 1)%nat /\
    (List.length (filter is_send evs) <= 1)%nat /\
    (forall w chain_id to value data answer,
        In (ECall (SendTransaction w chain_id to value data) answer) evs ->
        w = wallet_of a).
Proof.
  intros R a s evs.
  destruct (run_adapter_outcome R a s) as (Hout & _ & Happ).
  fold (events_of (run_adapter (R:=R) a) s) in Hout, Happ. fold evs in Hout, Happ.
  split; [apply Nat.leb_le, Happ|].
  apply submission_outcome_inv in Hout.
  destruct Hout as [[Hno _] | (pre & chain & to & value & data & answer & rest
                                 & Hevs & Hpre & _ & Hrest & _)].
  - split.
    + rewrite (existsb_false_filter _ _ Hno). simpl. lia.
    + intros w c t v d ans Hin.
      apply (existsb_false_In _ _ _ Hno) in Hin. discriminate.
  - split.
    + rewrite Hevs, filter_app. simpl.
      rewrite (existsb_false_filter _ _ Hpre), (existsb_false_filter _ _ Hrest).
      simpl. lia.
    + intros w c t v d ans Hin. rewrite Hevs in Hin.
      apply in_app_or in Hin. destruct Hin as [Hin | [Hin | Hin]].
      * apply (existsb_false_In _ _ _ Hpre) in Hin. discriminate.
      * injection Hin as E1 _. symmetry. exact E1.
      * apply (existsb_false_In _ _ _ Hrest) in Hin. discriminate.
Qed.

Lemma split_unique {A} (p : A -> bool) (pre : list A) :
  forall x post pre' x' post',
    (pre ++ x :: post)%list = (pre' ++ x' :: post')%list ->
    p x = true ->
    existsb p pre' = false -> existsb p post' = false ->
    pre = pre' /\ x = x' /\ post = post'.
Proof.
  induction pre as [|y pre IH]; intros x post pre' x' post' E Hx Hpre Hpost.
  - destruct pre' as [|y' pre'].
    + injection E as <- <-. auto.
    + injection E as <- _. simpl in Hpre. rewrite Hx in Hpre. discriminate.
  - destruct pre' as [|y' pre'].
    + injection E as _ E. exfalso.
      assert (Hin : In x post') by (rewrite <- E; apply in_or_app; right; left; reflexivity).
      apply (existsb_false_In _ _ _ Hpost) in Hin. congruence.
    + injection E as <- E. simpl in Hpre.
      apply orb_false_iff in Hpre. destruct Hpre as [_ Hpre].
      destruct (IH _ _ _ _ _ E Hx Hpre Hpost) as (-> & -> & ->). auto.
Qed.

(** X3: in a run of any of the three adapters, when [send_transaction]
    raises or returns a falsy value the run returns [None] and only log
    records follow the submission: no confirmation wait, and for Relay no
    notification. *)
Theorem failed_submission_ends_run :
  forall (R : Type) (a : adapter_run) (s s' : state) (r : outcome R pyval)
         (pre post : list event) (w : string)
         (chain_id to value data : pyval) (answer : reply),
    run_adapter a s = (r, s') ->
    run_events s s'
    = (pre ++ ECall (SendTransaction w chain_id to value data) answer
           :: post)%list ->
    reply_truthy answer = false ->
    r = Val PNone /\ forallb is_log post = true.
Proof.
  intros R a s s' r pre post w chain to value data answer Hrun Hevs Hanswer.
  destruct (wp_run _ _ _ (run_adapter_outcome R a s) r s' Hrun) as (Hout & _).
  apply submission_outcome_inv in Hout.
  destruct Hout as [[Hno _] | (pre' & chain' & to' & value' & data' & answer'
                                 & rest & Hevs' & Hpre & _ & Hrest & Hout)].
  { rewrite Hevs, existsb_app in Hno. simpl in Hno.
    rewrite orb_true_r in Hno. discriminate. }
  rewrite Hevs in Hevs'.
  destruct (split_unique is_send _ _ _ _ _ _ Hevs' eq_refl Hpre Hrest)
    as (_ & E & <-).
  injection E as _ _ _ _ _ <-.
  destruct Hout as [(_ & Hr & Hlogs) | (h & _ & _ & _ & -> & Hh & _)]; [auto|].
  simpl in Hanswer. congruence.
Qed.

Lemma failed_submission_ends_run_witness :
  fst (run_adapter (R:=unit) relay_usdc_run
         (fresh_state rejected_submission_env)) = Val PNone /\
  forallb is_log
    [ELog ERROR "Échec de l'exécution de la transaction de bridge"] = true.
Proof.
  apply (failed_submission_ends_run unit relay_usdc_run
           (fresh_state rejected_submission_env) _ _
           [ECall (RequestsPost "https://api.relay.link/quote"
                     (headers (Relay.new PNone))
                     (relay_quote_body "1" "42161" "0xUSDC" "0xUSDC" "45.0"
                        "0xW"))
              (Returns relay_quote)]
           _ "0xW" (PInt 1) (PStr "0x1234") (PInt 0) (PStr "0xabcd")
           (Returns PNone) (surjective_pairing _));
    reflexivity.
Defined.

Lemma ends_with_error_spec evs :
  ends_with_error evs = true <->
  exists earlier msg, evs = (earlier ++ [ELog ERROR msg])%list.
Proof.
  unfold ends_with_error. split.
  - destruct (rev evs) as [|e l] eqn:E; [discriminate|].
    destruct e as [| | |[] msg]; try discriminate. intros _.
    exists (rev l), msg. rewrite <- (rev_involutive evs), E. reflexivity.
  - intros (earlier & msg & ->). rewrite rev_app_distr. reflexivity.
Qed.

(** X4: a run of any of the three adapters never raises: it returns [None] or
    a non-empty record; and it returns [None] exactly when the last event of
    the run is a log record of level ERROR. *)
Theorem adapter_failure_is_logged :
  forall (R : Type) (a : adapter_run) (s : state),
    let r := fst (run_adapter (R:=R) a s) in
    let evs := events_of (run_adapter (R:=R) a) s in
    (r = Val PNone \/ exists d, r = Val (PDict d) /\ d <> []) /\
    (r = Val PNone <->
     exists earlier msg, evs = (earlier ++ [ELog ERROR msg])%list).
Proof.
  intros R a s r evs. split.
  - apply (adapter_frame R a s).
  - destruct (run_adapter_outcome R a s) as (_ & Hlog & _).
    rewrite <- ends_with_error_spec. exact Hlog.
Qed.

(** ** The calls of a run follow the quote *)

Ltac solve_call_of_quote :=
  repeat (split; [first [reflexivity | eassumption]|]);
  first
    [ reflexivity | eassumption
    | do 3 eexists;
      repeat (split; [first [reflexivity | eassumption]|]); reflexivity
    | do 2 eexists;
      repeat (split; [first [reflexivity | eassumption]|]); reflexivity ].

Lemma jumper_run_follows_quote R self w f t ft tt a s :
  wp (Jumper.execute_bridge (R:=R) self w f t ft tt a) s
     (fun r s' =>
        jumper_follows_quote self (jumper_quote_params f t ft tt a w) w r
          (run_events s s')).
Proof.
  apply wp_start. wp_run.
  all: rewrite ?run_events_st; cbn [rev app].
  all: unfold jumper_follows_quote; do 3 (split; [reflexivity|]).
  all: unfold reply_truthy; use_conditions; cbv iota.
  all: try solve [split; reflexivity].
  all: repeat (apply Forall_cons; [cbn [jumper_call_of_quote]; try exact I|]);
       try apply Forall_nil.
  all: unfold jumper_chain_id;
       repeat match goal with
              | H : py_get _ "action" _ = Some _ |- _ => rewrite H
              end.
  all: solve_call_of_quote.
Qed.

Lemma relay_run_follows_quote R self w f t fa ta a s :
  wp (Relay.execute_bridge (R:=R) self w f t fa ta a) s
     (fun r s' =>
        relay_follows_quote self (relay_quote_body f t fa ta a w) w fa r
          (run_events s s')).
Proof.
  apply wp_start. wp_run.
  all: rewrite ?run_events_st; cbn [rev app].
  all: unfold relay_follows_quote; do 3 (split; [reflexivity|]).
  all: unfold reply_truthy; use_conditions; cbv iota.
  all: try solve [split; reflexivity].
  all: repeat (apply Forall_cons; [cbn [relay_call_of_quote]; try exact I|]);
       try apply Forall_nil.
  all: solve_call_of_quote.
Qed.

Lemma forallb_log_In l e : forallb is_log l = true -> In e l -> is_log e = true.
Proof. intros H Hin. rewrite forallb_forall in H. auto. Qed.

Lemma forallb_log_no_http l : forallb is_log l = true -> existsb is_http l = false.
Proof.
  induction l as [|e l IH]; simpl; [reflexivity|].
  rewrite andb_true_iff. intros [He Hl].
  destruct e; try discriminate. simpl. auto.
Qed.

(** The shape of a run of the Jumper adapter, read off
    [jumper_follows_quote]. *)
Lemma jumper_follows_quote_inv {R} self params w (r : outcome R pyval) evs :
  jumper_follows_quote self params w r evs ->
  exists answer rest,
    evs = ECall (RequestsGet (api_url self ++ "/quote") (headers self) params)
            answer :: rest /\
    ((reply_truthy answer = false /\ r = Val PNone /\
      forallb is_log rest = true) \/
     exists quote,
       answer = Returns quote /\ truthy quote = true /\
       Forall (jumper_call_of_quote w quote) rest).
Proof.
  unfold jumper_follows_quote.
  destruct evs as [|[c answer| | |] rest]; try contradiction.
  destruct c; try contradiction.
  intros (-> & -> & -> & H). exists answer, rest. split; [reflexivity|].
  destruct (reply_truthy answer) eqn:E.
  - right. destruct answer as [|quote]; [contradiction|]. eauto.
  - left. destruct H. auto.
Qed.

(** X5: a run of the Jumper adapter starts with the quote request, a GET of
    [/quote] with the arguments of the run, and makes no other HTTP request;
    when that request raises or answers with a falsy value, the run returns
    [None] and only log records follow. *)
Theorem jumper_quote_failure_stops_run :
  forall (R : Type) (self : http_service)
         (wallet_address from_chain to_chain from_token to_token
            amount : string)
         (s s' : state) (r : outcome R pyval),
    Jumper.execute_bridge self wallet_address from_chain to_chain from_token
      to_token amount s = (r, s') ->
    exists answer rest,
      run_events s s'
      = ECall (RequestsGet (api_url self ++ "/quote") (headers self)
                 (jumper_quote_params from_chain to_chain from_token to_token
                    amount wallet_address)) answer :: rest /\
      existsb is_http rest = false /\
      (reply_truthy answer = false ->
       r = Val PNone /\ forallb is_log rest = true).
Proof.
  intros R self w f t ft tk a s s' r Hrun.
  pose proof (wp_run _ _ _ (jumper_run_follows_quote R self w f t ft tk a s)
                r s' Hrun) as H.
  apply jumper_follows_quote_inv in H.
  destruct H as (answer & rest & Hevs & H). exists answer, rest.
  split; [exact Hevs|].
  destruct H as [(Ha & Hr & Hlogs) | (quote & -> & Hq & Hall)].
  - split; [apply forallb_log_no_http, Hlogs | auto].
  - split; [|simpl; congruence].
    clear - Hall. induction Hall as [|e l He _ IH]; [reflexivity|].
    simpl. rewrite IH, orb_false_r.
    destruct e as [c ?| | |]; try reflexivity.
    destruct c; try reflexivity; contradiction.
Qed.

Lemma jumper_quote_failure_stops_run_witness :
  exists answer rest,
    run_events (fresh_state silent_env)
      (snd (Jumper.execute_bridge (R:=unit) (Jumper.new PNone) "0xW" "ETH"
              "ARB" "USDC" "USDC" "45.0" (fresh_state silent_env)))
    = ECall (RequestsGet (api_url (Jumper.new PNone) ++ "/quote")
               (headers (Jumper.new PNone))
               (jumper_quote_params "ETH" "ARB" "USDC" "USDC" "45.0" "0xW"))
        answer :: rest /\
    existsb is_http rest = false /\
    (reply_truthy answer = false ->
     fst (Jumper.execute_bridge (R:=unit) (Jumper.new PNone) "0xW" "ETH"
            "ARB" "USDC" "USDC" "45.0" (fresh_state silent_env)) = Val PNone /\
     forallb is_log rest = true).
Proof.
  exact (jumper_quote_failure_stops_run unit (Jumper.new PNone) "0xW" "ETH"
           "ARB" "USDC" "USDC" "45.0" (fresh_state silent_env) _ _
           (surjective_pairing _)).
Defined.

(** X6: whenever a run of the Jumper adapter calls [send_transaction], the
    quote request had returned a quote, and the submission is made for the
    wallet of the run, on the chain [action.fromChainId] of the quote, to the
    address and with the data of its [transactionRequest], with the value of
    that request read by [int] (base 16 after the prefix 0x, base 10
    otherwise; "0" when absent). *)
Theorem jumper_submits_quoted_transaction :
  forall (R : Type) (self : http_service)
         (wallet_address from_chain to_chain from_token to_token
            amount : string)
         (s s' : state) (r : outcome R pyval)
         (w : string) (chain_id to value data : pyval) (answer : reply),
    Jumper.execute_bridge self wallet_address from_chain to_chain from_token
      to_token amount s = (r, s') ->
    In (ECall (SendTransaction w chain_id to value data) answer)
      (run_events s s') ->
    exists quote tx_request text n,
      hd_error (run_events s s')
      = Some (ECall (RequestsGet (api_url self ++ "/quote") (headers self)
                       (jumper_quote_params from_chain to_chain from_token
                          to_token amount wallet_address))
                (Returns quote)) /\
      w = wallet_address /\
      jumper_chain_id quote = Some chain_id /\
      py_getitem quote "transactionRequest" = Some tx_request /\
      py_get tx_request "to" PNone = Some to /\
      py_get tx_request "data" PNone = Some data /\
      py_get tx_request "value" (PStr "0") = Some text /\
      parse_tx_value text = Some n /\
      value = PInt n.
Proof.
  intros R self wa f t ft tk a s s' r w c to v d ans Hrun Hin.
  pose proof (wp_run _ _ _ (jumper_run_follows_quote R self wa f t ft tk a s)
                r s' Hrun) as H.
  apply jumper_follows_quote_inv in H.
  destruct H as (answer & rest & Hevs & H). rewrite Hevs in Hin |- *.
  destruct Hin as [Hin | Hin]; [discriminate|].
  destruct H as [(_ & _ & Hlogs) | (quote & -> & Hq & Hall)].
  { apply (forallb_log_In _ _ Hlogs) in Hin. discriminate. }
  rewrite Forall_forall in Hall. specialize (Hall _ Hin).
  cbn [jumper_call_of_quote] in Hall.
  destruct Hall as (-> & Hc & txr & text & n & H1 & H2 & H3 & H4 & H5 & H6).
  exists quote, txr, text, n. cbn [hd_error]. repeat split; assumption.
Qed.

Lemma jumper_submits_quoted_transaction_witness :
  exists quote tx_request text n,
    hd_error (events_of (run_adapter (R:=unit) jumper_usdc_run)
                (fresh_state successful_env))
    = Some (ECall (RequestsGet (api_url (Jumper.new PNone) ++ "/quote")
                     (headers (Jumper.new PNone))
                     (jumper_quote_params "ETH" "ARB" "USDC" "USDC" "45.0"
                        "0xW"))
              (Returns quote)) /\
    "0xW" = "0xW" /\
    jumper_chain_id quote = Some (PStr "1") /\
    py_getitem quote "transactionRequest" = Some tx_request /\
    py_get tx_request "to" PNone = Some (PStr "0x1234") /\
    py_get tx_request "data" PNone = Some (PStr "0xabcd") /\
    py_get tx_request "value" (PStr "0") = Some text /\
    parse_tx_value text = Some n /\
    PInt 0 = PInt n.
Proof.
  apply (jumper_submits_quoted_transaction unit (Jumper.new PNone)
           "0xW" "ETH" "ARB" "USDC" "USDC" "45.0"
           (fresh_state successful_env) _ _
           "0xW" (PStr "1") (PStr "0x1234") (PInt 0) (PStr "0xabcd")
           (Returns (PStr "0xbridge")) (surjective_pairing _)).
  vm_compute. auto.
Defined.

(** The shape of a run of the Relay adapter, read off
    [relay_follows_quote]. *)
Lemma relay_follows_quote_inv {R} self body w fa (r : outcome R pyval) evs :
  relay_follows_quote self body w fa r evs ->
  exists answer rest,
    evs = ECall (RequestsPost (api_url self ++ "/quote") (headers self) body)
            answer :: rest /\
    ((reply_truthy answer = false /\ r = Val PNone /\
      forallb is_log rest = true) \/
     exists quote,
       answer = Returns quote /\ truthy quote = true /\
       Forall (relay_call_of_quote self w fa quote) rest).
Proof.
  unfold relay_follows_quote.
  destruct evs as [|[c answer| | |] rest]; try contradiction.
  destruct c; try contradiction.
  intros (-> & -> & -> & H). exists answer, rest. split; [reflexivity|].
  destruct (reply_truthy answer) eqn:E.
  - right. destruct answer as [|quote]; [contradiction|]. eauto.
  - left. destruct H. auto.
Qed.

(** X7: a run of the Relay adapter starts with the quote request, a POST to
    [/quote] with the arguments of the run and the wallet as recipient; when
    that request raises or answers with a falsy value, the run returns [None]
    and only log records follow; any later HTTP request is a POST to
    [/transactions]. *)
Theorem relay_quote_failure_stops_run :
  forall (R : Type) (self : http_service)
         (wallet_address from_chain_id to_chain_id from_token_address
            to_token_address amount : string)
         (s s' : state) (r : outcome R pyval),
    Relay.execute_bridge self wallet_address from_chain_id to_chain_id
      from_token_address to_token_address amount s = (r, s') ->
    exists answer rest,
      run_events s s'
      = ECall (RequestsPost (api_url self ++ "/quote") (headers self)
                 (relay_quote_body from_chain_id to_chain_id
                    from_token_address to_token_address amount
                    wallet_address)) answer :: rest /\
      (reply_truthy answer = false ->
       r = Val PNone /\ forallb is_log rest = true) /\
      (forall e, In e rest -> is_http e = true ->
                 exists body notification,
                   e = ECall (RequestsPost (api_url self ++ "/transactions")
                                (headers self) body) notification).
Proof.
  intros R self w f t fa ta a s s' r Hrun.
  pose proof (wp_run _ _ _ (relay_run_follows_quote R self w f t fa ta a s)
                r s' Hrun) as H.
  apply relay_follows_quote_inv in H.
  destruct H as (answer & rest & Hevs & H). exists answer, rest.
  split; [exact Hevs|].
  destruct H as [(Ha & Hr & Hlogs) | (quote & -> & Hq & Hall)].
  - split; [auto|]. intros e Hin He.
    apply (forallb_log_In _ _ Hlogs) in Hin.
    destruct e; discriminate.
  - split; [simpl; congruence|]. intros e Hin He.
    rewrite Forall_forall in Hall. specialize (Hall _ Hin).
    destruct e as [c ans| | |]; try discriminate.
    destruct c; try discriminate; cbn [relay_call_of_quote] in Hall;
      try contradiction.
    destruct Hall as [-> ->]. eauto.
Qed.

Lemma relay_quote_failure_stops_run_witness :
  exists answer rest,
    run_events (fresh_state silent_env)
      (snd (Relay.execute_bridge (R:=unit) (Relay.new PNone) "0xW" "1"
              "42161" "0xUSDC" "0xUSDC" "45.0" (fresh_state silent_env)))
    = ECall (RequestsPost (api_url (Relay.new PNone) ++ "/quote")
               (headers (Relay.new PNone))
               (relay_quote_body "1" "42161" "0xUSDC" "0xUSDC" "45.0" "0xW"))
        answer :: rest /\
    (reply_truthy answer = false ->
     fst (Relay.execute_bridge (R:=unit) (Relay.new PNone) "0xW" "1"
            "42161" "0xUSDC" "0xUSDC" "45.0" (fresh_state silent_env))
     = Val PNone /\
     forallb is_log rest = true) /\
    (forall e, In e rest -> is_http e = true ->
               exists body notification,
                 e = ECall (RequestsPost
                              (api_url (Relay.new PNone) ++ "/transactions")
                              (headers (Relay.new PNone)) body) notification).
Proof.
  exact (relay_quote_failure_stops_run unit (Relay.new PNone) "0xW" "1"
           "42161" "0xUSDC" "0xUSDC" "45.0" (fresh_state silent_env) _ _
           (surjective_pairing _)).
Defined.

(** X8: whenever a run of the Relay adapter calls [send_transaction], the
    quote request had returned a quote, and the submission is made for the
    wallet of the run, on the chain [fromChainId] of the quote, to the address
    and with the data of its [tx], with the value of [tx] read by [int]. *)
Theorem relay_submits_quoted_transaction :
  forall (R : Type) (self : http_service)
         (wallet_address from_chain_id to_chain_id from_token_address
            to_token_address amount : string)
         (s s' : state) (r : outcome R pyval)
         (w : string) (chain_id to value data : pyval) (answer : reply),
    Relay.execute_bridge self wallet_address from_chain_id to_chain_id
      from_token_address to_token_address amount s = (r, s') ->
    In (ECall (SendTransaction w chain_id to value data) answer)
      (run_events s s') ->
    exists quote tx text n,
      hd_error (run_events s s')
      = Some (ECall (RequestsPost (api_url self ++ "/quote") (headers self)
                       (relay_quote_body from_chain_id to_chain_id
                          from_token_address to_token_address amount
                          wallet_address))
                (Returns quote)) /\
      w = wallet_address /\
      py_get quote "fromChainId" PNone = Some chain_id /\
      py_getitem quote "tx" = Some tx /\
      py_get tx "to" PNone = Some to /\
      py_get tx "data" PNone = Some data /\
      py_get tx "value" (PStr "0") = Some text /\
      parse_tx_value text = Some n /\
      value = PInt n.
Proof.
  intros R self wa f t fa ta a s s' r w c to v d ans Hrun Hin.
  pose proof (wp_run _ _ _ (relay_run_follows_quote R self wa f t fa ta a s)
                r s' Hrun) as H.
  apply relay_follows_quote_inv in H.
  destruct H as (answer & rest & Hevs & H). rewrite Hevs in Hin |- *.
  destruct Hin as [Hin | Hin]; [discriminate|].
  destruct H as [(_ & _ & Hlogs) | (quote & -> & Hq & Hall)].
  { apply (forallb_log_In _ _ Hlogs) in Hin. discriminate. }
  rewrite Forall_forall in Hall. specialize (Hall _ Hin).
  cbn [relay_call_of_quote] in Hall.
  destruct Hall as (-> & Hc & tx & text & n & H1 & H2 & H3 & H4 & H5 & H6).
  exists quote, tx, text, n. cbn [hd_error]. repeat split; assumption.
Qed.

Lemma relay_submits_quoted_transaction_witness :
  exists quote tx text n,
    hd_error (events_of (run_adapter (R:=unit) relay_usdc_run)
                (fresh_state failing_notification_env))
    = Some (ECall (RequestsPost (api_url (Relay.new PNone) ++ "/quote")
                     (headers (Relay.new PNone))
                     (relay_quote_body "1" "42161" "0xUSDC" "0xUSDC" "45.0"
                        "0xW"))
              (Returns quote)) /\
    "0xW" = "0xW" /\
    py_get quote "fromChainId" PNone = Some (PInt 1) /\
    py_getitem quote "tx" = Some tx /\
    py_get tx "to" PNone = Some (PStr "0x1234") /\
    py_get tx "data" PNone = Some (PStr "0xabcd") /\
    py_get tx "value" (PStr "0") = Some text /\
    parse_tx_value text = Some n /\
    PInt 0 = PInt n.
Proof.
  apply (relay_submits_quoted_transaction unit (Relay.new PNone)
           "0xW" "1" "42161" "0xUSDC" "0xUSDC" "45.0"
           (fresh_state failing_notification_env) _ _
           "0xW" (PInt 1) (PStr "0x1234") (PInt 0) (PStr "0xabcd")
           (Returns (PStr "0xbridge")) (surjective_pairing _)).
  vm_compute. auto.
Defined.

(** X9: whenever a run of the Relay adapter calls the approval, it does so
    for the wallet of the run, on the chain [fromChainId] of the quote, for
    the source token address given as argument, for the spender
    [approvalData.spender], and with the amount read from
    [approvalData.amount]. *)
Theorem relay_approval_follows_quote :
  forall (R : Type) (self : http_service)
         (wallet_address from_chain_id to_chain_id from_token_address
            to_token_address amount : string)
         (s s' : state) (r : outcome R pyval)
         (w : string) (chain_id token spender approved : pyval)
         (answer : reply),
    Relay.execute_bridge self wallet_address from_chain_id to_chain_id
      from_token_address to_token_address amount s = (r, s') ->
    In (ECall (ApproveTokenForBridge w chain_id token spender approved)
          answer) (run_events s s') ->
    exists quote approval_data n,
      hd_error (run_events s s')
      = Some (ECall (RequestsPost (api_url self ++ "/quote") (headers self)
                       (relay_quote_body from_chain_id to_chain_id
                          from_token_address to_token_address amount
                          wallet_address))
                (Returns quote)) /\
      w = wallet_address /\
      py_get quote "fromChainId" PNone = Some chain_id /\
      token = PStr from_token_address /\
      py_getitem quote "approvalData" = Some approval_data /\
      py_get approval_data "spender" PNone = Some spender /\
      Relay.parse_approval_amount approval_data = Some n /\
      approved = PInt n.
Proof.
  intros R self wa f t fa ta a s s' r w c tok sp am ans Hrun Hin.
  pose proof (wp_run _ _ _ (relay_run_follows_quote R self wa f t fa ta a s)
                r s' Hrun) as H.
  apply relay_follows_quote_inv in H.
  destruct H as (answer & rest & Hevs & H). rewrite Hevs in Hin |- *.
  destruct Hin as [Hin | Hin]; [discriminate|].
  destruct H as [(_ & _ & Hlogs) | (quote & -> & Hq & Hall)].
  { apply (forallb_log_In _ _ Hlogs) in Hin. discriminate. }
  rewrite Forall_forall in Hall. specialize (Hall _ Hin).
  cbn [relay_call_of_quote] in Hall.
  destruct Hall as (-> & Hc & -> & ad & n & H1 & H2 & H3 & H4).
  exists quote, ad, n. cbn [hd_error]. repeat split; assumption.
Qed.

Lemma relay_approval_follows_quote_witness :
  exists quote approval_data n,
    hd_error (events_of (run_adapter (R:=unit) relay_usdc_run)
                (fresh_state relay_approval_env))
    = Some (ECall (RequestsPost (api_url (Relay.new PNone) ++ "/quote")
                     (headers (Relay.new PNone))
                     (relay_quote_body "1" "42161" "0xUSDC" "0xUSDC" "45.0"
                        "0xW"))
              (Returns quote)) /\
    "0xW" = "0xW" /\
    py_get quote "fromChainId" PNone = Some (PInt 1) /\
    PStr "0xUSDC" = PStr "0xUSDC" /\
    py_getitem quote "approvalData" = Some approval_data /\
    py_get approval_data "spender" PNone = Some (PStr "0xS") /\
    Relay.parse_approval_amount approval_data = Some n /\
    PInt 100 = PInt n.
Proof.
  apply (relay_approval_follows_quote unit (Relay.new PNone)
           "0xW" "1" "42161" "0xUSDC" "0xUSDC" "45.0"
           (fresh_state relay_approval_env) _ _
           "0xW" (PInt 1) (PStr "0xUSDC") (PStr "0xS") (PInt 100)
           (Returns (PStr "0xapproval")) (surjective_pairing _)).
  vm_compute. auto.
Defined.

(** ** The calls of a Stargate run follow the tables *)

Ltac stargate_conditions :=
  repeat match goal with
         | H : negb _ = true |- _ => apply negb_true_iff in H
         | H : negb _ = false |- _ => apply negb_false_iff in H
         | H : _ && _ = true |- _ => apply andb_true_iff in H; destruct H
         | H : _ || _ = false |- _ => apply orb_false_iff in H; destruct H
         end;
  repeat match goal with
         | H : String.eqb ?k "ETH" = _, H' : context [String.eqb ?k "ETH"]
           |- _ => rewrite H in H'
         | H : Stargate.has_key ?l ?k = _,
           H' : context [Stargate.has_key ?l ?k] |- _ => rewrite H in H'
         end;
  try discriminate.

Ltac in_events := cbn [In]; repeat (first [left; reflexivity | right]).

Ltac adjacent_events :=
  cbn [follows_directly];
  repeat (first [left; split; reflexivity | right]).

Ltac solve_stargate_submission :=
  split; [reflexivity|]; split; [reflexivity|];
  split; [eexists; split; [|reflexivity]; assumption|];
  repeat match goal with
         | p : (pyval * pyval)%type |- _ => destruct p
         end;
  cbn [fst snd] in *;
  do 9 eexists;
  split; [first [ solve [in_events]
                | eexists; split; [eassumption | reflexivity] ]|];
  split; [eassumption|]; split; [eassumption|];
  do 3 (split; [assumption|]);
  split; [solve [in_events]|];
  do 2 (split; [solve [adjacent_events]|]);
  split; [eassumption|]; first [eassumption | reflexivity].

Lemma stargate_run_follows_tables R self w f t k a ta s :
  wp (Stargate.execute_bridge (R:=R) self w f t k a ta) s
     (fun r s' =>
        stargate_follows_tables self w f t k a ta r (run_events s s')).
Proof.
  apply wp_start. wp_run.
  all: rewrite ?run_events_st; cbn [rev app].
  all: stargate_conditions.
  all: unfold stargate_follows_tables; split; [|split];
    [ repeat (apply Forall_cons;
              [cbn [stargate_call_of_tables]; try exact I|]);
      try apply Forall_nil
    | intros Hk; first [split; reflexivity | congruence]
    | intros Hk Hint; first [congruence | split; reflexivity] ].
  all: try reflexivity.
  all: unfold stargate_amount_wei;
       repeat match goal with
              | H : String.eqb _ "ETH" = _ |- _ => rewrite H
              end.
  all: try solve
         [ repeat (split; [first [reflexivity | assumption]|]);
           first [ solve [in_events]
                 | split; eexists; (split; [|reflexivity]); assumption ] ].
  all: solve_stargate_submission.
Qed.


Lemma follows_directly_In e1 e2 evs :
  follows_directly e1 e2 evs -> In e1 evs /\ In e2 evs.
Proof.
  induction evs as [|x evs IH]; [contradiction|].
  destruct evs as [|y evs]; [contradiction|].
  intros [[-> ->] | H].
  - split; [left; reflexivity | right; left; reflexivity].
  - destruct (IH H) as [H1 H2]. split; right; assumption.
Qed.



(** In the scenario the amount is 10^18 wei: the product with [0.97] is
    rounded to a float that is an integer, the minimum amount. *)
Example stargate_min_amount_of_one_ether :
  exists scaled,
    py_mul_float (PInt (10 ^ 18)) float_0_97 = Some scaled /\
    py_int scaled = Some 970000000000000000.
Proof. eexists. split; vm_compute; reflexivity. Qed.

(** An integer too large for a float cannot be scaled: the product
    raises. *)
Example stargate_min_amount_overflow :
  py_mul_float (PInt (2 ^ 1024)) float_0_97 = None.
Proof. vm_compute. reflexivity. Qed.

(** X13: whenever a run of the Stargate adapter calls the approval, the token
    is not ETH and the token address is truthy, and the approval is made for
    the wallet of the run, on the source chain, for that token address, for
    the router of the source chain as spender, with [int(amount)] as
    amount. *)
Theorem stargate_approval_follows_tables :
  forall (R : Type) (self : Stargate.service)
         (wallet_address from_chain to_chain token_symbol amount : string)
         (token_address : pyval)
         (s s' : state) (r : outcome R pyval)
         (w : string) (chain_id token spender approved : pyval)
         (answer : reply),
    Stargate.execute_bridge self wallet_address from_chain to_chain
      token_symbol amount token_address s = (r, s') ->
    In (ECall (ApproveTokenForBridge w chain_id token spender approved)
          answer) (run_events s s') ->
    exists router n,
      w = wallet_address /\ chain_id = PStr from_chain /\
      token = token_address /\
      token_symbol <> "ETH" /\ truthy token_address = true /\
      Stargate.router_of from_chain = Some router /\
      spender = PStr router /\
      py_int_of_string 10 amount = Some n /\
      approved = PInt n.
Proof.
  intros R self wa f t k a ta s s' r w c tok sp am ans Hrun Hin.
  pose proof (wp_run _ _ _ (stargate_run_follows_tables R self wa f t k a ta s)
                r s' Hrun) as (Hall & _).
  rewrite Forall_forall in Hall. specialize (Hall _ Hin).
  cbn [stargate_call_of_tables] in Hall.
  destruct Hall as (-> & -> & -> & Hk & Hta & (router & Hr & ->) & Ha).
  unfold stargate_amount_wei in Ha. rewrite Hk in Ha.
  destruct Ha as (n & Hn & ->).
  exists router, n. repeat (split; [first [reflexivity | assumption]|]).
  split; [|auto].
  intros ->. discriminate.
Qed.

Lemma stargate_approval_follows_tables_witness :
  exists router n,
    "0xW" = "0xW" /\ PStr "ethereum" = PStr "ethereum" /\
    PStr "0xUSDC" = PStr "0xUSDC" /\
    "USDC" <> "ETH" /\ truthy (PStr "0xUSDC") = true /\
    Stargate.router_of "ethereum" = Some router /\
    PStr "0x8731d54E9D02c286767d56ac03e8037C07e01e98" = PStr router /\
    py_int_of_string 10 "1000000" = Some n /\
    PInt 1000000 = PInt n.
Proof.
  apply (stargate_approval_follows_tables unit stargate_two_chains
           "0xW" "ethereum" "arbitrum" "USDC" "1000000" (PStr "0xUSDC")
           (fresh_state stargate_env) _ _
           "0xW" (PStr "ethereum") (PStr "0xUSDC")
           (PStr "0x8731d54E9D02c286767d56ac03e8037C07e01e98")
           (PInt 1000000) (Returns (PStr "0xapproval"))
           (surjective_pairing _)).
  vm_compute. auto 10.
Defined.

(** ** [int()] rejects text that is not an integer literal *)

Lemma lstrip_In c cs :
  In c cs -> is_py_space c = false -> In c (lstrip cs).
Proof.
  induction cs as [|x cs IH]; simpl; [auto|].
  intros [-> | Hin] Hc.
  - rewrite Hc. left. reflexivity.
  - destruct (is_py_space x); [auto | right; exact Hin].
Qed.

Lemma strip_In c cs :
  In c cs -> is_py_space c = false -> In c (strip cs).
Proof.
  intros Hin Hc. unfold strip.
  apply in_rev. rewrite rev_involutive.
  apply lstrip_In; [|exact Hc].
  apply -> in_rev. apply lstrip_In; assumption.
Qed.

Lemma parse_digits_rejects c cs :
  In c cs -> Ascii.eqb c "_" = false ->
  match digit_value c with Some d => d <? 10 | None => false end = false ->
  forall acc after_digit, parse_digits 10 acc after_digit cs = None.
Proof.
  intros Hin Hu Hd. induction cs as [|x cs IH]; [contradiction|].
  intros acc b. simpl. destruct Hin as [-> | Hin].
  - rewrite Hu. destruct (digit_value c) as [d|]; [|reflexivity].
    rewrite Hd. reflexivity.
  - destruct (Ascii.eqb x "_").
    + destruct b; [apply IH, Hin | reflexivity].
    + destruct (digit_value x) as [d|]; [|reflexivity].
      destruct (d <? 10); [apply IH, Hin | reflexivity].
Qed.

Lemma py_int_of_string_rejects (s : string) (c : ascii) :
  In c (list_ascii_of_string s) -> int_literal_char c = false ->
  py_int_of_string 10 s = None.
Proof.
  unfold int_literal_char. rewrite !orb_false_iff.
  intros Hin ((((Hsp & Hu) & Hplus) & Hminus) & Hd).
  unfold py_int_of_string. change (10 =? 16) with false. cbv iota.
  apply (strip_In _ _ Hin) in Hsp.
  assert (Hin' : In c (snd (split_sign (strip (list_ascii_of_string s))))).
  { destruct (strip (list_ascii_of_string s)) as [|x cs]; [contradiction|].
    unfold split_sign.
    destruct (Ascii.eqb_spec x "+") as [->|_].
    - destruct Hsp as [<- | H]; [discriminate Hplus | exact H].
    - destruct (Ascii.eqb_spec x "-") as [->|_].
      + destruct Hsp as [<- | H]; [discriminate Hminus | exact H].
      + exact Hsp. }
  rewrite (parse_digits_rejects _ _ Hin' Hu Hd). reflexivity.
Qed.

(** X10: when the source chain has no router contract in the service, a run of
    the Stargate adapter returns [None] and does nothing but log one error
    record. *)
Theorem stargate_unsupported_source_chain :
  forall (R : Type) (self : Stargate.service)
         (wallet_address from_chain to_chain token_symbol amount : string)
         (token_address : pyval) (s s' : state) (r : outcome R pyval),
    Stargate.execute_bridge self wallet_address from_chain to_chain
      token_symbol amount token_address s = (r, s') ->
    Stargate.has_key (Stargate.router_contracts self) from_chain = false ->
    r = Val PNone /\
    run_events s s'
    = [ELog ERROR ("Chaîne source non supportée par Stargate: "
                   ++ from_chain)].
Proof.
  intros R self wa f t k a ta s s' r Hrun Hkey.
  pose proof (wp_run _ _ _ (stargate_run_follows_tables R self wa f t k a ta s)
                r s' Hrun) as (_ & H & _).
  exact (H Hkey).
Qed.

Lemma stargate_unsupported_source_chain_witness :
  fst (Stargate.execute_bridge (R:=unit) (stargate_service aggregator) "0xW"
         "ethereum" "arbitrum" "USDC" "1000000" (PStr "0xUSDC")
         (fresh_state stargate_env)) = Val PNone /\
  run_events (fresh_state stargate_env)
    (snd (Stargate.execute_bridge (R:=unit) (stargate_service aggregator)
            "0xW" "ethereum" "arbitrum" "USDC" "1000000" (PStr "0xUSDC")
            (fresh_state stargate_env)))
  = [ELog ERROR ("Chaîne source non supportée par Stargate: " ++ "ethereum")].
Proof.
  apply (stargate_unsupported_source_chain unit (stargate_service aggregator)
           "0xW" "ethereum" "arbitrum" "USDC" "1000000" (PStr "0xUSDC")
           (fresh_state stargate_env) _ _ (surjective_pairing _)).
  reflexivity.
Defined.

Lemma stargate_non_integer_amount R self w f t k a ta s (c : ascii) :
  k <> "ETH" ->
  In c (list_ascii_of_string a) -> int_literal_char c = false ->
  fst (Stargate.execute_bridge (R:=R) self w f t k a ta s) = Val PNone /\
  existsb is_call
    (run_events s (snd (Stargate.execute_bridge (R:=R) self w f t k a ta s)))
  = false.
Proof.
  intros Hk Hin Hc.
  destruct (stargate_run_follows_tables R self w f t k a ta s) as (_ & _ & H).
  apply H.
  - apply String.eqb_neq, Hk.
  - eapply py_int_of_string_rejects; eassumption.
Qed.

(** X11: for a token other than ETH, when the amount string holds a character
    that no integer literal has (a decimal point, for one), a run of the
    Stargate adapter returns [None] without making any call. *)
Theorem stargate_rejects_non_integer_amount :
  forall (R : Type) (self : Stargate.service)
         (wallet_address from_chain to_chain token_symbol amount : string)
         (token_address : pyval) (s s' : state) (r : outcome R pyval)
         (c : ascii),
    Stargate.execute_bridge self wallet_address from_chain to_chain
      token_symbol amount token_address s = (r, s') ->
    token_symbol <> "ETH" ->
    In c (list_ascii_of_string amount) -> int_literal_char c = false ->
    r = Val PNone /\ existsb is_call (run_events s s') = false.
Proof.
  intros R self wa f t k a ta s s' r c Hrun Hk Hin Hc.
  pose proof (stargate_non_integer_amount R self wa f t k a ta s c Hk Hin Hc)
    as H.
  rewrite Hrun in H. exact H.
Qed.

Lemma stargate_rejects_non_integer_amount_witness :
  fst (Stargate.execute_bridge (R:=unit) stargate_two_chains "0xW"
         "ethereum" "arbitrum" "USDC" "10.0" (PStr "0xUSDC")
         (fresh_state stargate_env)) = Val PNone /\
  existsb is_call
    (run_events (fresh_state stargate_env)
       (snd (Stargate.execute_bridge (R:=unit) stargate_two_chains "0xW"
               "ethereum" "arbitrum" "USDC" "10.0" (PStr "0xUSDC")
               (fresh_state stargate_env)))) = false.
Proof.
  apply (stargate_rejects_non_integer_amount unit stargate_two_chains
           "0xW" "ethereum" "arbitrum" "USDC" "10.0" (PStr "0xUSDC")
           (fresh_state stargate_env) _ _ "."%char (surjective_pairing _)).
  - discriminate.
  - simpl. auto.
  - reflexivity.
Defined.

Lemma mem_get {V} (d : dict V) k :
  Dict.mem d k = true <-> exists v, Dict.get d k = Some v.
Proof.
  unfold Dict.mem. destruct (Dict.get d k); split; eauto; try discriminate.
  intros (v & H). discriminate.
Qed.

(** X14: [select_random_service] lists Stargate for a route exactly when the
    lookups of the Stargate adapter succeed on it: the chain identifiers of
    both chains, the pool identifiers of the token on both chains and the
    router of the source chain are all defined. *)
Theorem stargate_route_lookups_agree :
  forall from_chain to_chain token_symbol : string,
    stargate_declares_route from_chain to_chain token_symbol = true <->
    exists src dst src_pool dst_pool router,
      Stargate.get_chain_id from_chain = Some src /\
      Stargate.get_chain_id to_chain = Some dst /\
      Stargate.get_pool_id token_symbol from_chain = Some src_pool /\
      Stargate.get_pool_id token_symbol to_chain = Some dst_pool /\
      Stargate.router_of from_chain = Some router.
Proof.
  intros f t k.
  unfold stargate_declares_route, Stargate.get_chain_id, Stargate.get_pool_id,
    Stargate.router_of.
  rewrite !andb_true_iff, !mem_get. split.
  - intros [[(cf & Hf) (ct & Ht)] Hp].
    destruct (Dict.get STARGATE_POOLS k) as [pools|]; [|discriminate].
    rewrite andb_true_iff, !mem_get in Hp.
    destruct Hp as [(sp & Hsp) (dp & Hdp)].
    rewrite Hf, Ht. exists (sg_id cf), (sg_id ct), sp, dp, (sg_router cf).
    auto.
  - intros (src & dst & sp & dp & router & Hf & Ht & Hsp & Hdp & _).
    destruct (Dict.get STARGATE_CHAINS f) as [cf|]; [|discriminate].
    destruct (Dict.get STARGATE_CHAINS t) as [ct|]; [|discriminate].
    destruct (Dict.get STARGATE_POOLS k) as [pools|]; [|discriminate].
    rewrite andb_true_iff, !mem_get. eauto 10.
Qed.

(** X15: when [execute_random_bridge] selects a token other than ETH and the
    Stargate service, and the text [str(amount)] that it passes on holds a
    character that no integer literal has (as the decimal point of the text
    of a float), the call returns [None] and leaves the history
    unchanged. *)
Theorem execute_random_bridge_stargate_token_fails :
  forall (R : Type) (self : BridgeAggregator) (wallet_address : string)
         (s : state) (b : dict (dict float))
         (from_chain to_chain token_symbol token_address : string)
         (amount : float) (s2 s3 : state) (c : ascii),
    balances (env s) (trace s) wallet_address = Some b -> b <> [] ->
    select_random_transaction (R:=pyval) wallet_address (Dict.keys b)
      (build_available_tokens b) (after_balances wallet_address b s)
    = (Val (Some (from_chain, to_chain, token_symbol, token_address, amount)),
       s2) ->
    select_random_service (R:=pyval) from_chain to_chain token_symbol s2
    = (Val "stargate", s3) ->
    token_symbol <> "ETH" ->
    In c (list_ascii_of_string (float_str (env s3) amount)) ->
    int_literal_char c = false ->
    fst (execute_random_bridge (R:=R) self wallet_address s) = Val PNone /\
    transaction_history (snd (execute_random_bridge (R:=R) self
                                wallet_address s))
    = transaction_history s.
Proof.
  intros R self w s b f t k addr amt s2 s3 c Hb Hne Hsel Hsrv Hk Hin Hc.
  assert (Hnone : fst (execute_random_bridge (R:=R) self w s) = Val PNone).
  { eapply (stage_provider R self w s b f t k addr amt s2 "stargate" s3);
      try eassumption; [reflexivity|].
    cbn [run_adapter].
    eapply stargate_non_integer_amount; eassumption. }
  split; [exact Hnone|].
  pose proof (execute_random_bridge_history R self w s) as H. unfold wp in H.
  destruct H as [[_ H] | (d & name & Hr & _)]; [exact H|].
  rewrite Hnone in Hr. discriminate.
Qed.

Lemma execute_random_bridge_stargate_token_fails_witness :
  fst (execute_random_bridge (R:=unit) stargate_aggregator "0xW"
         stargate_usdc_state) = Val PNone /\
  transaction_history
    (snd (execute_random_bridge (R:=unit) stargate_aggregator "0xW"
            stargate_usdc_state))
  = transaction_history stargate_usdc_state.
Proof.
  eapply (execute_random_bridge_stargate_token_fails unit stargate_aggregator
            "0xW" stargate_usdc_state _ "ethereum" "arbitrum" "USDC" "0x..."
            _ _ _ "."%char).
  - reflexivity.
  - discriminate.
  - vm_compute. reflexivity.
  - vm_compute. reflexivity.
  - discriminate.
  - simpl. auto.
  - reflexivity.
Defined.

(** ** The read-only queries *)

Lemma wp_http_get {R} (c : call) (msg : string) s revs
  (Q : outcome R pyval -> state -> Prop) :
  (forall answer : reply,
      match answer with
      | Returns v => Q (Val v) (st s (ECall c answer :: revs))
      | Raises => Q (Val PNone) (st s (ELog ERROR msg :: ECall c Raises :: revs))
      end) ->
  wp (def_ (try_except
              (response_json <- external c ;; return_ response_json)
              (log ERROR msg ;; return_ PNone)))
     (st s revs) Q.
Proof.
  intros H.
  refine (wp_def _ _ _ _). refine (wp_try_except _ _ _ _ _).
  refine (wp_bind _ _ _ _ _). refine (wp_external _ _ _ _ _).
  intros [|v].
  - refine (wp_bind _ _ _ _ _). refine (wp_log _ _ _ _ _ _).
    refine (wp_return _ _ _ _). exact (H Raises).
  - refine (wp_return _ _ _ _). exact (H (Returns v)).
Qed.

Lemma run_query_outcome R self q s :
  wp (run_query (R:=R) self q) s
     (fun r s' => query_outcome self q r (run_events s s') /\
                  only_trace_added s s').
Proof.
  apply wp_start.
  destruct q; cbn [run_query];
    unfold Jumper.get_status, Jumper.get_chains, Jumper.get_tokens,
      Jumper.get_connections, Relay.get_chains, Relay.get_token_price,
      Relay.get_execution_status; cbv zeta.
  all: try (destruct (truthy chain_id) eqn:E1).
  all: try (destruct (truthy from_chain) eqn:E1, (truthy to_chain) eqn:E2).
  all: apply wp_http_get; intros [|v];
    (split; [|eexists; reflexivity]);
    rewrite run_events_st; cbn [rev app];
    [ exists Raises | exists (Returns v) ];
    unfold query_request; cbn [endpoint query_params]; unfold optional;
    rewrite ?E1, ?E2; cbn [app];
    (split; [reflexivity|]); first [reflexivity | eexists; reflexivity].
Qed.

(** ** [get_supported_chains] *)

Ltac wp_relay_chains :=
  lazymatch goal with
  | |- wp (Relay.get_chains _) _ _ =>
      unfold Relay.get_chains; cbv zeta; apply wp_http_get;
      let ra := fresh "ra" in
      intros ra; destruct ra as [|?rv]; lazy head beta iota;
      wp_run
  | |- _ => idtac
  end.

Ltac use_lookups :=
  unfold chain_list, chain_key, chain_id_text;
  repeat match goal with
         | E : truthy _ = _ |- _ => rewrite E
         | E : py_iter _ = _ |- _ => rewrite E
         | E : traverse _ _ = _ |- _ => rewrite E
         end.

Ltac solve_relay_chains :=
  unfold relay_chains_listed;
  lazymatch goal with
  | |- context [ECall (RequestsGet (api_url (relay_service _) ++ _) _ _) ?a] =>
      exists a
  end;
  (split; [reflexivity|]); cbn [reply_value]; use_lookups;
  reflexivity.

Ltac impossible_truth :=
  try match goal with
      | H : truthy PNone = true |- _ => discriminate H
      end.

Lemma get_supported_chains_run R str self s :
  wp (get_supported_chains (R:=R) str self) s
     (fun r s' => supported_chains_outcome str self r (run_events s s')).
Proof.
  apply wp_start. unfold get_supported_chains. cbv zeta.
  refine (wp_def _ _ _ _). refine (wp_bind _ _ _ _ _).
  unfold Jumper.get_chains; cbv zeta. apply wp_http_get.
  intros ja; destruct ja as [|jv]; lazy head beta iota.
  - refine (wp_bind _ _ _ _ _); wp_run. all: impossible_truth.
    wp_relay_chains. all: impossible_truth.
    all: rewrite ?run_events_st; cbn [rev app].
    all: unfold supported_chains_outcome; exists Raises;
         cbn [reply_value truthy].
    all: solve_relay_chains.
  - refine (wp_bind _ _ _ _ _); wp_run. all: wp_relay_chains.
    all: impossible_truth.
    all: rewrite ?run_events_st; cbn [rev app].
    all: unfold supported_chains_outcome; exists (Returns jv);
         cbn [reply_value]; use_lookups.
    all: try solve [split; reflexivity].
    all: solve_relay_chains.
Qed.

(** X16: each read-only query of the Jumper and Relay adapters ([get_status],
    [get_chains], [get_tokens], [get_connections], [get_token_price],
    [get_execution_status]) makes exactly one GET request, to its endpoint and
    with its parameters, an optional argument being sent when it is truthy;
    it returns the reply, or [None] after one error record when the request
    fails; it never raises and leaves the generator and the history
    untouched. *)
Theorem http_query_outcome :
  forall (R : Type) (self : http_service) (q : query) (s : state),
    let r := fst (run_query (R:=R) self q s) in
    let s' := snd (run_query (R:=R) self q s) in
    let request :=
      RequestsGet (api_url self ++ endpoint q) (headers self)
        (query_params q) in
    (exists answer,
        match answer with
        | Returns v =>
            r = Val v /\ run_events s s' = [ECall request answer]
        | Raises =>
            r = Val PNone /\
            exists msg,
              run_events s s' = [ECall request answer; ELog ERROR msg]
        end) /\
    rng s' = rng s /\ transaction_history s' = transaction_history s.
Proof.
  intros R self q s r s' request.
  destruct (run_query_outcome R self q s) as [(answer & H) (revs & Hs)].
  fold s' in H, Hs. fold r in H. split.
  - exists answer. exact H.
  - rewrite Hs. split; reflexivity.
Qed.

Lemma chain_list_object f entries :
  (forall s, f (PStr s) = None) -> entries <> [] ->
  chain_list f (PDict entries) = None.
Proof.
  intros Hf Hne. destruct entries as [|[k v] entries]; [congruence|].
  unfold chain_list. simpl. rewrite Hf. reflexivity.
Qed.

Lemma relay_chains_listed_requests {R} str self ja listed
  (r : outcome R (dict (list pyval))) evs :
  relay_chains_listed str self ja listed r evs ->
  exists ra,
    filter is_http evs
    = [ query_request (jumper_service self) JumperChains ja;
        query_request (relay_service self) RelayChains ra ].
Proof. intros (ra & H & _). eauto. Qed.

(** X17: whenever [get_supported_chains] returns, it has asked Jumper and
    then Relay for their chains, once each; its result lists for [stargate]
    the chains of [STARGATE_CHAINS] in order, for [jumper] the [key] of every
    chain of a truthy reply, for [relay] the text of the [id] of every chain
    of a truthy reply, and has no other key; a provider whose request failed
    or answered with a falsy value is left out. *)
Theorem get_supported_chains_lists_stargate :
  forall (R : Type) (str : pyval -> string) (self : BridgeAggregator)
         (s s' : state) (d : dict (list pyval)),
    get_supported_chains (R:=R) str self s = (Val d, s') ->
    Dict.get d "stargate" = Some (map PStr (Dict.keys STARGATE_CHAINS)) /\
    exists jumper_answer relay_answer,
      filter is_http (run_events s s')
      = [ query_request (jumper_service self) JumperChains jumper_answer;
          query_request (relay_service self) RelayChains relay_answer ] /\
      Dict.get d "jumper"
      = (if truthy (reply_value jumper_answer)
         then chain_list chain_key (reply_value jumper_answer)
         else None) /\
      Dict.get d "relay"
      = (if truthy (reply_value relay_answer)
         then chain_list (chain_id_text str) (reply_value relay_answer)
         else None) /\
      forall k, Dict.mem d k = true -> In k ["jumper"; "stargate"; "relay"].
Proof.
  intros R str self s s' d Hrun.
  pose proof (wp_run _ _ _ (get_supported_chains_run R str self s) _ _ Hrun)
    as (ja & H).
  assert (Hrelay : forall listed,
             relay_chains_listed str self ja listed
               (Val d : outcome R (dict (list pyval))) (run_events s s') ->
             exists ra,
               filter is_http (run_events s s')
               = [ query_request (jumper_service self) JumperChains ja;
                   query_request (relay_service self) RelayChains ra ] /\
               ((truthy (reply_value ra) = true /\
                 exists ids,
                   chain_list (chain_id_text str) (reply_value ra) = Some ids /\
                   d = (listed ++ [ ("stargate", stargate_chain_names);
                                    ("relay", ids) ])%list) \/
                (truthy (reply_value ra) = false /\
                 d = (listed ++ [ ("stargate", stargate_chain_names) ])%list))).
  { intros listed (ra & Hev & Hr). exists ra. split; [exact Hev|].
    destruct (truthy (reply_value ra)) eqn:Ht.
    - left. split; [reflexivity|].
      destruct (chain_list (chain_id_text str) (reply_value ra)) as [ids|]
        eqn:Hc; [|discriminate].
      injection Hr as Hd. subst d. eauto.
    - right. injection Hr as Hd. subst d. auto. }
  destruct (truthy (reply_value ja)) eqn:Hj.
  - destruct (chain_list chain_key (reply_value ja)) as [keys|] eqn:Hk;
      [|destruct H; discriminate].
    destruct (Hrelay _ H) as (ra & Hev & [(Hra & ids & Hids & ->) | (Hra & ->)]).
    + split; [reflexivity|]. exists ja, ra. rewrite Hj, Hk, Hra, Hids.
      repeat (split; [first [reflexivity | assumption]|]).
      intros k Hmem. apply mem_keys in Hmem. simpl in Hmem. simpl. tauto.
    + split; [reflexivity|]. exists ja, ra. rewrite Hj, Hk, Hra.
      repeat (split; [first [reflexivity | assumption]|]).
      intros k Hmem. apply mem_keys in Hmem. simpl in Hmem. simpl. tauto.
  - destruct (Hrelay _ H) as (ra & Hev & [(Hra & ids & Hids & ->) | (Hra & ->)]).
    + split; [reflexivity|]. exists ja, ra. rewrite Hj, Hra, Hids.
      repeat (split; [first [reflexivity | assumption]|]).
      intros k Hmem. apply mem_keys in Hmem. simpl in Hmem. simpl. tauto.
    + split; [reflexivity|]. exists ja, ra. rewrite Hj, Hra.
      repeat (split; [first [reflexivity | assumption]|]).
      intros k Hmem. apply mem_keys in Hmem. simpl in Hmem. simpl. tauto.
Qed.

Lemma get_supported_chains_lists_stargate_witness :
  Dict.get [ ("stargate", stargate_chain_names) ] "stargate"
  = Some (map PStr (Dict.keys STARGATE_CHAINS)) /\
  exists jumper_answer relay_answer,
    filter is_http
      (run_events (fresh_state silent_env)
         (snd (get_supported_chains (R:=unit) (fun _ => "") aggregator
                 (fresh_state silent_env))))
    = [ query_request (jumper_service aggregator) JumperChains jumper_answer;
        query_request (relay_service aggregator) RelayChains relay_answer ] /\
    Dict.get [ ("stargate", stargate_chain_names) ] "jumper"
    = (if truthy (reply_value jumper_answer)
       then chain_list chain_key (reply_value jumper_answer)
       else None) /\
    Dict.get [ ("stargate", stargate_chain_names) ] "relay"
    = (if truthy (reply_value relay_answer)
       then chain_list (chain_id_text (fun _ => "")) (reply_value relay_answer)
       else None) /\
    forall k, Dict.mem [ ("stargate", stargate_chain_names) ] k = true ->
              In k ["jumper"; "stargate"; "relay"].
Proof.
  apply (get_supported_chains_lists_stargate unit (fun _ => "") aggregator
           (fresh_state silent_env) _ _).
  vm_compute. reflexivity.
Defined.

(** X18: when Jumper answers the chain query with a truthy value that is not a
    collection of objects, [get_supported_chains] raises, and Relay is not
    asked; a non-empty JSON object is such a value. *)
Theorem get_supported_chains_raises_on_malformed_reply :
  (forall (R : Type) (str : pyval -> string) (self : BridgeAggregator)
          (s s' : state) (r : outcome R (dict (list pyval)))
          (chains : pyval),
      get_supported_chains (R:=R) str self s = (r, s') ->
      hd_error (run_events s s')
      = Some (query_request (jumper_service self) JumperChains
                (Returns chains)) ->
      truthy chains = true ->
      chain_list chain_key chains = None ->
      r = Exc /\
      run_events s s'
      = [ query_request (jumper_service self) JumperChains
            (Returns chains) ]) /\
  (forall entries : dict pyval,
      entries <> [] -> chain_list chain_key (PDict entries) = None).
Proof.
  split.
  - intros R str self s s' r chains Hrun Hhd Ht Hk.
    pose proof (wp_run _ _ _ (get_supported_chains_run R str self s) _ _ Hrun)
      as (ja & H).
    assert (Hfirst : hd_error (filter is_http (run_events s s'))
                     = Some (query_request (jumper_service self) JumperChains
                               ja)).
    { destruct (truthy (reply_value ja));
        [destruct (chain_list chain_key (reply_value ja))|].
      - apply relay_chains_listed_requests in H. destruct H as (ra & ->).
        reflexivity.
      - destruct H as [_ ->]. reflexivity.
      - apply relay_chains_listed_requests in H. destruct H as (ra & ->).
        reflexivity. }
    assert (Hja : ja = Returns chains).
    { destruct (run_events s s') as [|e evs]; [discriminate|].
      injection Hhd as ->. simpl in Hfirst. injection Hfirst as Hfirst.
      congruence. }
    subst ja. cbn [reply_value] in H. rewrite Ht, Hk in H. exact H.
  - intros entries Hne. apply chain_list_object; [|exact Hne].
    reflexivity.
Qed.

Lemma get_supported_chains_raises_on_malformed_reply_witness :
  fst (get_supported_chains (R:=unit) (fun _ => "") aggregator
         (fresh_state wrapped_chains_env)) = Exc /\
  run_events (fresh_state wrapped_chains_env)
    (snd (get_supported_chains (R:=unit) (fun _ => "") aggregator
            (fresh_state wrapped_chains_env)))
  = [ query_request (jumper_service aggregator) JumperChains
        (Returns (PDict [ ("chains",
                           PList [ PDict [ ("key", PStr "eth");
                                           ("id", PInt 1) ] ]) ])) ].
Proof.
  apply (proj1 get_supported_chains_raises_on_malformed_reply unit
           (fun _ => "") aggregator (fresh_state wrapped_chains_env) _ _ _
           (surjective_pairing _)); reflexivity.
Defined.

(** ** Timestamps never lie in the past *)



(** ** [available_tokens] as [execute_random_bridge] prepares it *)

Lemma get_app_fresh {V} (d d' : dict V) k :
  ~ In k (Dict.keys d) -> Dict.get (d ++ d')%list k = Dict.get d' k.
Proof.
  induction d as [|[k' v] d IH]; simpl; [reflexivity|].
  intros H. destruct (String.eqb_spec k' k) as [->|_]; [tauto|].
  apply IH. tauto.
Qed.

Lemma set_app_fresh {V} (d d' : dict V) k v :
  ~ In k (Dict.keys d) ->
  Dict.set (d ++ d')%list k v = (d ++ Dict.set d' k v)%list.
Proof.
  induction d as [|[k' v'] d IH]; simpl; [reflexivity|].
  intros H. destruct (String.eqb_spec k' k) as [->|_]; [tauto|].
  rewrite IH by tauto. reflexivity.
Qed.

Lemma set_fresh {V} (d : dict V) k v :
  ~ In k (Dict.keys d) -> Dict.set d k v = (d ++ [(k, v)])%list.
Proof.
  intros H. rewrite <- (app_nil_r d) at 1.
  rewrite set_app_fresh by exact H. reflexivity.
Qed.

Lemma keys_token_entries tokens :
  Dict.keys (map token_entry tokens) = Dict.keys tokens.
Proof. unfold Dict.keys. rewrite map_map. reflexivity. Qed.

(** The inner loop, on a chain that was just added. *)
Lemma inner_loop_fresh chain (tokens : dict float) :
  forall (acc : dict (dict token_info)) (done : dict float),
    ~ In chain (Dict.keys acc) ->
    NoDup (Dict.keys done ++ Dict.keys tokens) ->
    fold_left
      (fun available_tokens item =>
         set_token available_tokens chain (fst item)
           {| address := "0x..."; balance := snd item |})
      tokens (acc ++ [(chain, map token_entry done)])%list
    = (acc ++ [(chain, map token_entry (done ++ tokens))])%list.
Proof.
  induction tokens as [|[sym bal] tokens IH]; intros acc done Hc Hnd; simpl.
  - rewrite app_nil_r. reflexivity.
  - unfold set_token at 2. rewrite get_app_fresh by exact Hc. simpl.
    rewrite String.eqb_refl.
    rewrite set_app_fresh by exact Hc. simpl. rewrite String.eqb_refl.
    rewrite set_fresh.
    2:{ rewrite keys_token_entries. apply NoDup_remove_2 in Hnd.
        intros Hin. apply Hnd. apply in_or_app. left. exact Hin. }
    change [(sym, {| address := "0x..."; balance := bal |})]
      with (map token_entry [(sym, bal)]).
    rewrite <- map_app.
    etransitivity; [apply (IH acc (done ++ [(sym, bal)])%list Hc)|].
    + unfold Dict.keys in *. rewrite map_app, <- app_assoc. exact Hnd.
    + rewrite <- app_assoc. reflexivity.
Qed.

Lemma outer_loop_fresh (rest : dict (dict float)) :
  forall done : dict (dict float),
    NoDup (Dict.keys done ++ Dict.keys rest) ->
    Forall (fun entry => NoDup (Dict.keys (snd entry))) rest ->
    fold_left
      (fun available_tokens entry =>
         let chain := fst entry in
         let tokens := snd entry in
         let available_tokens := Dict.set available_tokens chain [] in
         fold_left
           (fun available_tokens item =>
              let token_symbol := fst item in
              let balance := snd item in
              let token_address := "0x..." in
              set_token available_tokens chain token_symbol
                {| address := token_address; balance := balance |})
           tokens available_tokens)
      rest
      (map (fun entry => (fst entry, map token_entry (snd entry))) done)
    = map (fun entry => (fst entry, map token_entry (snd entry)))
        (done ++ rest)%list.
Proof.
  induction rest as [|[chain tokens] rest IH]; intros done Hnd Hall; simpl.
  - rewrite app_nil_r. reflexivity.
  - assert (Hfresh : ~ In chain
                       (Dict.keys
                          (map (fun entry : string * dict float =>
                                  (fst entry, map token_entry (snd entry)))
                             done))).
    { unfold Dict.keys. rewrite map_map. simpl.
      apply NoDup_remove_2 in Hnd. intros Hin. apply Hnd.
      apply in_or_app. left. exact Hin. }
    rewrite set_fresh by exact Hfresh.
    inversion Hall as [|? ? Htok Hrest]; subst.
    pose proof (inner_loop_fresh chain tokens _ [] Hfresh Htok) as Hinner.
    simpl in Hinner.
    match goal with
    | |- fold_left ?F rest ?a = _ =>
        transitivity
          (fold_left F rest
             (map (fun entry : string * dict float =>
                     (fst entry, map token_entry (snd entry)))
                (done ++ [(chain, tokens)])%list))
    end.
    { f_equal. rewrite map_app. exact Hinner. }
    etransitivity; [apply (IH (done ++ [(chain, tokens)])%list)|].
    + unfold Dict.keys in *. rewrite map_app, <- app_assoc. exact Hnd.
    + exact Hrest.
    + rewrite <- app_assoc. reflexivity.
Qed.

(** X20: for balances in which no chain and no token of a chain occurs twice,
    the two loops of [execute_random_bridge] build [available_tokens] with the
    chains and the tokens of the balances, in the same order, each token with
    the placeholder address and its balance. *)
Theorem build_available_tokens_entries :
  forall balances : dict (dict float),
    unique_keys balances ->
    build_available_tokens balances
    = map (fun entry => (fst entry, map token_entry (snd entry))) balances.
Proof.
  intros b [Hnd Hall]. unfold build_available_tokens.
  exact (outer_loop_fresh b [] Hnd Hall).
Qed.

Lemma build_available_tokens_entries_witness :
  build_available_tokens two_chain_balances
  = map (fun entry => (fst entry, map token_entry (snd entry)))
      two_chain_balances.
Proof.
  apply build_available_tokens_entries.
  split; repeat constructor; simpl; intuition discriminate.
Defined.

Lemma get_Forall {V} (P : string * V -> Prop) (d : dict V) k v :
  Forall P d -> Dict.get d k = Some v -> exists k', P (k', v).
Proof.
  induction d as [|[k' v'] d IH]; simpl; [discriminate|].
  intros Hall Hget. inversion Hall as [|? ? Hhd Htl]; subst.
  destruct (String.eqb k' k).
  - injection Hget as <-. eauto.
  - apply IH; assumption.
Qed.

Lemma set_Forall {V} (P : string * V -> Prop) (d : dict V) k v :
  (forall k', P (k', v)) -> Forall P d -> Forall P (Dict.set d k v).
Proof.
  intros Hv. induction d as [|[k' v'] d IH]; simpl; intros Hall.
  - constructor; [apply Hv | constructor].
  - inversion Hall as [|? ? Hhd Htl]; subst.
    destruct (String.eqb k' k); constructor; auto.
Qed.

Lemma set_token_placeholder tokens chain sym bal :
  placeholder_addresses tokens ->
  placeholder_addresses
    (set_token tokens chain sym {| address := "0x..."; balance := bal |}).
Proof.
  unfold placeholder_addresses, set_token. intros H.
  destruct (Dict.get tokens chain) as [toks|] eqn:E; [|exact H].
  destruct (get_Forall _ _ _ _ H E) as (k' & Htoks). simpl in Htoks.
  apply set_Forall; [|exact H].
  intros ?. simpl. apply set_Forall; [reflexivity | exact Htoks].
Qed.

Lemma token_loop_placeholder chain (tokens : dict float) :
  forall acc : dict (dict token_info),
    placeholder_addresses acc ->
    placeholder_addresses
      (fold_left
         (fun available_tokens item =>
            set_token available_tokens chain (fst item)
              {| address := "0x..."; balance := snd item |})
         tokens acc).
Proof.
  induction tokens as [|[sym bal] tokens IH]; intros acc Hacc; simpl;
    [exact Hacc|].
  apply IH, set_token_placeholder, Hacc.
Qed.

Lemma chain_loop_placeholder (balances : dict (dict float)) :
  forall acc : dict (dict token_info),
    placeholder_addresses acc ->
    placeholder_addresses
      (fold_left
         (fun available_tokens entry =>
            fold_left
              (fun available_tokens item =>
                 set_token available_tokens (fst entry) (fst item)
                   {| address := "0x..."; balance := snd item |})
              (snd entry) (Dict.set available_tokens (fst entry) []))
         balances acc).
Proof.
  induction balances as [|[chain tokens] rest IH]; intros acc Hacc; simpl;
    [exact Hacc|].
  apply IH, token_loop_placeholder.
  apply set_Forall; [intros ?; constructor | exact Hacc].
Qed.

Lemma build_available_tokens_placeholder balances :
  placeholder_addresses (build_available_tokens balances).
Proof.
  apply (chain_loop_placeholder balances []). constructor.
Qed.

(** X21: every transfer that [select_random_transaction] selects from the
    [available_tokens] that [execute_random_bridge] builds carries the
    placeholder ["0x..."] as token address. *)
Theorem selected_token_address_is_placeholder :
  forall (R : Type) (wallet_address : string) (available_chains : list string)
         (balances : dict (dict float)) (s s' : state)
         (from_chain to_chain token_symbol token_address : string)
         (amount : float),
    select_random_transaction (R:=R) wallet_address available_chains
      (build_available_tokens balances) s
    = (Val (Some (from_chain, to_chain, token_symbol, token_address, amount)),
       s') ->
    token_address = "0x...".
Proof.
  intros R w chains b s s' f t k addr amt Hrun.
  destruct (select_random_transaction_run R w chains
              (build_available_tokens b) s)
    as [[_ E] | (f' & toks & sym & info & _ & Hget & _ & Hinfo & H)].
  { rewrite E in Hrun. discriminate. }
  cbv zeta in H.
  destruct H as [[_ E] | [(_ & _ & E) | (_ & t' & _ & E)]];
    rewrite E in Hrun; try discriminate.
  injection Hrun as _ _ _ <- _ _.
  destruct (get_Forall _ _ _ _ (build_available_tokens_placeholder b) Hget)
    as (k1 & Htoks). simpl in Htoks.
  destruct (get_Forall _ _ _ _ Htoks Hinfo) as (k2 & Haddr).
  exact Haddr.
Qed.

Lemma selected_token_address_is_placeholder_witness : "0x..." = "0x...".
Proof.
  apply (selected_token_address_is_placeholder unit "0xW"
           ["ethereum"; "arbitrum"] two_chain_balances
           (state_with_draws [0; 0; 0; 0]%nat)
           (snd (select_random_transaction (R:=unit) "0xW"
                   ["ethereum"; "arbitrum"]
                   (build_available_tokens two_chain_balances)
                   (state_with_draws [0; 0; 0; 0]%nat)))
           "ethereum" "arbitrum" "USDC" "0x..." (float_of_Z 10)).
  reflexivity.
Defined.

(** ** Reading the value and the approval amount *)

Lemma prefix_0x s : String.prefix "0x" ("0x" ++ s) = true.
Proof. simpl. destruct s; reflexivity. Qed.

(** X22: the value of a submission as the Jumper and Relay adapters read it: a
    JSON integer is taken as it is; a string of hexadecimal digits after the
    prefix 0x is read in base 16; a string without that prefix is read in
    base 10, so that one with a character that no decimal literal has is
    rejected, as "ff" is; the default "0" reads 0. *)
Theorem tx_value_reading :
  (forall n : Z, parse_tx_value (PInt n) = Some n) /\
  (forall digits : list ascii,
      digits <> [] ->
      Forall (fun c => is_hex_digit c = true) digits ->
      parse_tx_value (PStr ("0x" ++ string_of_list_ascii digits))
      = Some (hex_value digits)) /\
  (forall s : string,
      String.prefix "0x" s = false ->
      parse_tx_value (PStr s) = py_int_of_string 10 s) /\
  (forall (s : string) (c : ascii),
      String.prefix "0x" s = false ->
      In c (list_ascii_of_string s) -> int_literal_char c = false ->
      parse_tx_value (PStr s) = None) /\
  parse_tx_value (PStr "0") = Some 0 /\
  parse_tx_value (PStr "ff") = None.
Proof.
  split; [reflexivity|]. split; [|split; [|split; [|split; reflexivity]]].
  - intros digits Hne Hall.
    destruct (py_int16_hex_digits digits Hne Hall) as [_ H].
    unfold parse_tx_value. cbn [isinstance_str is_0x_string andb].
    rewrite prefix_0x. exact H.
  - intros s Hs. unfold parse_tx_value. simpl. rewrite Hs. reflexivity.
  - intros s c Hs Hin Hc. unfold parse_tx_value. simpl. rewrite Hs.
    simpl. eapply py_int_of_string_rejects; eassumption.
Qed.

(** X23: the approval amount as the Relay adapter reads it: a JSON integer is
    taken as it is; a string is always read in base 16, so that "100" is
    approved as 256; an absent amount approves 0. *)
Theorem relay_approval_amount_reading :
  (forall (d : dict pyval) (n : Z),
      Dict.get d "amount" = Some (PInt n) ->
      Relay.parse_approval_amount (PDict d) = Some n) /\
  (forall (d : dict pyval) (text : string),
      Dict.get d "amount" = Some (PStr text) ->
      Relay.parse_approval_amount (PDict d) = py_int_of_string 16 text) /\
  (forall (d : dict pyval) (digits : list ascii),
      Dict.get d "amount" = Some (PStr (string_of_list_ascii digits)) ->
      digits <> [] ->
      Forall (fun c => is_hex_digit c = true) digits ->
      Relay.parse_approval_amount (PDict d) = Some (hex_value digits)) /\
  (forall d : dict pyval,
      Dict.get d "amount" = None ->
      Relay.parse_approval_amount (PDict d) = Some 0) /\
  Relay.parse_approval_amount (PDict [ ("amount", PStr "100") ]) = Some 256.
Proof.
  split; [|split; [|split; [|split; [|reflexivity]]]].
  - intros d n H. unfold Relay.parse_approval_amount. simpl. rewrite H.
    reflexivity.
  - intros d text H. unfold Relay.parse_approval_amount. simpl. rewrite H.
    reflexivity.
  - intros d digits H Hne Hall. unfold Relay.parse_approval_amount. simpl.
    rewrite H. simpl.
    destruct (py_int16_hex_digits digits Hne Hall) as [H1 _]. exact H1.
  - intros d H. unfold Relay.parse_approval_amount. simpl. rewrite H.
    reflexivity.
Qed.

(** ** The chains of a Stargate service *)

Lemma stargate_new_fold (connects binds : string -> bool)
  (chains : dict stargate_chain) :
  forall self : Stargate.service,
    fold_left
      (fun (self : Stargate.service) (entry : string * stargate_chain) =>
         let chain_name := fst entry in
         if Dict.mem RPC_URLS chain_name then
           if connects chain_name then
             let self :=
               {| Stargate.web3_connections :=
                    Stargate.web3_connections self ++ [chain_name];
                  Stargate.router_contracts :=
                    Stargate.router_contracts self |} in
             if binds chain_name then
               {| Stargate.web3_connections := Stargate.web3_connections self;
                  Stargate.router_contracts :=
                    Stargate.router_contracts self ++ [chain_name] |}
             else self
           else self
         else self)
      chains self
    = {| Stargate.web3_connections :=
           Stargate.web3_connections self ++
           filter (fun chain => Dict.mem RPC_URLS chain && connects chain)
             (Dict.keys chains);
         Stargate.router_contracts :=
           Stargate.router_contracts self ++
           filter (fun chain =>
                     Dict.mem RPC_URLS chain && connects chain && binds chain)
             (Dict.keys chains) |}%list.
Proof.
  induction chains as [|[chain c] chains IH]; intros self.
  - simpl. rewrite !app_nil_r. destruct self; reflexivity.
  - cbn [fold_left fst Dict.keys map filter]. cbv zeta.
    fold (Dict.keys chains).
    destruct (Dict.mem RPC_URLS chain), (connects chain), (binds chain);
      rewrite IH; cbn [andb Stargate.web3_connections
                         Stargate.router_contracts];
      rewrite <- ?app_assoc; reflexivity.
Qed.

Lemma stargate_new_chains connects binds :
  let self := Stargate.new connects binds in
  Stargate.web3_connections self
  = filter (fun chain => Dict.mem RPC_URLS chain && connects chain)
      (Dict.keys STARGATE_CHAINS) /\
  Stargate.router_contracts self
  = filter (fun chain =>
              Dict.mem RPC_URLS chain && connects chain && binds chain)
      (Dict.keys STARGATE_CHAINS).
Proof.
  unfold Stargate.new. rewrite stargate_new_fold. split; reflexivity.
Qed.

Lemma rpc_chain_of_stargate chain :
  In chain (Dict.keys STARGATE_CHAINS) ->
  Dict.mem RPC_URLS chain = true ->
  In chain ["ethereum"; "avalanche"; "polygon"; "arbitrum"; "optimism";
            "base"].
Proof.
  simpl. intros H.
  repeat destruct H as [<- | H]; try contradiction; simpl; auto 10.
  discriminate.
Qed.

(** X24: whatever connections succeed in [__init__], the router contracts of
    a Stargate service are among the six Stargate chains that have an RPC
    endpoint, each with its web3 connection; [bsc], though a Stargate chain,
    is never among them, so that a run from [bsc] returns [None] without
    making any call. *)
Theorem stargate_service_never_supports_bsc :
  forall (connects binds : string -> bool),
    let self := Stargate.new connects binds in
    (forall chain,
        Stargate.has_key (Stargate.router_contracts self) chain = true ->
        Stargate.has_key (Stargate.web3_connections self) chain = true /\
        In chain ["ethereum"; "avalanche"; "polygon"; "arbitrum"; "optimism";
                  "base"]) /\
    Dict.mem STARGATE_CHAINS "bsc" = true /\
    Stargate.has_key (Stargate.router_contracts self) "bsc" = false /\
    (forall (R : Type)
            (wallet_address to_chain token_symbol amount : string)
            (token_address : pyval) (s : state),
        let run :=
          Stargate.execute_bridge (R:=R) self wallet_address "bsc" to_chain
            token_symbol amount token_address s in
        fst run = Val PNone /\ existsb is_call (run_events s (snd run)) = false).
Proof.
  intros connects binds self.
  destruct (stargate_new_chains connects binds) as [Hw Hr].
  fold self in Hw, Hr.
  assert (Hkey : forall l chain,
             Stargate.has_key l chain = true <-> In chain l).
  { intros l chain. unfold Stargate.has_key. rewrite existsb_exists. split.
    - intros (x & Hin & Hx). apply String.eqb_eq in Hx. subst. exact Hin.
    - intros Hin. exists chain. split; [exact Hin | apply String.eqb_refl]. }
  assert (Hin6 : forall chain,
             In chain (Stargate.router_contracts self) ->
             In chain ["ethereum"; "avalanche"; "polygon"; "arbitrum";
                       "optimism"; "base"] /\
             In chain (Stargate.web3_connections self)).
  { intros chain H. rewrite Hr in H. apply filter_In in H.
    destruct H as [Hin Hc]. rewrite !andb_true_iff in Hc.
    destruct Hc as [[Hrpc Hc] _]. split.
    - apply rpc_chain_of_stargate; assumption.
    - rewrite Hw. apply filter_In. rewrite Hrpc, Hc. auto. }
  assert (Hbsc : Stargate.has_key (Stargate.router_contracts self) "bsc"
                 = false).
  { destruct (Stargate.has_key (Stargate.router_contracts self) "bsc") eqn:E;
      [|reflexivity].
    apply Hkey in E. apply Hin6 in E. destruct E as [E _].
    simpl in E. intuition discriminate. }
  split; [|split; [reflexivity | split; [exact Hbsc|]]].
  - intros chain H. apply Hkey in H. apply Hin6 in H.
    destruct H as [H6 Hweb]. split; [apply Hkey, Hweb | exact H6].
  - intros R w t k a ta s run.
    pose proof (stargate_run_follows_tables R self w "bsc" t k a ta s)
      as (_ & H & _).
    destruct (H Hbsc) as [Hr' Hev]. fold run in Hr', Hev.
    split; [exact Hr'|]. rewrite Hev. reflexivity.
Qed.

(** ** [check_all_balances] *)

Lemma keys_set {V} (d : dict V) k v x :
  In x (Dict.keys (Dict.set d k v)) <-> x = k \/ In x (Dict.keys d).
Proof.
  induction d as [|[k' v'] d IH]; simpl.
  - intuition.
  - destruct (String.eqb_spec k' k) as [->|Hne]; simpl.
    + intuition.
    + rewrite IH. intuition.
Qed.

Lemma NoDup_keys_set {V} (d : dict V) k v :
  NoDup (Dict.keys d) -> NoDup (Dict.keys (Dict.set d k v)).
Proof.
  induction d as [|[k' v'] d IH]; simpl; intros H.
  - constructor; [intros [] | constructor].
  - inversion H as [|? ? Hnotin Hnd]; subst.
    destruct (String.eqb_spec k' k) as [->|Hne]; simpl.
    + constructor; assumption.
    + constructor; [|apply IH, Hnd].
      intros Hin. apply keys_set in Hin. destruct Hin as [-> | Hin]; auto.
Qed.

Lemma get_set {V} (d : dict V) k v x :
  Dict.get (Dict.set d k v) x
  = if String.eqb k x then Some v else Dict.get d x.
Proof.
  induction d as [|[k' v'] d IH]; simpl.
  - reflexivity.
  - destruct (String.eqb_spec k' k) as [->|Hne]; simpl.
    + destruct (String.eqb k x); reflexivity.
    + rewrite IH. destruct (String.eqb_spec k' x) as [->|Hx];
        [|reflexivity].
      destruct (String.eqb_spec k x) as [->|_]; [congruence | reflexivity].
Qed.

Lemma get_In {V} (d : dict V) k v : Dict.get d k = Some v -> In (k, v) d.
Proof.
  induction d as [|[k' v'] d IH]; simpl; [discriminate|].
  destruct (String.eqb_spec k' k) as [->|_].
  - intros H. injection H as ->. auto.
  - auto.
Qed.

Lemma In_get {V} (d : dict V) k v :
  NoDup (Dict.keys d) -> In (k, v) d -> Dict.get d k = Some v.
Proof.
  induction d as [|[k' v'] d IH]; simpl; [contradiction|].
  intros Hnd [H | H]; inversion Hnd as [|? ? Hnotin Hnd']; subst.
  - injection H as -> ->. rewrite String.eqb_refl. reflexivity.
  - destruct (String.eqb_spec k' k) as [->|_]; [|auto].
    exfalso. apply Hnotin. apply (in_map fst) in H. exact H.
Qed.

(** The loop over the tokens of a chain. *)
Lemma token_loop (read : string -> option float) (tokens : dict string) :
  forall acc : dict float,
    let result :=
      fold_left
        (fun chain_results (item : string * string) =>
           match read (snd item) with
           | Some b => Dict.set chain_results (fst item) b
           | None => chain_results
           end) tokens acc in
    (NoDup (Dict.keys acc) -> NoDup (Dict.keys result)) /\
    (acc <> [] -> result <> []) /\
    (forall sym q,
        Dict.get result sym = Some q ->
        Dict.get acc sym = Some q \/
        exists address, In (sym, address) tokens /\ read address = Some q) /\
    (forall sym,
        ~ In sym (Dict.keys tokens) ->
        Dict.get result sym = Dict.get acc sym) /\
    (NoDup (Dict.keys tokens) ->
     forall sym address q,
       In (sym, address) tokens -> read address = Some q ->
       Dict.get result sym = Some q).
Proof.
  induction tokens as [|[s a] tokens IH]; intros acc; simpl.
  - repeat split; auto. intros _ sym address q [].
  - set (acc' := match read a with
                 | Some b => Dict.set acc s b
                 | None => acc
                 end).
    destruct (IH acc') as (H1 & H2 & H3 & H4 & H5).
    assert (Hacc' : forall sym,
               Dict.get acc' sym
               = match read a with
                 | Some b => if String.eqb s sym then Some b
                             else Dict.get acc sym
                 | None => Dict.get acc sym
                 end).
    { intros sym. unfold acc'. destruct (read a); [apply get_set|reflexivity]. }
    split; [|split; [|split; [|split]]].
    + intros Hnd. apply H1. unfold acc'.
      destruct (read a); [apply NoDup_keys_set, Hnd | exact Hnd].
    + intros Hne. apply H2. unfold acc'. destruct (read a); [|exact Hne].
      destruct acc as [|[k v] acc]; [congruence|]. simpl.
      destruct (String.eqb k s); discriminate.
    + intros sym q Hget. destruct (H3 sym q Hget) as [Hacc | (address & Hin & Hr)].
      * rewrite Hacc' in Hacc. destruct (read a) as [b|] eqn:Ha; [|auto].
        destruct (String.eqb_spec s sym) as [->|_]; [|auto].
        injection Hacc as ->. right. exists a. auto.
      * right. exists address. auto.
    + intros sym Hnotin. rewrite H4 by tauto. rewrite Hacc'.
      destruct (read a); [|reflexivity].
      destruct (String.eqb_spec s sym) as [->|_]; [tauto | reflexivity].
    + intros Hnd sym address q Hin Hr.
      inversion Hnd as [|? ? Hnotin Hnd']; subst.
      destruct Hin as [Hin | Hin].
      * injection Hin as -> ->. rewrite H4 by exact Hnotin.
        rewrite Hacc', Hr, String.eqb_refl. reflexivity.
      * apply (H5 Hnd' sym address q Hin Hr).
Qed.

Lemma token_addresses_unique chain_id :
  NoDup (Dict.keys (get_token_addresses chain_id)) /\
  ~ In (native_symbol_of chain_id) (Dict.keys (get_token_addresses chain_id)).
Proof.
  assert (Hsym : native_symbol_of chain_id = "ETH" \/
                 native_symbol_of chain_id = "BNB" \/
                 native_symbol_of chain_id = "AVAX").
  { unfold native_symbol_of.
    destruct (String.eqb chain_id "binance-smart-chain"); [auto|].
    destruct (String.eqb chain_id "avalanche"); auto. }
  unfold get_token_addresses. cbv zeta. cbn [Dict.get].
  destruct (String.eqb "ethereum" chain_id);
    [|destruct (String.eqb "polygon" chain_id)];
    cbn [Dict.keys map fst].
  - split; [repeat constructor; simpl; intuition discriminate|].
    destruct Hsym as [-> | [-> | ->]]; simpl; intuition discriminate.
  - split; [repeat constructor; simpl; intuition discriminate|].
    destruct Hsym as [-> | [-> | ->]]; simpl; intuition discriminate.
  - split; [constructor | intros []].
Qed.

(** The balances collected for one chain. *)
Lemma chain_balances_spec self w chain :
  let toks := chain_balances self w chain in
  NoDup (Dict.keys toks) /\
  (forall sym q,
      Dict.get toks sym = Some q <->
      (sym = native_symbol_of chain /\
       get_native_balance self chain w = Some q) \/
      (exists address,
          Dict.get (get_token_addresses chain) sym = Some address /\
          get_token_balance self chain address w = Some q)).
Proof.
  intros toks. unfold toks, chain_balances.
  destruct (token_addresses_unique chain) as [Hnd Hnative].
  match goal with
  | |- context [fold_left _ _ ?a] =>
      destruct (token_loop (fun address =>
                              get_token_balance self chain address w)
                  (get_token_addresses chain) a) as (H1 & _ & H3 & H4 & H5)
  end.
  split.
  - apply H1. destruct (get_native_balance self chain w); simpl;
      [constructor; [intros [] | constructor] | constructor].
  - intros sym q. split.
    + intros Hget. destruct (H3 sym q Hget) as [Hacc | (address & Hin & Hr)].
      * left. destruct (get_native_balance self chain w) as [b|];
          [|discriminate]. simpl in Hacc.
        destruct (String.eqb_spec (native_symbol_of chain) sym) as [<-|_];
          [|discriminate].
        injection Hacc as ->. auto.
      * right. exists address. split; [apply In_get; assumption | exact Hr].
    + intros [[-> Hn] | (address & Hget & Hr)].
      * rewrite H4 by exact Hnative. rewrite Hn. simpl.
        rewrite String.eqb_refl. reflexivity.
      * apply (H5 Hnd sym address q); [apply get_In, Hget | exact Hr].
Qed.

Lemma check_chain_spec self w results chain :
  check_chain self w results chain
  = if reported self w chain
    then Dict.set results chain (chain_balances self w chain)
    else results.
Proof.
  unfold check_chain, reported.
  destruct (existsb (String.eqb chain) (connected_chains self)); reflexivity.
Qed.

Lemma check_chains_fresh self w (chains : list string) :
  forall results : dict (dict float),
    NoDup chains ->
    (forall c, In c chains -> ~ In c (Dict.keys results)) ->
    fold_left (check_chain self w) chains results
    = (results ++
       map (fun c => (c, chain_balances self w c))
         (filter (reported self w) chains))%list.
Proof.
  induction chains as [|c chains IH]; intros results Hnd Hfresh; simpl.
  - rewrite app_nil_r. reflexivity.
  - inversion Hnd as [|? ? Hnotin Hnd']; subst.
    rewrite check_chain_spec. destruct (reported self w c).
    + rewrite set_fresh by (apply Hfresh; left; reflexivity).
      rewrite IH; [simpl; rewrite <- app_assoc; reflexivity | exact Hnd' |].
      intros c' Hin. unfold Dict.keys. rewrite map_app, in_app_iff. simpl.
      intros [H | [-> | []]]; [|contradiction].
      apply (Hfresh c'); [right; exact Hin | exact H].
    + apply IH; [exact Hnd'|]. intros c' Hin. apply Hfresh. right. exact Hin.
Qed.

Lemma supported_chains_distinct : NoDup SUPPORTED_CHAINS.
Proof. repeat constructor; simpl; intuition discriminate. Qed.

(** The result of [check_all_balances], chain by chain. *)
Lemma check_all_balances_map self w :
  check_all_balances self w
  = map (fun c => (c, chain_balances self w c))
      (filter (reported self w) SUPPORTED_CHAINS).
Proof.
  unfold check_all_balances.
  rewrite check_chains_fresh; [reflexivity | | intros c _ []].
  apply supported_chains_distinct.
Qed.

Lemma check_all_balances_keys self w :
  Dict.keys (check_all_balances self w)
  = filter (reported self w) SUPPORTED_CHAINS.
Proof.
  rewrite check_all_balances_map. unfold Dict.keys. rewrite map_map. simpl.
  apply map_id.
Qed.

Lemma check_all_balances_unique self w :
  unique_keys (check_all_balances self w).
Proof.
  split.
  - rewrite check_all_balances_keys. apply NoDup_filter.
    apply supported_chains_distinct.
  - rewrite check_all_balances_map. apply Forall_map. apply Forall_forall.
    intros c _. simpl. apply chain_balances_spec.
Qed.

Lemma check_all_balances_get self w chain tokens :
  Dict.get (check_all_balances self w) chain = Some tokens ->
  tokens = chain_balances self w chain /\
  tokens <> [] /\
  In chain SUPPORTED_CHAINS /\ In chain (connected_chains self).
Proof.
  intros Hget. apply get_In in Hget. rewrite check_all_balances_map in Hget.
  apply in_map_iff in Hget. destruct Hget as (c & Hc & Hin).
  injection Hc as Hc1 Hc2. subst chain tokens.
  apply filter_In in Hin. destruct Hin as [Hin Hrep].
  unfold reported in Hrep. apply andb_true_iff in Hrep.
  destruct Hrep as [Hconn Hne].
  split; [reflexivity|]. split; [|split; [exact Hin|]].
  - destruct (chain_balances self w c); [discriminate | discriminate].
  - apply existsb_exists in Hconn. destruct Hconn as (x & Hx & E).
    apply String.eqb_eq in E. subst. exact Hx.
Qed.

(** X25: the result of [check_all_balances] has one entry for each chain of
    [SUPPORTED_CHAINS] that is connected and of which some balance could be
    read, in the order of [SUPPORTED_CHAINS], and no chain or token twice.  No
    entry is empty, and the balances of a chain are exactly the native balance
    that could be read, under the native symbol of the chain, and the balances
    that could be read of the tokens of [get_token_addresses]. *)
Theorem check_all_balances_reports :
  forall (self : balance_checker) (wallet_address : string),
    let balances := check_all_balances self wallet_address in
    unique_keys balances /\
    Dict.keys balances
    = filter (reported self wallet_address) SUPPORTED_CHAINS /\
    (forall chain tokens,
        Dict.get balances chain = Some tokens ->
        tokens <> [] /\
        In chain SUPPORTED_CHAINS /\ In chain (connected_chains self) /\
        forall symbol q,
          Dict.get tokens symbol = Some q <->
          (symbol = native_symbol_of chain /\
           get_native_balance self chain wallet_address = Some q) \/
          (exists address,
              Dict.get (get_token_addresses chain) symbol = Some address /\
              get_token_balance self chain address wallet_address = Some q)).
Proof.
  intros self w balances.
  split; [apply check_all_balances_unique|].
  split; [apply check_all_balances_keys|].
  intros chain tokens Hget.
  destruct (check_all_balances_get _ _ _ _ Hget) as (-> & Hne & Hin & Hconn).
  repeat (split; [assumption|]). apply chain_balances_spec.
Qed.

(** ** The stored balances *)

Lemma mem_set {V} (d : dict V) k v x :
  Dict.mem (Dict.set d k v) x = String.eqb k x || Dict.mem d x.
Proof.
  unfold Dict.mem. rewrite get_set. destruct (String.eqb k x); reflexivity.
Qed.

Lemma set_set {V} (d : dict V) k v v' :
  Dict.set (Dict.set d k v) k v' = Dict.set d k v'.
Proof.
  induction d as [|[k0 v0] d IH]; simpl.
  - rewrite String.eqb_refl. reflexivity.
  - destruct (String.eqb k0 k) eqn:E; simpl; rewrite E.
    + reflexivity.
    + rewrite IH. reflexivity.
Qed.

(** What a call of [update_wallet_info] that returns has done. *)
Lemma update_wallet_info_Some wallets address chain_id token_symbol balance r wallets' :
  WalletManager.update_wallet_info wallets address chain_id token_symbol balance
  = Some (r, wallets') ->
  match Dict.get wallets address with
  | None => r = false /\ wallets' = wallets
  | Some wallet =>
      r = true /\
      exists wd cd chd td,
        wallet = PDict wd /\
        (Dict.get wd "chains" = Some (PDict cd) \/
         Dict.get wd "chains" = None /\ cd = []) /\
        (Dict.get cd chain_id = Some (PDict chd) /\
         Dict.get chd "tokens" = Some (PDict td) \/
         Dict.get cd chain_id = None /\ chd = [] /\ td = []) /\
        wallets'
        = Dict.set wallets address
            (PDict (Dict.set wd "chains"
               (PDict (Dict.set cd chain_id
                  (PDict (Dict.set chd "tokens"
                     (PDict (Dict.set td token_symbol balance))))))))
  end.
Proof.
  unfold WalletManager.update_wallet_info.
  destruct (Dict.get wallets address) as [wallet|];
    [|intros H; injection H as <- <-; auto].
  destruct wallet as [| | | |s| |l|wd]; cbn [py_contains]; try discriminate.
  - destruct (is_substring "chains" s); discriminate.
  - destruct (existsb _ l); discriminate.
  - unfold Dict.mem.
    destruct (Dict.get wd "chains") as [chains|] eqn:Hchains.
    + cbn [negb py_getitem]. rewrite Hchains.
      destruct chains as [| | | |s| |l|cd]; cbn [py_contains]; try discriminate.
      * destruct (is_substring chain_id s); discriminate.
      * destruct (existsb _ l); discriminate.
      * unfold Dict.mem.
        destruct (Dict.get cd chain_id) as [chain|] eqn:Hchain.
        -- cbn [negb py_getitem]. rewrite Hchain.
           destruct chain as [| | | | | | |chd]; try discriminate.
           cbn [py_getitem].
           destruct (Dict.get chd "tokens") as [tokens|] eqn:Htokens;
             [|discriminate].
           destruct tokens as [| | | | | | |td]; try discriminate.
           cbn [py_setitem]. intros H. injection H as <- <-.
           split; [reflexivity|]. exists wd, cd, chd, td. auto 10.
        -- cbn [negb py_setitem py_getitem]. rewrite get_set, String.eqb_refl.
           cbn [py_getitem Dict.get]. rewrite String.eqb_refl.
           cbn [py_setitem]. rewrite set_set.
           intros H. injection H as <- <-.
           split; [reflexivity|]. exists wd, cd, [], []. auto 10.
    + cbn [negb py_setitem py_getitem]. rewrite get_set, String.eqb_refl.
      cbn [py_contains Dict.mem Dict.get negb py_setitem py_getitem].
      rewrite get_set, String.eqb_refl.
      cbn [py_getitem Dict.get]. rewrite String.eqb_refl.
      cbn [py_setitem]. rewrite !set_set.
      intros H. injection H as <- <-.
      split; [reflexivity|]. exists wd, [], [], []. auto 10.
Qed.

(** [get_balance] after an [update_wallet_info] that returned. *)
Lemma get_balance_after_update wallets address chain_id token_symbol balance r wallets' :
  WalletManager.update_wallet_info wallets address chain_id token_symbol balance
  = Some (r, wallets') ->
  r = Dict.mem wallets address /\
  (r = false -> wallets' = wallets) /\
  (forall a, Dict.mem wallets' a = Dict.mem wallets a) /\
  forall a c t,
    WalletManager.get_balance wallets' a c t
    = if r && String.eqb address a && String.eqb chain_id c
         && String.eqb token_symbol t
      then Some balance
      else WalletManager.get_balance wallets a c t.
Proof.
  intros H. apply update_wallet_info_Some in H. unfold Dict.mem at 1.
  destruct (Dict.get wallets address) as [wallet|] eqn:Hwallet.
  - destruct H as (-> & wd & cd & chd & td & -> & Hchains & Hchain & ->).
    split; [reflexivity|]. split; [discriminate|]. split.
    { intros a. rewrite mem_set. unfold Dict.mem.
      destruct (String.eqb_spec address a) as [<-|_]; [|reflexivity].
      rewrite Hwallet. reflexivity. }
    intros a c t. unfold WalletManager.get_balance. rewrite get_set.
    cbn [andb].
    destruct (String.eqb_spec address a) as [<-|_]; [|reflexivity].
    rewrite Hwallet. cbn [andb py_contains py_getitem].
    rewrite mem_set, get_set, String.eqb_refl.
    cbn [orb negb py_contains py_getitem].
    rewrite mem_set, get_set.
    assert (Hcd : Dict.mem wd "chains" = false -> cd = [] /\
                  Dict.get wd "chains" = None).
    { unfold Dict.mem. destruct Hchains as [E | [E ->]]; rewrite E;
        [discriminate | auto]. }
    assert (Hcd' : Dict.mem wd "chains" = true ->
                   Dict.get wd "chains" = Some (PDict cd)).
    { unfold Dict.mem. destruct Hchains as [E | [E ->]]; rewrite E;
        [auto | discriminate]. }
    destruct (String.eqb_spec chain_id c) as [<-|Hc].
    + cbn [orb negb py_contains py_getitem].
      rewrite mem_set, get_set, String.eqb_refl.
      cbn [orb negb py_contains py_getitem]. rewrite mem_set, get_set.
      destruct (String.eqb_spec token_symbol t) as [<-|Ht];
        [reflexivity|].
      cbn [orb].
      destruct (Dict.mem wd "chains") eqn:Hm.
      * rewrite (Hcd' eq_refl). cbn [negb py_contains py_getitem].
        destruct Hchain as [[E1 E2] | (E1 & -> & ->)].
        -- unfold Dict.mem at 2. rewrite E1. cbn [negb py_contains].
           unfold Dict.mem at 2. rewrite E2.
           cbn [negb andb py_getitem]. rewrite E2. reflexivity.
        -- unfold Dict.mem at 2. rewrite E1. reflexivity.
      * destruct (Hcd eq_refl) as [-> _].
        destruct Hchain as [[E1 E2] | (E1 & -> & ->)]; [discriminate|].
        reflexivity.
    + cbn [orb].
      destruct (Dict.mem wd "chains") eqn:Hm.
      * rewrite (Hcd' eq_refl). reflexivity.
      * destruct (Hcd eq_refl) as [-> _]. reflexivity.
  - destruct H as [-> ->]. repeat split; auto.
Qed.

Lemma store_balance_None address chain_id tokens :
  fold_left (WalletService.store_balance address chain_id) tokens None = None.
Proof. induction tokens; simpl; auto. Qed.

Lemma store_chain_None address balances :
  fold_left (WalletService.store_chain address) balances None = None.
Proof.
  induction balances as [|e balances IH]; simpl; [reflexivity|].
  unfold WalletService.store_chain at 2. rewrite store_balance_None. exact IH.
Qed.

Lemma get_fresh {V} (d : dict V) k :
  ~ In k (Dict.keys d) -> Dict.get d k = None.
Proof.
  induction d as [|[k' v] d IH]; simpl; [reflexivity|].
  intros H. destruct (String.eqb_spec k' k) as [->|_]; [tauto|].
  apply IH. tauto.
Qed.

(** The inner loop of [update_balances]. *)
Lemma store_tokens_spec address chain_id (tokens : dict float) :
  forall wallets wallets',
    NoDup (Dict.keys tokens) ->
    fold_left (WalletService.store_balance address chain_id) tokens
      (Some wallets) = Some wallets' ->
    (forall a, Dict.mem wallets' a = Dict.mem wallets a) /\
    (Dict.mem wallets address = false -> wallets' = wallets) /\
    forall a c t,
      WalletManager.get_balance wallets' a c t
      = if Dict.mem wallets address && String.eqb address a
           && String.eqb chain_id c
        then match Dict.get tokens t with
             | Some q => Some (PFloat q)
             | None => WalletManager.get_balance wallets a c t
             end
        else WalletManager.get_balance wallets a c t.
Proof.
  induction tokens as [|[t0 q0] tokens IH]; intros wallets wallets' Hnd; simpl.
  - intros H. injection H as <-. repeat split; auto.
    intros a c t. destruct (_ && _); reflexivity.
  - inversion Hnd as [|? ? Hnotin Hnd']; subst.
    destruct (WalletManager.update_wallet_info wallets address chain_id t0
                (PFloat q0)) as [[r w1]|] eqn:Hupd;
      [|rewrite store_balance_None; discriminate].
    intros Hfold. apply get_balance_after_update in Hupd.
    destruct Hupd as (Hr & Hsame & Hmem & Hget).
    destruct (IH w1 wallets' Hnd' Hfold) as (Hmem' & Hsame' & Hget').
    split; [|split].
    + intros a. rewrite Hmem'. apply Hmem.
    + intros Hno. rewrite Hsame'; [|rewrite Hmem; exact Hno].
      apply Hsame. rewrite Hr. exact Hno.
    + intros a c t. rewrite Hget', Hget, Hmem, Hr.
      destruct (Dict.mem wallets address); cbn [andb]; [|reflexivity].
      destruct (String.eqb address a); cbn [andb]; [|reflexivity].
      destruct (String.eqb chain_id c); cbn [andb]; [|reflexivity].
      destruct (String.eqb_spec t0 t) as [<-|_]; [|reflexivity].
      rewrite (get_fresh tokens t0 Hnotin). reflexivity.
Qed.

(** The two loops of [update_balances]. *)
Lemma store_chains_spec address (balances : dict (dict float)) :
  forall wallets wallets',
    unique_keys balances ->
    fold_left (WalletService.store_chain address) balances (Some wallets)
    = Some wallets' ->
    (forall a, Dict.mem wallets' a = Dict.mem wallets a) /\
    (Dict.mem wallets address = false -> wallets' = wallets) /\
    forall a c t,
      WalletManager.get_balance wallets' a c t
      = match Dict.get balances c with
        | Some tokens =>
            match Dict.get tokens t with
            | Some q =>
                if Dict.mem wallets address && String.eqb address a
                then Some (PFloat q)
                else WalletManager.get_balance wallets a c t
            | None => WalletManager.get_balance wallets a c t
            end
        | None => WalletManager.get_balance wallets a c t
        end.
Proof.
  induction balances as [|[c0 tokens0] balances IH];
    intros wallets wallets' [Hnd Hall]; simpl.
  - intros H. injection H as <-. repeat split; auto.
  - inversion Hnd as [|? ? Hnotin Hnd']; subst.
    inversion Hall as [|? ? Htok Hall']; subst. simpl in Htok.
    unfold WalletService.store_chain at 2. cbn [fst snd].
    destruct (fold_left (WalletService.store_balance address c0) tokens0
                (Some wallets)) as [w1|] eqn:Hinner;
      [|rewrite store_chain_None; discriminate].
    intros Hfold.
    destruct (store_tokens_spec _ _ _ _ _ Htok Hinner) as (Hmem & Hsame & Hget).
    destruct (IH w1 wallets' (conj Hnd' Hall') Hfold)
      as (Hmem' & Hsame' & Hget').
    split; [|split].
    + intros a. rewrite Hmem'. apply Hmem.
    + intros Hno. rewrite Hsame'; [|rewrite Hmem; exact Hno].
      apply Hsame, Hno.
    + intros a c t. rewrite Hget', Hmem, !Hget.
      destruct (String.eqb_spec c0 c) as [<-|Hc].
      * rewrite (get_fresh balances c0 Hnotin).
        rewrite andb_true_r.
        destruct (Dict.mem wallets address && String.eqb address a);
          destruct (Dict.get tokens0 t); reflexivity.
      * rewrite andb_false_r.
        reflexivity.
Qed.

Lemma forallb_get {V} (f : V -> bool) (d : dict V) k v :
  forallb (fun entry => f (snd entry)) d = true ->
  Dict.get d k = Some v -> f v = true.
Proof.
  induction d as [|[k' v'] d IH]; simpl; [discriminate|].
  intros H. apply andb_true_iff in H. destruct H as [H1 H2].
  destruct (String.eqb k' k); [|auto].
  intros E. injection E as <-. exact H1.
Qed.

Lemma forallb_set {V} (f : V -> bool) (d : dict V) k v :
  forallb (fun entry => f (snd entry)) d = true ->
  f v = true ->
  forallb (fun entry => f (snd entry)) (Dict.set d k v) = true.
Proof.
  intros H Hv. induction d as [|[k' v'] d IH]; simpl.
  - rewrite Hv. reflexivity.
  - simpl in H. apply andb_true_iff in H. destruct H as [H1 H2].
    destruct (String.eqb k' k); simpl.
    + rewrite Hv, H2. reflexivity.
    + rewrite H1. auto.
Qed.

(** On a wallet of the form that [add_wallet] and [update_wallet_info]
    leave, [update_wallet_info] returns and keeps the form. *)
Lemma update_wallet_info_storable wallets address chain_id token_symbol balance :
  storable_at wallets address ->
  exists wallets',
    WalletManager.update_wallet_info wallets address chain_id token_symbol
      balance = Some (Dict.mem wallets address, wallets') /\
    storable_at wallets' address.
Proof.
  intros Hst. unfold WalletManager.update_wallet_info, Dict.mem.
  destruct (Dict.get wallets address) as [wallet|] eqn:Hwallet;
    [|exists wallets; split; [reflexivity|];
      intros w Hw; congruence].
  specialize (Hst wallet Hwallet).
  assert (Hdone : forall wallet',
             balances_storable wallet' = true ->
             storable_at (Dict.set wallets address wallet') address).
  { intros wallet' H w. rewrite get_set, String.eqb_refl.
    intros E. injection E as <-. exact H. }
  destruct wallet as [| | | | | | |wd]; try discriminate.
  cbn [balances_storable] in Hst. cbn [py_contains]. unfold Dict.mem.
  destruct (Dict.get wd "chains") as [chains|] eqn:Hchains.
  - destruct chains as [| | | | | | |cd]; try discriminate.
    cbn [negb py_getitem]. rewrite Hchains. cbn [py_contains]. unfold Dict.mem.
    destruct (Dict.get cd chain_id) as [chain|] eqn:Hchain.
    + pose proof (forallb_get _ _ _ _ Hst Hchain) as Hc.
      destruct chain as [| | | | | | |chd]; try discriminate.
      cbn [chain_has_tokens] in Hc.
      cbn [negb py_getitem]. rewrite Hchain. cbn [py_getitem].
      destruct (Dict.get chd "tokens") as [[| | | | | | |td]|];
        try discriminate.
      cbn [py_setitem]. eexists. split; [reflexivity|]. apply Hdone.
      cbn [balances_storable]. rewrite get_set, String.eqb_refl.
      apply forallb_set; [exact Hst|].
      cbn [chain_has_tokens]. rewrite get_set, String.eqb_refl. reflexivity.
    + cbn [negb py_setitem py_getitem]. rewrite get_set, String.eqb_refl.
      cbn [py_getitem Dict.get]. rewrite String.eqb_refl.
      cbn [py_setitem]. eexists. split; [reflexivity|]. apply Hdone.
      cbn [balances_storable]. rewrite get_set, String.eqb_refl.
      apply forallb_set; [apply forallb_set; [exact Hst | reflexivity]|].
      reflexivity.
  - cbn [negb py_setitem py_getitem]. rewrite get_set, String.eqb_refl.
    cbn [py_contains Dict.mem Dict.get negb py_setitem py_getitem].
    rewrite get_set, String.eqb_refl.
    cbn [py_getitem Dict.get]. rewrite String.eqb_refl.
    cbn [py_setitem]. eexists. split; [reflexivity|]. apply Hdone.
    cbn [balances_storable]. rewrite get_set, String.eqb_refl.
    apply forallb_set; [apply forallb_set; reflexivity | reflexivity].
Qed.

Lemma store_tokens_storable address chain_id (tokens : dict float) :
  forall wallets,
    storable_at wallets address ->
    exists wallets',
      fold_left (WalletService.store_balance address chain_id) tokens
        (Some wallets) = Some wallets' /\
      storable_at wallets' address.
Proof.
  induction tokens as [|[t q] tokens IH]; intros wallets Hst; simpl.
  - eauto.
  - destruct (update_wallet_info_storable wallets address chain_id t
                (PFloat q) Hst) as (w1 & -> & Hst1).
    apply IH, Hst1.
Qed.

Lemma store_chains_storable address (balances : dict (dict float)) :
  forall wallets,
    storable_at wallets address ->
    exists wallets',
      fold_left (WalletService.store_chain address) balances (Some wallets)
      = Some wallets' /\
      storable_at wallets' address.
Proof.
  induction balances as [|[c tokens] balances IH]; intros wallets Hst; simpl.
  - eauto.
  - unfold WalletService.store_chain at 2. cbn [fst snd].
    destruct (store_tokens_storable address c tokens wallets Hst)
      as (w1 & -> & Hst1).
    apply IH, Hst1.
Qed.

(** X26: an [update_wallet_info] that returns has returned whether the
    wallet is stored.  For an unknown wallet nothing changes.  For a stored
    wallet [get_balance] then returns the balance just written for that
    wallet, chain and token, and for every other wallet, chain or token it
    behaves as before the update. *)
Theorem update_wallet_info_then_get_balance :
  forall (wallets : dict pyval) (address chain_id token_symbol : string)
         (balance : pyval) (result : bool) (wallets' : dict pyval),
    WalletManager.update_wallet_info wallets address chain_id token_symbol
      balance = Some (result, wallets') ->
    result = Dict.mem wallets address /\
    (result = false -> wallets' = wallets) /\
    (result = true ->
     WalletManager.get_balance wallets' address chain_id token_symbol
     = Some balance) /\
    forall a c t,
      (a, c, t) <> (address, chain_id, token_symbol) ->
      WalletManager.get_balance wallets' a c t
      = WalletManager.get_balance wallets a c t.
Proof.
  intros wallets address chain_id token_symbol balance result wallets' H.
  apply get_balance_after_update in H.
  destruct H as (Hr & Hsame & _ & Hget).
  split; [exact Hr|]. split; [exact Hsame|]. split.
  - intros ->. rewrite Hget, !String.eqb_refl. reflexivity.
  - intros a c t Hne. rewrite Hget.
    destruct (String.eqb_spec address a) as [<-|_];
      [|rewrite andb_false_r; reflexivity].
    destruct (String.eqb_spec chain_id c) as [<-|_];
      [|rewrite andb_false_r; reflexivity].
    destruct (String.eqb_spec token_symbol t) as [<-|_];
      [congruence | rewrite andb_false_r; reflexivity].
Qed.

Lemma update_wallet_info_then_get_balance_witness :
  exists wallets',
    WalletManager.update_wallet_info one_wallet_store "0xW" "ethereum" "ETH"
      (PFloat (fdiv (float_of_Z 3) (float_of_Z 2))) = Some (true, wallets') /\
    WalletManager.get_balance wallets' "0xW" "ethereum" "ETH"
    = Some (PFloat (fdiv (float_of_Z 3) (float_of_Z 2))) /\
    WalletManager.get_balance wallets' "0xW" "ethereum" "USDC" = Some PNone.
Proof.
  eexists. split; [vm_compute; reflexivity|].
  destruct (update_wallet_info_then_get_balance one_wallet_store "0xW"
              "ethereum" "ETH" (PFloat (fdiv (float_of_Z 3) (float_of_Z 2))) true _ eq_refl)
    as (_ & _ & Hget & Hother).
  split; [apply Hget; reflexivity|].
  rewrite Hother by discriminate. reflexivity.
Defined.

(** X27: when [update_balances] returns, it returns the balances of
    [check_all_balances] and the same wallets are stored.  For an unknown
    wallet nothing is stored.  For a stored wallet [get_balance] returns each
    reported balance afterwards, while every balance that was not reported in
    this call, and every other wallet, reads as before: a balance that could
    not be read keeps its earlier value. *)
Theorem update_balances_stores_reported_balances :
  forall (checker : balance_checker) (wallets : dict pyval) (address : string)
         (balances : dict (dict float)) (wallets' : dict pyval),
    WalletService.update_balances checker wallets address
    = Some (balances, wallets') ->
    balances = check_all_balances checker address /\
    (forall a, Dict.mem wallets' a = Dict.mem wallets a) /\
    (Dict.mem wallets address = false -> wallets' = wallets) /\
    (Dict.mem wallets address = true ->
     forall chain tokens symbol q,
       Dict.get balances chain = Some tokens ->
       Dict.get tokens symbol = Some q ->
       WalletManager.get_balance wallets' address chain symbol
       = Some (PFloat q)) /\
    (forall a c t,
        a <> address \/
        (forall tokens,
            Dict.get balances c = Some tokens -> Dict.get tokens t = None) ->
        WalletManager.get_balance wallets' a c t
        = WalletManager.get_balance wallets a c t).
Proof.
  intros checker wallets address balances wallets'.
  unfold WalletService.update_balances. cbv zeta.
  destruct (fold_left (WalletService.store_chain address)
              (check_all_balances checker address) (Some wallets))
    as [w1|] eqn:Hfold; [|discriminate].
  intros H. injection H as <- <-.
  destruct (store_chains_spec _ _ _ _ (check_all_balances_unique _ _) Hfold)
    as (Hmem & Hsame & Hget).
  split; [reflexivity|]. split; [exact Hmem|]. split; [exact Hsame|]. split.
  - intros Hin chain tokens symbol q Hc Ht.
    rewrite Hget, Hc, Ht, Hin, String.eqb_refl. reflexivity.
  - intros a c t Hcase. rewrite Hget.
    destruct (Dict.get (check_all_balances checker address) c)
      as [tokens|]; [|reflexivity].
    destruct (Dict.get tokens t) as [q|] eqn:Ht; [|reflexivity].
    destruct Hcase as [Ha | Hnone].
    + destruct (String.eqb_spec address a) as [<-|_]; [congruence|].
      rewrite andb_false_r. reflexivity.
    + specialize (Hnone tokens eq_refl). congruence.
Qed.

Lemma update_balances_stores_reported_balances_witness :
  exists wallets',
    WalletService.update_balances ethereum_checker one_wallet_store "0xW"
    = Some ([ ("ethereum", [ ("ETH", fdiv (float_of_Z 3) (float_of_Z 2));
           ("USDC", float_of_Z 100) ]) ], wallets')
    /\
    WalletManager.get_balance wallets' "0xW" "ethereum" "USDC"
    = Some (PFloat (float_of_Z 100)).
Proof.
  eexists. split; [vm_compute; reflexivity|].
  destruct (update_balances_stores_reported_balances ethereum_checker
              one_wallet_store "0xW" _ _ eq_refl)
    as (_ & _ & _ & Hget & _).
  apply (Hget eq_refl "ethereum" [ ("ETH", fdiv (float_of_Z 3) (float_of_Z 2));
           ("USDC", float_of_Z 100) ]);
    reflexivity.
Defined.

(** X28: [update_balances] raises nothing when the wallet of the address is
    unknown or has the form that [add_wallet] and [update_wallet_info] leave: a
    dictionary whose ["chains"], when present, maps each chain to a dictionary
    with a dictionary under ["tokens"].  The stored wallet has that form
    afterwards too. *)
Theorem update_balances_returns_on_stored_wallets :
  forall (checker : balance_checker) (wallets : dict pyval) (address : string),
    storable_at wallets address ->
    exists wallets',
      WalletService.update_balances checker wallets address
      = Some (check_all_balances checker address, wallets') /\
      storable_at wallets' address.
Proof.
  intros checker wallets address Hst.
  unfold WalletService.update_balances. cbv zeta.
  destruct (store_chains_storable address
              (check_all_balances checker address) wallets Hst)
    as (w1 & -> & Hst1).
  eauto.
Qed.

Lemma update_balances_returns_on_stored_wallets_witness :
  exists wallets',
    WalletService.update_balances ethereum_checker one_wallet_store "0xW"
    = Some (check_all_balances ethereum_checker "0xW", wallets') /\
    storable_at wallets' "0xW".
Proof.
  apply update_balances_returns_on_stored_wallets.
  intros wallet H. vm_compute in H. injection H as <-. reflexivity.
Defined.

Lemma get_map_entries {A B} (f : A -> B) (d : dict A) k :
  Dict.get (map (fun entry => (fst entry, f (snd entry))) d) k
  = option_map f (Dict.get d k).
Proof.
  induction d as [|[k' v] d IH]; simpl; [reflexivity|].
  destruct (String.eqb k' k); [reflexivity | exact IH].
Qed.

Lemma filter_all {A} (p : A -> bool) (l : list A) :
  (forall x, In x l -> p x = true) -> filter p l = l.
Proof.
  induction l as [|x l IH]; simpl; intros H; [reflexivity|].
  rewrite (H x) by auto. rewrite IH by auto. reflexivity.
Qed.

Lemma In_keys_get {V} (d : dict V) k :
  In k (Dict.keys d) -> exists v, Dict.get d k = Some v.
Proof.
  induction d as [|[k' v] d IH]; simpl; [contradiction|].
  intros [-> | H].
  - rewrite String.eqb_refl. eauto.
  - destruct (String.eqb k' k); eauto.
Qed.

(** X29: with the balances of [check_all_balances], every chain that
    [execute_random_bridge] passes to [select_random_transaction] is a valid
    source chain there, and the tokens offered for a chain are the balances
    reported for it, each under the placeholder address. *)
Theorem reported_chains_are_valid_sources :
  forall (checker : balance_checker) (wallet_address : string),
    let balances := check_all_balances checker wallet_address in
    let available_chains := Dict.keys balances in
    let available_tokens := build_available_tokens balances in
    valid_chains_of available_chains available_tokens = available_chains /\
    forall chain tokens,
      Dict.get balances chain = Some tokens ->
      Dict.get available_tokens chain = Some (map token_entry tokens).
Proof.
  intros checker w balances available_chains available_tokens.
  assert (Htokens : available_tokens
                    = map (fun entry => (fst entry, map token_entry (snd entry)))
                        balances).
  { destruct (check_all_balances_unique checker w) as [Hnd Hall].
    exact (outer_loop_fresh balances [] Hnd Hall). }
  assert (Hget : forall chain tokens,
             Dict.get balances chain = Some tokens ->
             Dict.get available_tokens chain = Some (map token_entry tokens)).
  { intros chain tokens H. rewrite Htokens, get_map_entries.
    exact (f_equal (option_map (map token_entry)) H). }
  split; [|exact Hget].
  unfold valid_chains_of. apply filter_all. intros chain Hin.
  apply In_keys_get in Hin. destruct Hin as (tokens & Hc).
  unfold has_tokens. rewrite (Hget _ _ Hc).
  apply check_all_balances_get in Hc. destruct Hc as (_ & Hne & _).
  destruct tokens; [congruence | reflexivity].
Qed.

Lemma get_dict_del {V} (d : dict V) k x :
  Dict.get (dict_del d k) x
  = if String.eqb k x then None else Dict.get d x.
Proof.
  unfold dict_del. induction d as [|[k' v] d IH]; simpl.
  - destruct (String.eqb k x); reflexivity.
  - destruct (String.eqb_spec k' k) as [->|Hne]; simpl.
    + rewrite IH. destruct (String.eqb k x); reflexivity.
    + rewrite IH. destruct (String.eqb_spec k' x) as [->|_]; [|reflexivity].
      destruct (String.eqb_spec k x) as [->|_]; [congruence | reflexivity].
Qed.

(** X30: when [add_wallet] returns, the wallet is stored under the address
    of the account of the key, the key being prefixed with [0x] when it was
    not.  The returned information holds the name and the address only;
    [get_wallet] returns them with no chains, [get_private_key] returns what
    [decrypt] gives for the encrypted prefixed key, and no balance is stored
    for the wallet, also when a wallet of that address was stored before.
    The other wallets are unchanged.  [remove_wallet] then returns [True];
    afterwards [get_wallet] and [get_private_key] return [None] for the
    address, and the other wallets are still as before the addition. *)
Theorem add_wallet_round_trip :
  forall (self : keyring) (wallets : dict pyval) (name private_key : string)
         (info : pyval) (wallets' : dict pyval),
    WalletManager.add_wallet self wallets name private_key
    = Some (info, wallets') ->
    let key :=
      if String.prefix "0x" private_key then private_key
      else "0x" ++ private_key in
    exists address,
      account_address self key = Some address /\
      info = PDict [ ("name", PStr name); ("address", PStr address) ] /\
      WalletManager.get_wallet wallets' address
      = Some (PDict [ ("name", PStr name); ("address", PStr address);
                      ("chains", PDict []) ]) /\
      WalletManager.get_private_key self wallets' address
      = fernet_decrypt self (fernet_encrypt self key) /\
      (forall chain_id token_symbol,
          WalletManager.get_balance wallets' address chain_id token_symbol
          = Some PNone) /\
      storable_at wallets' address /\
      (forall a, a <> address -> Dict.get wallets' a = Dict.get wallets a) /\
      let removed := WalletManager.remove_wallet wallets' address in
      fst removed = true /\
      WalletManager.get_wallet (snd removed) address = Some PNone /\
      WalletManager.get_private_key self (snd removed) address = None /\
      (forall a, a <> address ->
                 Dict.get (snd removed) a = Dict.get wallets a).
Proof.
  intros self wallets name private_key info wallets'.
  unfold WalletManager.add_wallet. cbv zeta.
  replace (if negb (String.prefix "0x" private_key)
           then "0x" ++ private_key else private_key)
    with (if String.prefix "0x" private_key then private_key
          else "0x" ++ private_key)
    by (destruct (String.prefix "0x" private_key); reflexivity).
  set (key := if String.prefix "0x" private_key then private_key
              else "0x" ++ private_key).
  destruct (account_address self key) as [address|] eqn:Haddr;
    [|discriminate].
  intros H. injection H as <- <-.
  exists address.
  assert (Hget : Dict.get
                   (Dict.set wallets address
                      (PDict [ ("name", PStr name); ("address", PStr address);
                               ("encrypted_key",
                                PStr (fernet_encrypt self key));
                               ("chains", PDict []) ])) address
                 = Some (PDict [ ("name", PStr name);
                                 ("address", PStr address);
                                 ("encrypted_key",
                                  PStr (fernet_encrypt self key));
                                 ("chains", PDict []) ])).
  { rewrite get_set, String.eqb_refl. reflexivity. }
  assert (Hother : forall a, a <> address ->
             Dict.get
               (Dict.set wallets address
                  (PDict [ ("name", PStr name); ("address", PStr address);
                           ("encrypted_key", PStr (fernet_encrypt self key));
                           ("chains", PDict []) ])) a
             = Dict.get wallets a).
  { intros a Ha. rewrite get_set.
    destruct (String.eqb_spec address a); [congruence | reflexivity]. }
  split; [reflexivity|]. split; [reflexivity|].
  split; [unfold WalletManager.get_wallet; rewrite Hget; reflexivity|].
  split; [unfold WalletManager.get_private_key; rewrite Hget; reflexivity|].
  split; [intros c t; unfold WalletManager.get_balance; rewrite Hget;
          reflexivity|].
  split; [intros wallet Hw; rewrite Hget in Hw; injection Hw as <-;
          reflexivity|].
  split; [exact Hother|].
  unfold WalletManager.remove_wallet, Dict.mem. rewrite Hget. cbn [fst snd].
  split; [reflexivity|].
  split; [unfold WalletManager.get_wallet;
          rewrite get_dict_del, String.eqb_refl; reflexivity|].
  split; [unfold WalletManager.get_private_key;
          rewrite get_dict_del, String.eqb_refl; reflexivity|].
  intros a Ha. rewrite get_dict_del.
  destruct (String.eqb_spec address a); [congruence | apply Hother, Ha].
Qed.

Lemma add_wallet_round_trip_witness :
  exists info wallets',
    WalletManager.add_wallet marked_keyring one_wallet_store "second" "ab12"
    = Some (info, wallets') /\
    WalletManager.get_private_key marked_keyring wallets' "account of 0xab12"
    = Some "0xab12" /\
    WalletManager.get_balance wallets' "0xW" "ethereum" "ETH" = Some PNone.
Proof.
  do 2 eexists. split; [vm_compute; reflexivity|].
  destruct (add_wallet_round_trip marked_keyring one_wallet_store "second"
              "ab12" _ _ eq_refl)
    as (address & Haddr & _ & _ & Hkey & _).
  injection Haddr as <-. split; [exact Hkey | reflexivity].
Defined.
